(** * Prompt analysis engine: heuristic detectors, issue fusion and scoring

    A shallow embedding of the Python sources
      - [src/utils/patterns.py]          (PatternMatcher),
      - [src/models/enums.py], [src/models/schemas.py],
      - [src/analyzers/rule_based.py]    (RuleBasedAnalyzer),
      - [src/analyzers/hybrid_analyzer.py] (HybridAnalyzer),
      - the length gate of [src/server.py] (analyze_prompt) and the
        request check of [src/websocket_server.py],
    followed by the properties of the scoring function, of the
    deduplication ("fusion") of issue lists, of the heuristic detector and
    of the request bounds.

    Conventions.  A Python [str] is a Rocq [string]; its characters are the
    code points 0..255 (Latin-1), text with larger code points is outside
    the model.  Python integers are [Z]; lengths, counts and offsets that
    Python computes with [len] are [nat] and are injected into [Z] where
    they become fields of an issue.  Code that can raise returns a
    [result]; code that draws identifiers from [uuid.uuid4] threads the
    number of identifiers drawn so far. *)

From Stdlib Require Import ZArith List Bool Arith Lia.
From Stdlib Require Import Ascii String.
From Stdlib Require Import Sorted Permutation.
From Stdlib Require Import DecimalString.
Import ListNotations.

Local Open Scope string_scope.
Local Open Scope list_scope.
Local Open Scope nat_scope.

(* ================================================================== *)
(** ** The Python runtime, as far as the sources use it *)
(* ================================================================== *)

Module Py.

(** Exceptions that the modelled code can raise. *)
Inductive exn : Type :=
  | ValueError
  | ValidationError
  | KeyError
  | HTTPException (status_code : nat)
  | RuntimeError.

Inductive result (A : Type) : Type :=
  | Ok (a : A)
  | Raise (e : exn).
Arguments Ok {A} a.
Arguments Raise {A} e.

Definition code (c : ascii) : nat := nat_of_ascii c.

Definition in_range (lo hi n : nat) : bool := (lo <=? n) && (n <=? hi).

(** [str.isspace] on one character, which is also [\s] of [re] on [str]:
    the ASCII white space (TAB..CR, FS..US, SPACE) and, in Latin-1,
    NEL (0x85) and NBSP (0xA0). *)
Definition isspace (c : ascii) : bool :=
  let n := code c in
  in_range 9 13 n || in_range 28 32 n || (n =? 133) || (n =? 160).

(** [\d] of [re] on [str]: the decimal digits; in Latin-1 only 0-9. *)
Definition isdecimal (c : ascii) : bool := in_range 48 57 (code c).

(** [str.isalnum] on one character, restricted to Latin-1. *)
Definition isalnum (c : ascii) : bool :=
  let n := code c in
  in_range 48 57 n || in_range 65 90 n || in_range 97 122 n
  || (n =? 170) || (n =? 178) || (n =? 179) || (n =? 181)
  || (n =? 185) || (n =? 186) || in_range 188 190 n
  || in_range 192 214 n || in_range 216 246 n || in_range 248 255 n.

(** [\w] of [re] on [str]: alphanumeric or underscore. *)
Definition isword (c : ascii) : bool := isalnum c || (code c =? 95).

(** [str.lower] on one character, restricted to Latin-1. *)
Definition lower_char (c : ascii) : ascii :=
  let n := code c in
  if in_range 65 90 n then ascii_of_nat (n + 32)
  else if in_range 192 222 n && negb (n =? 215) then ascii_of_nat (n + 32)
  else c.

Fixpoint lower (s : string) : string :=
  match s with
  | EmptyString => EmptyString
  | String c s' => String (lower_char c) (lower s')
  end.

(** [len(s)] *)
Definition len (s : string) : nat := String.length s.

(** [s[i:j]] for [0 <= i <= j]; Python clips the slice to the string. *)
Definition slice (s : string) (i j : nat) : string := substring i (j - i) s.

(** [needle in hay] on strings. *)
Fixpoint contains (hay needle : string) : bool :=
  prefix needle hay
  || match hay with
     | EmptyString => false
     | String _ hay' => contains hay' needle
     end.

(** [s.startswith(p)] *)
Definition startswith (s p : string) : bool := prefix p s.

(** [any(p(x) for x in l)] *)
Definition any {A : Type} (p : A -> bool) (l : list A) : bool := existsb p l.

(** [s.lstrip()], [s.rstrip()], [s.strip()] *)
Fixpoint lstrip (s : string) : string :=
  match s with
  | EmptyString => EmptyString
  | String c s' => if isspace c then lstrip s' else s
  end.

Fixpoint rstrip (s : string) : string :=
  match s with
  | EmptyString => EmptyString
  | String c s' =>
      match rstrip s' with
      | EmptyString => if isspace c then EmptyString else String c EmptyString
      | r => String c r
      end
  end.

Definition strip (s : string) : string := rstrip (lstrip s).

(** [len(s.split())]: the number of maximal runs of non-space characters.
    [in_word] tells whether the previous character belonged to a run. *)
Fixpoint count_fields (in_word : bool) (s : string) : nat :=
  match s with
  | EmptyString => 0
  | String c s' =>
      if isspace c then count_fields false s'
      else if in_word then count_fields true s'
      else S (count_fields true s')
  end.

Definition len_split (s : string) : nat := count_fields false s.

(** [str(n)] for a non-negative integer. *)
Definition str_of_nat (n : nat) : string :=
  NilZero.string_of_uint (Nat.to_uint n).

(** [max(l, key=...)]: the first element whose key is maximal; Python
    replaces the running best only by a strictly larger key and raises
    [ValueError] on an empty sequence. *)
Definition max_by {A K : Type} (lt : K -> K -> bool) (key : A -> K)
    (l : list A) : result A :=
  match l with
  | [] => Raise ValueError
  | x :: rest =>
      Ok (fold_left (fun best y => if lt (key best) (key y) then y else best)
                    rest x)
  end.

(** Comparison of the pairs of integers that serve as sort keys. *)
Definition pair_lt (a b : Z * Z) : bool :=
  (fst a <? fst b)%Z || ((fst a =? fst b)%Z && (snd a <? snd b)%Z).

(** [list.sort(key=...)] is stable: elements with equal keys keep their
    order.  A stable sort has one possible result; it is computed here by
    insertion from the right. *)
Section Sort.
Context {A : Type} (key : A -> Z).

Fixpoint insert_by (x : A) (l : list A) : list A :=
  match l with
  | [] => [x]
  | y :: l' => if (key x <=? key y)%Z then x :: l else y :: insert_by x l'
  end.

Fixpoint sort_by (l : list A) : list A :=
  match l with
  | [] => []
  | x :: l' => insert_by x (sort_by l')
  end.
End Sort.

(** A [dict] keeps its keys in insertion order; an association list in
    that order with one entry per key. *)
Section Dict.
Context {K V : Type} (eqb : K -> K -> bool).

Definition dict := list (K * V).

(** [k in d] *)
Fixpoint dict_mem (k : K) (d : dict) : bool :=
  match d with
  | [] => false
  | (k', _) :: d' => eqb k k' || dict_mem k d'
  end.

(** [d[k] = v]: replaces the value of an existing key in place, appends
    a new key at the end. *)
Fixpoint dict_set (k : K) (v : V) (d : dict) : dict :=
  match d with
  | [] => [(k, v)]
  | (k', v') :: d' =>
      if eqb k k' then (k', v) :: d' else (k', v') :: dict_set k v d'
  end.

(** [d[k]]; a missing key raises [KeyError]. *)
Fixpoint dict_get (k : K) (d : dict) : result V :=
  match d with
  | [] => Raise KeyError
  | (k', v') :: d' => if eqb k k' then Ok v' else dict_get k d'
  end.

(** [d.values()] *)
Definition dict_values (d : dict) : list V := map snd d.
End Dict.

End Py.

(* ================================================================== *)
(** ** The fragment of [re] that the pattern library uses *)
(* ================================================================== *)

Module Re.

(** Character classes: [\s], [\w], [\d] and a bracketed set. *)
Inductive cclass : Type :=
  | CSpace
  | CWord
  | CDigit
  | CSet (members : list ascii).

(** Patterns.  Repetition occurs in the library only as [+] on a
    character class and as [?] on a group. *)
Inductive regex : Type :=
  | Eps
  | Lit (c : ascii)
  | Cls (cc : cclass)
  | Plus (cc : cclass)
  | Bnd                          (* \b *)
  | Cat (r1 r2 : regex)
  | Alt (r1 r2 : regex)
  | Opt (r : regex)
  | NotAhead (r : regex).        (* (?!r) *)

Definition in_class (cc : cclass) (c : ascii) : bool :=
  match cc with
  | CSpace => Py.isspace c
  | CWord => Py.isword c
  | CDigit => Py.isdecimal c
  | CSet members => existsb (Ascii.eqb c) members
  end.

(** A literal of the pattern against a character of the text; under
    [re.IGNORECASE] both are compared in lower case. *)
Definition lit_eq (ignorecase : bool) (p c : ascii) : bool :=
  if ignorecase then Ascii.eqb (Py.lower_char p) (Py.lower_char c)
  else Ascii.eqb p c.

Definition word_opt (c : option ascii) : bool :=
  match c with
  | Some x => Py.isword x
  | None => false
  end.

Definition head (s : string) : option ascii :=
  match s with
  | EmptyString => None
  | String c _ => Some c
  end.

(** The rest of a match: given the character before the current position,
    the position and the remaining text, the end of the whole match. *)
Definition cont := option ascii -> nat -> string -> option nat.

(** Greedy [cc+] after its first character [last]: take as many characters
    as the class allows, give back one at a time while the rest fails. *)
Fixpoint plus_loop (cc : cclass) (last : ascii) (pos : nat) (s : string)
    (k : cont) : option nat :=
  match s with
  | String c s' =>
      if in_class cc c then
        match plus_loop cc c (S pos) s' k with
        | Some e => Some e
        | None => k (Some last) pos s
        end
      else k (Some last) pos s
  | EmptyString => k (Some last) pos s
  end.

(** Backtracking match of [r] at one position, with the priorities of
    [re]: the left alternative first, [?] and [+] greedy. *)
Fixpoint rmatch (ic : bool) (r : regex) (prev : option ascii) (pos : nat)
    (s : string) (k : cont) : option nat :=
  match r with
  | Eps => k prev pos s
  | Lit p =>
      match s with
      | String c s' => if lit_eq ic p c then k (Some c) (S pos) s' else None
      | EmptyString => None
      end
  | Cls cc =>
      match s with
      | String c s' => if in_class cc c then k (Some c) (S pos) s' else None
      | EmptyString => None
      end
  | Plus cc =>
      match s with
      | String c s' =>
          if in_class cc c then plus_loop cc c (S pos) s' k else None
      | EmptyString => None
      end
  | Bnd =>
      if xorb (word_opt prev) (word_opt (head s)) then k prev pos s else None
  | Cat r1 r2 =>
      rmatch ic r1 prev pos s (fun prev' pos' s' => rmatch ic r2 prev' pos' s' k)
  | Alt r1 r2 =>
      match rmatch ic r1 prev pos s k with
      | Some e => Some e
      | None => rmatch ic r2 prev pos s k
      end
  | Opt r1 =>
      match rmatch ic r1 prev pos s k with
      | Some e => Some e
      | None => k prev pos s
      end
  | NotAhead r1 =>
      match rmatch ic r1 prev pos s (fun _ pos' _ => Some pos') with
      | Some _ => None
      | None => k prev pos s
      end
  end.

(** The end of the match of [r] that starts at [pos], if there is one. *)
Definition match_at (ic : bool) (r : regex) (prev : option ascii) (pos : nat)
    (s : string) : option nat :=
  rmatch ic r prev pos s (fun _ pos' _ => Some pos').

(** [re.search]: the leftmost match; [s] is the text from [pos] on. *)
Fixpoint search_from (ic : bool) (r : regex) (prev : option ascii)
    (pos : nat) (s : string) : option (nat * nat) :=
  match match_at ic r prev pos s with
  | Some e => Some (pos, e)
  | None =>
      match s with
      | String c s' => search_from ic r (Some c) (S pos) s'
      | EmptyString => None
      end
  end.

Definition search (ic : bool) (r : regex) (text : string)
    : option (nat * nat) :=
  search_from ic r None 0 text.

(** [re.finditer]: the matches from left to right, each search resuming
    at the end of the previous match; [skip] counts the characters of the
    previous match that are still to be passed.  Every pattern of the
    library consumes at least one character, so the special treatment of
    empty matches by [finditer] never applies. *)
Fixpoint finditer_from (ic : bool) (r : regex) (prev : option ascii)
    (pos : nat) (s : string) (skip : nat) : list (nat * nat) :=
  match skip with
  | S skip' =>
      match s with
      | String c s' => finditer_from ic r (Some c) (S pos) s' skip'
      | EmptyString => []
      end
  | O =>
      match match_at ic r prev pos s with
      | Some e =>
          (pos, e) ::
          match s with
          | String c s' => finditer_from ic r (Some c) (S pos) s' (e - pos - 1)
          | EmptyString => []
          end
      | None =>
          match s with
          | String c s' => finditer_from ic r (Some c) (S pos) s' 0
          | EmptyString => []
          end
      end
  end.

Definition finditer (ic : bool) (r : regex) (text : string)
    : list (nat * nat) :=
  finditer_from ic r None 0 text 0.

(** Builders for writing the patterns of the sources. *)
Fixpoint lit (s : string) : regex :=
  match s with
  | EmptyString => Eps
  | String c EmptyString => Lit c
  | String c s' => Cat (Lit c) (lit s')
  end.

Fixpoint seq (rs : list regex) : regex :=
  match rs with
  | [] => Eps
  | [r] => r
  | r :: rs' => Cat r (seq rs')
  end.

Fixpoint alt (rs : list regex) : regex :=
  match rs with
  | [] => NotAhead Eps
  | [r] => r
  | r :: rs' => Alt r (alt rs')
  end.

Definition alts (ws : list string) : regex := alt (map lit ws).

End Re.

(* ================================================================== *)
(** ** [src/models/enums.py] *)
(* ================================================================== *)

Inductive IssueType : Type :=
  | VAGUE
  | MISSING_CONTEXT
  | INEFFICIENT
  | AMBIGUOUS
  | MISSING_ROLE
  | MISSING_FORMAT
  | TOO_SHORT
  | TOO_LONG.

Module Severity.
Inductive t : Type :=
  | CRITICAL
  | MEDIUM
  | LOW.

(** [Severity.value] *)
Definition value (s : t) : string :=
  match s with
  | CRITICAL => "critical"
  | MEDIUM => "medium"
  | LOW => "low"
  end.

(** [==] on members of the enumeration *)
Definition eqb (a b : t) : bool :=
  match a, b with
  | CRITICAL, CRITICAL | MEDIUM, MEDIUM | LOW, LOW => true
  | _, _ => false
  end.
End Severity.

Module Impact.
Inductive t : Type :=
  | HIGH
  | MEDIUM
  | LOW.
End Impact.

Definition IssueType_eqb (a b : IssueType) : bool :=
  match a, b with
  | VAGUE, VAGUE | MISSING_CONTEXT, MISSING_CONTEXT
  | INEFFICIENT, INEFFICIENT | AMBIGUOUS, AMBIGUOUS
  | MISSING_ROLE, MISSING_ROLE | MISSING_FORMAT, MISSING_FORMAT
  | TOO_SHORT, TOO_SHORT | TOO_LONG, TOO_LONG => true
  | _, _ => false
  end.

(* ================================================================== *)
(** ** [src/config/settings.py]: the limits on the analysed text *)
(* ================================================================== *)

Module settings.
Definition max_prompt_length : nat := 5000.
Definition min_prompt_length : nat := 5.
End settings.

(* ================================================================== *)
(** ** [src/models/schemas.py] *)
(* ================================================================== *)

Record PromptIssue : Type := mkPromptIssue {
  id : string;
  start : Z;
  end_ : Z;
  type : IssueType;
  severity : Severity.t;
  message : string;
  suggestion : string;
  impact : option Impact.t
}.

(** Construction of a [PromptIssue] validates the fields: [start >= 0],
    [end >= 0], [end >= start], [1 <= len(message) <= 500] and
    [1 <= len(suggestion) <= 1000]; a violation raises. *)
Definition PromptIssue_valid (i : PromptIssue) : bool :=
  (0 <=? start i)%Z
  && (0 <=? end_ i)%Z
  && negb (end_ i <? start i)%Z
  && (1 <=? Py.len (message i)) && (Py.len (message i) <=? 500)
  && (1 <=? Py.len (suggestion i)) && (Py.len (suggestion i) <=? 1000).

Definition PromptIssue_new (id : string) (start end_ : Z) (type : IssueType)
    (severity : Severity.t) (message suggestion : string)
    (impact : option Impact.t) : Py.result PromptIssue :=
  let i := mkPromptIssue id start end_ type severity message suggestion impact in
  if PromptIssue_valid i then Py.Ok i else Py.Raise Py.ValidationError.

Record AnalysisRequest : Type := mkAnalysisRequest {
  text : string;
  use_llm : bool
}.

(** The validator of the field [text]. *)
Definition text_must_not_be_empty (v : string) : Py.result string :=
  if (Py.len v =? 0) || (Py.len (Py.strip v) =? 0)
  then Py.Raise Py.ValueError
  else Py.Ok (Py.strip v).

(** Construction of an [AnalysisRequest]: the constraints of the field
    ([min_length=1], [max_length=5000]) apply to the value as given, the
    validator runs after them and its result becomes the field.  A failure
    of either is reported as a validation error. *)
Definition AnalysisRequest_new (text : string) (use_llm : bool)
    : Py.result AnalysisRequest :=
  if (Py.len text <? 1) || (5000 <? Py.len text)
  then Py.Raise Py.ValidationError
  else
    match text_must_not_be_empty text with
    | Py.Ok v => Py.Ok (mkAnalysisRequest v use_llm)
    | Py.Raise _ => Py.Raise Py.ValidationError
    end.

(* ================================================================== *)
(** ** [src/server.py]: the length gate of [analyze_prompt] *)
(* ================================================================== *)

Module server.

(** The first statements of the handler of [POST /api/prompt/analyze]. *)
Definition analyze_prompt_length_gate (request : AnalysisRequest)
    : Py.result unit :=
  if settings.max_prompt_length <? Py.len (text request)
  then Py.Raise (Py.HTTPException 400)
  else if Py.len (text request) <? settings.min_prompt_length
  then Py.Raise (Py.HTTPException 400)
  else Py.Ok tt.

(** The way of a request body through the boundary of the HTTP endpoint:
    the request model is built first, the handler's gate follows. *)
Definition analyze_prompt_boundary (text : string) (use_llm : bool)
    : Py.result AnalysisRequest :=
  match AnalysisRequest_new text use_llm with
  | Py.Ok request =>
      match analyze_prompt_length_gate request with
      | Py.Ok _ => Py.Ok request
      | Py.Raise e => Py.Raise e
      end
  | Py.Raise e => Py.Raise e
  end.

End server.

(* ================================================================== *)
(** ** [src/websocket_server.py]: what the endpoint checks of a message *)
(* ================================================================== *)

Module websocket_server.

(** [websocket_endpoint] builds the request model from the message and
    hands its text to the analyzer; no length gate follows. *)
Definition analysis_request (text : string) (use_llm : bool)
    : Py.result AnalysisRequest :=
  AnalysisRequest_new text use_llm.

End websocket_server.

(* ================================================================== *)
(** ** [src/utils/patterns.py] *)
(* ================================================================== *)

Module PatternMatcher.
Import Re.

Definition sp : regex := Plus CSpace.
Definition w : regex := Plus CWord.

(** Vague instruction patterns *)
Definition VAGUE_PATTERNS : list regex :=
  [ (* \b(analyze|check|look at|review|examine)\b
       (?!\s+(specifically|by|with|for|the|this)) *)
    seq [Bnd; alts ["analyze"; "check"; "look at"; "review"; "examine"]; Bnd;
         NotAhead (seq [sp; alts ["specifically"; "by"; "with"; "for";
                                  "the"; "this"]])];
    (* \b(give|provide|show)\s+(me\s+)?insights?\b(?!\s+on) *)
    seq [Bnd; alts ["give"; "provide"; "show"]; sp;
         Opt (seq [lit "me"; sp]); lit "insight"; Opt (lit "s"); Bnd;
         NotAhead (seq [sp; lit "on"])];
    (* \b(do|make|create)\s+something\b *)
    seq [Bnd; alts ["do"; "make"; "create"]; sp; lit "something"; Bnd];
    (* \btell me about\b *)
    seq [Bnd; lit "tell me about"; Bnd] ].

(** Role definition patterns *)
Definition ROLE_PATTERNS : list regex :=
  [ (* \byou are\s+(a|an)\s+\w+ *)
    seq [Bnd; lit "you are"; sp; alts ["a"; "an"]; sp; w];
    (* \bact as\s+(a|an)\s+\w+ *)
    seq [Bnd; lit "act as"; sp; alts ["a"; "an"]; sp; w];
    (* \bas\s+(a|an)\s+\w+\s+(expert|specialist) *)
    seq [Bnd; lit "as"; sp; alts ["a"; "an"]; sp; w; sp;
         alts ["expert"; "specialist"]] ].

(** Format specification patterns *)
Definition FORMAT_PATTERNS : list regex :=
  [ seq [Bnd; lit "format"; sp; alts ["as"; "the"; "your"]; Bnd];
    seq [Bnd; lit "structure"; sp; alts ["as"; "the"; "your"]; Bnd];
    seq [Bnd; lit "bullet"; sp; lit "point"; Opt (lit "s"); Bnd];
    seq [Bnd; lit "numbered"; sp; lit "list"; Bnd];
    seq [Bnd; lit "table"; Bnd];
    seq [Bnd; lit "json"; Bnd];
    seq [Bnd; lit "markdown"; Bnd] ].

(** Output specification patterns *)
Definition OUTPUT_PATTERNS : list regex :=
  [ seq [Bnd; lit "output"; sp; alts ["format"; "structure"]; Bnd];
    seq [Bnd; lit "provide"; sp; alts ["in"; "as"]; sp; w; sp; lit "format";
         Bnd];
    seq [Bnd; lit "response"; sp; lit "format"; Bnd] ].

(** [find_matches]: per pattern, every match of [re.finditer] with
    [re.IGNORECASE], as (start, end, matched text). *)
Definition find_matches (text : string) (patterns : list regex)
    : list (nat * nat * string) :=
  flat_map
    (fun pattern =>
       map (fun m => (fst m, snd m, Py.slice text (fst m) (snd m)))
           (finditer true pattern text))
    patterns.

(** [contains_pattern]: some pattern is found by [re.search] with
    [re.IGNORECASE]. *)
Definition contains_pattern (text : string) (patterns : list regex) : bool :=
  existsb
    (fun pattern =>
       match search true pattern text with
       | Some _ => true
       | None => false
       end)
    patterns.

(** [count_words] *)
Definition count_words (text : string) : nat := Py.len_split text.

(** The two patterns of [has_specific_instructions].  The bracketed set of
    the second is, in the source file, the characters [-], U+00E2, U+20AC,
    U+00A2 and [*]; U+20AC is not a character of the modelled texts. *)
Definition numbered_list_pattern : regex :=
  seq [Plus CDigit; Cls (CSet ["."%char; ")"%char]); sp; w].

Definition bullet_list_pattern : regex :=
  seq [Cls (CSet ["-"%char; ascii_of_nat 226; ascii_of_nat 162; "*"%char]);
       sp; w].

(** [has_specific_instructions]; both searches are case sensitive. *)
Definition has_specific_instructions (text : string) : bool :=
  let numbered_list := search false numbered_list_pattern text in
  let bullet_list := search false bullet_list_pattern text in
  match numbered_list, bullet_list with
  | None, None => false
  | _, _ => true
  end.

End PatternMatcher.

(* ================================================================== *)
(** ** The tokenizer ([spacy]), an external capability *)
(* ================================================================== *)

Module spacy.
(** What the analyzer reads of a token: its text, the offset of its
    first character and its coarse part of speech.  The index [token.i]
    of a token is its place in the document. *)
Record Token : Type := mkToken {
  text : string;
  idx : nat;
  pos_ : string
}.
End spacy.

(* ================================================================== *)
(** ** [src/analyzers/rule_based.py] *)
(* ================================================================== *)

Module RuleBasedAnalyzer.

(** Computations that draw identifiers and may raise: the state is the
    number of identifiers drawn from [uuid.uuid4] so far. *)
Definition M (A : Type) : Type := nat -> Py.result A * nat.

Definition ret {A : Type} (a : A) : M A := fun n => (Py.Ok a, n).

Definition bind {A B : Type} (m : M A) (f : A -> M B) : M B :=
  fun n =>
    match m n with
    | (Py.Ok a, n') => f a n'
    | (Py.Raise e, n') => (Py.Raise e, n')
    end.

Definition lift {A : Type} (r : Py.result A) : M A := fun n => (r, n).

(** [try: m  except Exception: h] *)
Definition try_except {A : Type} (m : M A) (h : M A) : M A :=
  fun n =>
    match m n with
    | (Py.Ok a, n') => (Py.Ok a, n')
    | (Py.Raise _, n') => h n'
    end.

Notation "x <- m ;; k" := (bind m (fun x => k))
  (at level 61, m at next level, right associativity).

Definition nl : string := String (ascii_of_nat 10) EmptyString.

Section Analyzer.

(** The first eight hexadecimal digits of the [n]-th identifier drawn
    from [uuid.uuid4], and the tokenizer loaded by [__init__]; both are
    supplied from outside of the repository. *)
Variable uuid4_hex8 : nat -> string.
Variable nlp : string -> Py.result (list spacy.Token).

(** [f"issue-{uuid.uuid4().hex[:8]}"] *)
Definition fresh_id : M string :=
  fun n => (Py.Ok ("issue-" ++ uuid4_hex8 n)%string, S n).

(** [PromptIssue(id=f"issue-...", ...)]: the identifier is drawn while
    the arguments are evaluated, the fields are validated after. *)
Definition new_issue (start end_ : Z) (type : IssueType)
    (severity : Severity.t) (message suggestion : string)
    (impact : Impact.t) : M PromptIssue :=
  id <- fresh_id ;;
  lift (PromptIssue_new id start end_ type severity message suggestion
                        (Some impact)).

Definition specificity_words : list string :=
  ["specifically"; "focusing"; "particularly"; "especially";
   "by analyzing"; "with emphasis"].

(** The loop of [_check_vague_instructions] over the matches. *)
Fixpoint vague_loop (text : string) (matches : list (nat * nat * string))
    (issues : list PromptIssue) : M (list PromptIssue) :=
  match matches with
  | [] => ret issues
  | (start, end_, matched_text) :: rest =>
      let context_after := Py.lower (Py.slice text end_ (end_ + 50)) in
      let has_specificity :=
        Py.any (fun word => Py.contains context_after word)
               specificity_words in
      if negb has_specificity then
        issue <- new_issue (Z.of_nat start) (Z.of_nat end_) VAGUE
                   Severity.MEDIUM
                   ("The instruction '" ++ matched_text
                    ++ "' is vague. Add specific details about what to "
                    ++ Py.lower matched_text ++ ".")%string
                   (matched_text ++ " specifically focusing on")%string
                   Impact.HIGH ;;
        vague_loop text rest (issues ++ [issue])
      else vague_loop text rest issues
  end.

Definition _check_vague_instructions (text : string)
    : M (list PromptIssue) :=
  let matches :=
    PatternMatcher.find_matches text PatternMatcher.VAGUE_PATTERNS in
  vague_loop text matches [].

Definition _check_role_definition (text : string) : M (list PromptIssue) :=
  let has_role :=
    PatternMatcher.contains_pattern text PatternMatcher.ROLE_PATTERNS in
  if negb has_role then
    issue <- new_issue 0 0 MISSING_ROLE Severity.MEDIUM
               "Missing role definition. Adding a role helps the AI understand the expected expertise level."
               ("You are an expert analyst. " ++ text)%string
               Impact.MEDIUM ;;
    ret [issue]
  else ret [].

Definition _check_output_format (text : string) : M (list PromptIssue) :=
  let has_format :=
    PatternMatcher.contains_pattern text
      (PatternMatcher.FORMAT_PATTERNS ++ PatternMatcher.OUTPUT_PATTERNS) in
  if negb has_format && (10 <? Py.len_split text) then
    issue <- new_issue (Z.of_nat (Py.len text)) (Z.of_nat (Py.len text))
               MISSING_FORMAT Severity.LOW
               "No output format specified. Defining the format helps ensure consistent results."
               (text ++ " Format the response as bullet points.")%string
               Impact.MEDIUM ;;
    ret [issue]
  else ret [].

Definition _check_length (text : string) : M (list PromptIssue) :=
  let word_count := PatternMatcher.count_words text in
  if word_count <? 5 then
    issue <- new_issue 0 (Z.of_nat (Py.len text)) TOO_SHORT
               Severity.CRITICAL
               ("Prompt is too short (" ++ Py.str_of_nat word_count
                ++ " words). Add more specific instructions and context.")%string
               (text ++ " Please provide detailed analysis including key metrics, trends, and actionable insights.")%string
               Impact.HIGH ;;
    ret [issue]
  else if 500 <? word_count then
    issue <- new_issue 0 (Z.of_nat (Py.len text)) TOO_LONG Severity.LOW
               ("Prompt is very long (" ++ Py.str_of_nat word_count
                ++ " words). Consider breaking it into smaller, focused prompts.")%string
               "Consider splitting this into multiple focused prompts for better results."
               Impact.LOW ;;
    ret [issue]
  else ret [].

Definition _check_specificity (text : string) : M (list PromptIssue) :=
  let has_structure := PatternMatcher.has_specific_instructions text in
  let word_count := PatternMatcher.count_words text in
  if (15 <? word_count) && negb has_structure then
    issue <- new_issue 0 (Z.of_nat (Py.len text)) INEFFICIENT Severity.LOW
               "Consider structuring your requirements with numbered points for clarity."
               ("Structure your prompt with numbered requirements:" ++ nl
                ++ "1. First requirement" ++ nl
                ++ "2. Second requirement" ++ nl
                ++ "3. Third requirement")%string
               Impact.MEDIUM ;;
    ret [issue]
  else ret [].

Definition ambiguous_pronouns : list string :=
  ["it"; "this"; "that"; "they"; "them"].

(** The loop of [_check_ambiguous_pronouns] over the tokens of the
    document; [i] is the index of the first of [tokens].  The loop runs
    inside the [try]: when the construction of an issue raises, the
    handler logs and the issues appended so far are what the check
    returns. *)
Fixpoint pronoun_loop (tokens : list spacy.Token) (i : nat)
    (issues : list PromptIssue) : M (list PromptIssue) :=
  match tokens with
  | [] => ret issues
  | token :: rest =>
      if existsb (String.eqb (Py.lower (spacy.text token)))
                 ambiguous_pronouns
         && String.eqb (spacy.pos_ token) "PRON"
      then
        if i <? 2 then
          try_except
            (issue <- new_issue
                        (Z.of_nat (spacy.idx token))
                        (Z.of_nat (spacy.idx token
                                   + Py.len (spacy.text token)))
                        AMBIGUOUS Severity.LOW
                        ("The pronoun '" ++ spacy.text token
                         ++ "' may be ambiguous. Consider being more explicit.")%string
                        "[specify what you're referring to]"
                        Impact.LOW ;;
             pronoun_loop rest (S i) (issues ++ [issue]))
            (ret issues)
        else pronoun_loop rest (S i) issues
      else pronoun_loop rest (S i) issues
  end.

Definition _check_ambiguous_pronouns (text : string)
    : M (list PromptIssue) :=
  match nlp text with
  | Py.Ok doc => pronoun_loop doc 0 []
  | Py.Raise _ => ret []
  end.

(** [analyze] *)
Definition analyze (text : string) : M (list PromptIssue) :=
  let issues := [] in
  vague <- _check_vague_instructions text ;;
  let issues := issues ++ vague in
  role <- _check_role_definition text ;;
  let issues := issues ++ role in
  format <- _check_output_format text ;;
  let issues := issues ++ format in
  length <- _check_length text ;;
  let issues := issues ++ length in
  specificity <- _check_specificity text ;;
  let issues := issues ++ specificity in
  pronouns <- _check_ambiguous_pronouns text ;;
  let issues := issues ++ pronouns in
  ret issues.

End Analyzer.

(** [calculate_quality_score] *)
Definition deduct (base_score : Z) (issue : PromptIssue) : Z :=
  if Severity.eqb (severity issue) Severity.CRITICAL then base_score - 20
  else if Severity.eqb (severity issue) Severity.MEDIUM then base_score - 10
  else base_score - 5.

Definition calculate_quality_score (text : string) (issues : list PromptIssue)
    : Z :=
  let base_score := 100%Z in
  let base_score := fold_left deduct issues base_score in
  let word_count := PatternMatcher.count_words text in
  let base_score :=
    if 20 <=? word_count then Z.min 100 (base_score + 5) else base_score in
  let base_score :=
    if PatternMatcher.has_specific_instructions text
    then Z.min 100 (base_score + 5) else base_score in
  let base_score :=
    if PatternMatcher.contains_pattern text PatternMatcher.ROLE_PATTERNS
    then Z.min 100 (base_score + 5) else base_score in
  Z.max 0 (Z.min 100 base_score).

End RuleBasedAnalyzer.

(* ================================================================== *)
(** ** [src/analyzers/hybrid_analyzer.py] *)
(* ================================================================== *)

Module HybridAnalyzer.

(** [(issue.start // 5 * 5, issue.end // 5 * 5)]; [//] rounds towards
    minus infinity, as [Z.div] does for a positive divisor. *)
Definition position_key (issue : PromptIssue) : Z * Z :=
  ((start issue / 5 * 5)%Z, (end_ issue / 5 * 5)%Z).

Definition key_eqb (a b : Z * Z) : bool :=
  (fst a =? fst b)%Z && (snd a =? snd b)%Z.

Definition groups : Type := list ((Z * Z) * list PromptIssue).

(** The body of the grouping loop. *)
Definition group_step (position_groups : groups) (issue : PromptIssue)
    : Py.result groups :=
  let key := position_key issue in
  let position_groups :=
    if negb (Py.dict_mem key_eqb key position_groups)
    then Py.dict_set key_eqb key [] position_groups
    else position_groups in
  match Py.dict_get key_eqb key position_groups with
  | Py.Ok group =>
      Py.Ok (Py.dict_set key_eqb key (group ++ [issue]) position_groups)
  | Py.Raise e => Py.Raise e
  end.

Fixpoint group_loop (issues : list PromptIssue) (position_groups : groups)
    : Py.result groups :=
  match issues with
  | [] => Py.Ok position_groups
  | issue :: rest =>
      match group_step position_groups issue with
      | Py.Ok position_groups' => group_loop rest position_groups'
      | Py.Raise e => Py.Raise e
      end
  end.

(** [severity_order.get(value, 0)] for
    [severity_order = {"critical": 3, "medium": 2, "low": 1}] *)
Definition severity_order_get (value : string) : Z :=
  if String.eqb value "critical" then 3
  else if String.eqb value "medium" then 2
  else if String.eqb value "low" then 1
  else 0.

(** The key of [max]: severity first, issues of the language model
    preferred among equals. *)
Definition selection_key (x : PromptIssue) : Z * Z :=
  (severity_order_get (Severity.value (severity x)),
   if Py.startswith (id x) "llm-" then 1%Z else 0%Z).

(** The body of the selection loop: the issue kept for one group. *)
Definition select_best (group : list PromptIssue) : Py.result PromptIssue :=
  match group with
  | [only] => Py.Ok only
  | _ => Py.max_by Py.pair_lt selection_key group
  end.

Fixpoint select_loop (groups : list (list PromptIssue))
    (deduplicated : list PromptIssue) : Py.result (list PromptIssue) :=
  match groups with
  | [] => Py.Ok deduplicated
  | group :: rest =>
      match select_best group with
      | Py.Ok best_issue => select_loop rest (deduplicated ++ [best_issue])
      | Py.Raise e => Py.Raise e
      end
  end.

(** [_deduplicate_issues] *)
Definition _deduplicate_issues (issues : list PromptIssue)
    : Py.result (list PromptIssue) :=
  match issues with
  | [] => Py.Ok []
  | _ =>
      match group_loop issues [] with
      | Py.Ok position_groups =>
          match select_loop (Py.dict_values position_groups) [] with
          | Py.Ok deduplicated => Py.Ok (Py.sort_by start deduplicated)
          | Py.Raise e => Py.Raise e
          end
      | Py.Raise e => Py.Raise e
      end
  end.

(** The last step of [analyze] on its deep path ("Merge and
    deduplicate"): the fusion of the two issue lists. *)
Definition fuse (rule_issues llm_issues : list PromptIssue)
    : Py.result (list PromptIssue) :=
  let all_issues := rule_issues ++ llm_issues in
  _deduplicate_issues all_issues.

Section Analyzer.
Import RuleBasedAnalyzer.

Variable uuid4_hex8 : nat -> string.
Variable nlp : string -> Py.result (list spacy.Token).

(** [LLMOptimizer.analyze_with_llm], the deep-analysis collaborator. *)
Variable analyze_with_llm : string -> M (list PromptIssue).

(** [analyze] *)
Definition analyze (text : string) (use_llm : bool)
    : M (list PromptIssue) :=
  rule_issues <- RuleBasedAnalyzer.analyze uuid4_hex8 nlp text ;;
  if negb use_llm then ret rule_issues
  else
    llm_issues <- analyze_with_llm text ;;
    lift (fuse rule_issues llm_issues).

End Analyzer.

(** [calculate_quality_score] delegates to the rule-based analyzer. *)
Definition calculate_quality_score (text : string)
    (issues : list PromptIssue) : Z :=
  RuleBasedAnalyzer.calculate_quality_score text issues.

End HybridAnalyzer.


(* ================================================================== *)
(** ** The scoring function as the specification words it *)
(* ================================================================== *)

Module ScoringSpec.

(** What one issue costs: critical 20, medium 10, any other severity 5. *)
Definition penalty (s : Severity.t) : Z :=
  match s with
  | Severity.CRITICAL => 20
  | Severity.MEDIUM => 10
  | _ => 5
  end.

(** The sum of the penalties of a list of issues. *)
Definition deductions (issues : list PromptIssue) : Z :=
  fold_right (fun issue total => (penalty (severity issue) + total)%Z) 0%Z
             issues.

(** A bonus of 5 that is capped at 100 when it is granted. *)
Definition bonus (granted : bool) (total : Z) : Z :=
  if granted then Z.min 100 (total + 5) else total.

Definition clamp (lo hi x : Z) : Z := Z.max lo (Z.min hi x).

(** Start at 100, deduct, add the three bonuses in order, clamp. *)
Definition score (text : string) (issues : list PromptIssue) : Z :=
  let total := (100 - deductions issues)%Z in
  let total := bonus (20 <=? PatternMatcher.count_words text) total in
  let total := bonus (PatternMatcher.has_specific_instructions text) total in
  let total :=
    bonus (PatternMatcher.contains_pattern text PatternMatcher.ROLE_PATTERNS)
          total in
  clamp 0 100 total.

(** The number of issues of a list that satisfy a test on the severity. *)
Definition count (p : Severity.t -> bool) (issues : list PromptIssue) : Z :=
  Z.of_nat (List.length (filter (fun issue => p (severity issue)) issues)).

Definition is_other (s : Severity.t) : bool :=
  negb (Severity.eqb s Severity.CRITICAL)
  && negb (Severity.eqb s Severity.MEDIUM).

End ScoringSpec.

(* ================================================================== *)
(** ** The grouping loop of the deduplication in closed form *)
(* ================================================================== *)

Module Grouping.
Import HybridAnalyzer.

(** Append [issue] to the group stored under [key]; a key that is not yet
    there gets a new group at the end. *)
Fixpoint upsert (key : Z * Z) (issue : PromptIssue) (position_groups : groups)
    : groups :=
  match position_groups with
  | [] => [(key, [issue])]
  | (key', group) :: rest =>
      if key_eqb key key' then (key', group ++ [issue]) :: rest
      else (key', group) :: upsert key issue rest
  end.

Definition grouped (issues : list PromptIssue) (position_groups : groups)
    : groups :=
  fold_left (fun pg issue => upsert (position_key issue) issue pg)
            issues position_groups.

(** The groups are well formed: one entry per key, no empty group, and
    every issue of a group has the key of the group. *)
Definition entry_ok (entry : (Z * Z) * list PromptIssue) : Prop :=
  snd entry <> [] /\
  Forall (fun issue => position_key issue = fst entry) (snd entry).

Definition well_formed (position_groups : groups) : Prop :=
  NoDup (map fst position_groups) /\ Forall entry_ok position_groups.

(** Ascending by a key, and by [start]. *)
Definition key_le {A : Type} (key : A -> Z) (a b : A) : Prop :=
  (key a <= key b)%Z.

Definition start_le (a b : PromptIssue) : Prop := key_le start a b.

End Grouping.

(* ================================================================== *)
(** ** Sample data *)
(* ================================================================== *)

Module Samples.

(** An identifier supply and two tokenizers: one that knows the two
    prompts used below, one that fails. *)
Definition uuid4_hex8 (n : nat) : string :=
  match n with
  | 0 => "3f2a9c1e"
  | 1 => "b07d44a2"
  | 2 => "5e61c0f9"
  | _ => "9a8b7c6d"
  end.

Definition nlp (text : string) : Py.result (list spacy.Token) :=
  if String.eqb text "analyze data"
  then Py.Ok [spacy.mkToken "analyze" 0 "VERB"; spacy.mkToken "data" 8 "NOUN"]
  else if String.eqb text "examine"
  then Py.Ok [spacy.mkToken "examine" 0 "VERB"]
  else Py.Raise Py.RuntimeError.

Definition nlp_failing (text : string) : Py.result (list spacy.Token) :=
  Py.Raise Py.RuntimeError.

(** Two findings about nearly the same span, as in the specification's
    example: spans (10,14) and (12,15). *)
Definition rule_medium : PromptIssue :=
  mkPromptIssue "issue-3f2a9c1e" 10 14 VAGUE Severity.MEDIUM
    "The instruction 'show' is vague." "show specifically focusing on"
    (Some Impact.HIGH).

Definition llm_critical : PromptIssue :=
  mkPromptIssue "llm-b07d44a2" 12 15 MISSING_CONTEXT Severity.CRITICAL
    "No context for the data." "Name the dataset and its period."
    (Some Impact.HIGH).

(** The same pair with spans that do share a bucket: (10,14) and (12,14). *)
Definition llm_critical_near : PromptIssue :=
  mkPromptIssue "llm-b07d44a2" 12 14 MISSING_CONTEXT Severity.CRITICAL
    "No context for the data." "Name the dataset and its period."
    (Some Impact.HIGH).

(** What the rule-based analyzer finds in the prompt [examine]: a vague
    instruction, a missing role and a too short prompt. *)
Definition examine_vague : PromptIssue :=
  mkPromptIssue "issue-3f2a9c1e" 0 7 VAGUE Severity.MEDIUM
    "The instruction 'examine' is vague. Add specific details about what to examine."
    "examine specifically focusing on" (Some Impact.HIGH).

Definition examine_role : PromptIssue :=
  mkPromptIssue "issue-b07d44a2" 0 0 MISSING_ROLE Severity.MEDIUM
    "Missing role definition. Adding a role helps the AI understand the expected expertise level."
    "You are an expert analyst. examine" (Some Impact.MEDIUM).

Definition examine_short : PromptIssue :=
  mkPromptIssue "issue-5e61c0f9" 0 7 TOO_SHORT Severity.CRITICAL
    "Prompt is too short (1 words). Add more specific instructions and context."
    "examine Please provide detailed analysis including key metrics, trends, and actionable insights."
    (Some Impact.HIGH).

(** What the first five checks find in the prompt [analyze data], given
    the identifiers drawn for them. *)
Definition analyze_data_vague (id : string) : PromptIssue :=
  mkPromptIssue id 0 7 VAGUE Severity.MEDIUM
    "The instruction 'analyze' is vague. Add specific details about what to analyze."
    "analyze specifically focusing on" (Some Impact.HIGH).

Definition analyze_data_role (id : string) : PromptIssue :=
  mkPromptIssue id 0 0 MISSING_ROLE Severity.MEDIUM
    "Missing role definition. Adding a role helps the AI understand the expected expertise level."
    "You are an expert analyst. analyze data" (Some Impact.MEDIUM).

Definition analyze_data_short (id : string) : PromptIssue :=
  mkPromptIssue id 0 12 TOO_SHORT Severity.CRITICAL
    "Prompt is too short (2 words). Add more specific instructions and context."
    "analyze data Please provide detailed analysis including key metrics, trends, and actionable insights."
    (Some Impact.HIGH).

(** A text of 4999 letters followed by two spaces. *)
Fixpoint repeat_char (c : ascii) (n : nat) : string :=
  match n with
  | 0 => EmptyString
  | S n' => String c (repeat_char c n')
  end.

Definition padded_text : string :=
  (repeat_char "a"%char 4999 ++ "  ")%string.

(** The good prompt of the integration tests: a role, numbered points and
    a format phrase. *)
Definition good_prompt : string :=
  "You are a data analyst. Analyze the sales dataset focusing on: 1) Revenue trends 2) Top products. Format as bullet points.".

End Samples.



(* ================================================================== *)
(** ** Notions for stating what the deduplication keeps *)
(* ================================================================== *)

Module FusionSpec.
Import HybridAnalyzer.

(** The issues of a list that fall into the bucket [key], in their order. *)
Definition bucket (key : Z * Z) (issues : list PromptIssue)
    : list PromptIssue :=
  filter (fun issue => key_eqb (position_key issue) key) issues.

(** [a] ranks strictly below [b] in the order that [max] uses. *)
Definition ranks_below (a b : PromptIssue) : Prop :=
  Py.pair_lt (selection_key a) (selection_key b) = true.

(** [best] is the first issue of [group] of the highest rank: everything
    before it ranks strictly below it, nothing after it ranks above it. *)
Definition first_maximal (group : list PromptIssue) (best : PromptIssue)
    : Prop :=
  exists before after,
    group = before ++ best :: after
    /\ Forall (fun issue => ranks_below issue best) before
    /\ Forall (fun issue => ~ ranks_below best issue) after.

(** The group stored under a key, empty when the key is missing. *)
Definition group_of (key : Z * Z) (position_groups : groups)
    : list PromptIssue :=
  match Py.dict_get key_eqb key position_groups with
  | Py.Ok group => group
  | Py.Raise _ => []
  end.

End FusionSpec.

(* ================================================================== *)
(** ** Notions for stating what the rule-based analyzer emits *)
(* ================================================================== *)

Module AnalyzerSpec.

(** The type and severity pairs of the six checks. *)
Definition rule_pairs : list (IssueType * Severity.t) :=
  [(VAGUE, Severity.MEDIUM); (MISSING_ROLE, Severity.MEDIUM);
   (MISSING_FORMAT, Severity.LOW); (TOO_SHORT, Severity.CRITICAL);
   (TOO_LONG, Severity.LOW); (INEFFICIENT, Severity.LOW);
   (AMBIGUOUS, Severity.LOW)].

(** The number of issues of one type. *)
Definition count_type (t : IssueType) (issues : list PromptIssue) : nat :=
  List.length (filter (fun issue => IssueType_eqb (type issue) t) issues).

(** The identifiers of [issues] were drawn, in this order, at draws
    numbered from [n] up to, but not including, [n']. *)
Definition drawn (uuid4_hex8 : nat -> string) (n n' : nat)
    (issues : list PromptIssue) : Prop :=
  n <= n'
  /\ exists draws,
       map id issues = map (fun k => ("issue-" ++ uuid4_hex8 k)%string) draws
       /\ StronglySorted lt draws
       /\ Forall (fun k => n <= k < n') draws.

(** A valid issue of the given type and severity. *)
Definition valid_of (t : IssueType) (s : Severity.t) (issue : PromptIssue)
    : Prop :=
  PromptIssue_valid issue = true /\ type issue = t /\ severity issue = s.

End AnalyzerSpec.

(* ================================================================== *)
(** ** Notions for stating what the patterns match *)
(* ================================================================== *)

Module ReSpec.
Import Re.






End ReSpec.

(* ================================================================== *)
(** ** [src/models/enums.py]: the values of the enumerations *)
(* ================================================================== *)

Module enums.

(** [IssueType.value] *)
Definition IssueType_value (t : IssueType) : string :=
  match t with
  | VAGUE => "vague"
  | MISSING_CONTEXT => "missing_context"
  | INEFFICIENT => "inefficient"
  | AMBIGUOUS => "ambiguous"
  | MISSING_ROLE => "missing_role"
  | MISSING_FORMAT => "missing_format"
  | TOO_SHORT => "too_short"
  | TOO_LONG => "too_long"
  end.

(** [Impact.value] *)
Definition Impact_value (i : Impact.t) : string :=
  match i with
  | Impact.HIGH => "high"
  | Impact.MEDIUM => "medium"
  | Impact.LOW => "low"
  end.

(** [E(v)] for an enumeration [E]: the member whose value is [v];
    [ValueError] when no member has it. *)
Fixpoint by_value {A : Type} (value : A -> string) (members : list A)
    (v : string) : Py.result A :=
  match members with
  | [] => Py.Raise Py.ValueError
  | m :: rest =>
      if String.eqb (value m) v then Py.Ok m else by_value value rest v
  end.

Definition IssueType_of (v : string) : Py.result IssueType :=
  by_value IssueType_value
    [VAGUE; MISSING_CONTEXT; INEFFICIENT; AMBIGUOUS; MISSING_ROLE;
     MISSING_FORMAT; TOO_SHORT; TOO_LONG] v.

Definition Severity_of (v : string) : Py.result Severity.t :=
  by_value Severity.value [Severity.CRITICAL; Severity.MEDIUM; Severity.LOW] v.

Definition Impact_of (v : string) : Py.result Impact.t :=
  by_value Impact_value [Impact.HIGH; Impact.MEDIUM; Impact.LOW] v.

End enums.

(* ================================================================== *)
(** ** [src/models/schemas.py]: the result of an analysis *)
(* ================================================================== *)

Record AnalysisResult : Type := mkAnalysisResult {
  issues : list PromptIssue;
  quality_score : Z;
  token_count : Z;
  estimated_improvement : option Z
}.

(** Construction of an [AnalysisResult] validates the fields:
    [0 <= quality_score <= 100], [token_count >= 0] and, when it is
    given, [0 <= estimated_improvement <= 100]. *)
Definition AnalysisResult_valid (r : AnalysisResult) : bool :=
  (0 <=? quality_score r)%Z && (quality_score r <=? 100)%Z
  && (0 <=? token_count r)%Z
  && match estimated_improvement r with
     | Some e => (0 <=? e)%Z && (e <=? 100)%Z
     | None => true
     end.

Definition AnalysisResult_new (issues : list PromptIssue)
    (quality_score token_count : Z) (estimated_improvement : option Z)
    : Py.result AnalysisResult :=
  let r :=
    mkAnalysisResult issues quality_score token_count estimated_improvement in
  if AnalysisResult_valid r then Py.Ok r else Py.Raise Py.ValidationError.

(* ================================================================== *)
(** ** [src/models/schemas.py]: the result of an optimization *)
(* ================================================================== *)

Module Improvement.
Record t : Type := mk {
  change : string;
  impact : Impact.t
}.
End Improvement.

(** An entry of the list [improvements] as it arrives: a JSON object
    whose members, where they are present, are strings. *)
Record improvement_entry : Type := mk_improvement_entry {
  raw_change : option string;
  raw_impact : option string
}.

(** Validation of one entry into an [Improvement]: both members are
    required, [1 <= len(change) <= 500], and [impact] is the value of a
    member of [Impact]. *)
Definition Improvement_new (d : improvement_entry)
    : Py.result Improvement.t :=
  match raw_change d, raw_impact d with
  | Some change, Some impact =>
      if (1 <=? Py.len change) && (Py.len change <=? 500)
      then
        match enums.Impact_of impact with
        | Py.Ok i => Py.Ok (Improvement.mk change i)
        | Py.Raise _ => Py.Raise Py.ValidationError
        end
      else Py.Raise Py.ValidationError
  | _, _ => Py.Raise Py.ValidationError
  end.

Fixpoint Improvements_new (l : list improvement_entry)
    : Py.result (list Improvement.t) :=
  match l with
  | [] => Py.Ok []
  | d :: rest =>
      match Improvement_new d, Improvements_new rest with
      | Py.Ok i, Py.Ok others => Py.Ok (i :: others)
      | _, _ => Py.Raise Py.ValidationError
      end
  end.

Record OptimizationResult : Type := mkOptimizationResult {
  optimized_prompt : string;
  improvements : list Improvement.t;
  token_savings : Z;
  quality_improvement : Z;
  before_score : Z;
  after_score : Z
}.

(** Construction of an [OptimizationResult] validates the fields: the
    optimized prompt is not empty, every improvement is valid, and both
    scores lie between 0 and 100. *)
Definition OptimizationResult_new (optimized_prompt : string)
    (improvements : list improvement_entry)
    (token_savings quality_improvement before_score after_score : Z)
    : Py.result OptimizationResult :=
  if (1 <=? Py.len optimized_prompt)
     && (0 <=? before_score)%Z && (before_score <=? 100)%Z
     && (0 <=? after_score)%Z && (after_score <=? 100)%Z
  then
    match Improvements_new improvements with
    | Py.Ok valid =>
        Py.Ok (mkOptimizationResult optimized_prompt valid token_savings
                 quality_improvement before_score after_score)
    | Py.Raise e => Py.Raise e
    end
  else Py.Raise Py.ValidationError.

(* ================================================================== *)
(** ** [src/optimizers/llm_optimizer.py]: the language model *)
(* ================================================================== *)

Module LLMOptimizer.
Import RuleBasedAnalyzer.

(** One entry of the list [issues] of the reply, after [json.loads]: a
    JSON object whose members, where they are present, have the JSON
    types that the system prompt asks for: numbers for the positions,
    strings for the rest. *)
Record issue_entry : Type := mk_issue_entry {
  entry_start : option Z;
  entry_end : option Z;
  entry_type : option string;
  entry_severity : option string;
  entry_message : option string;
  entry_suggestion : option string;
  entry_impact : option string
}.

(** [d[key]]: a missing member raises [KeyError]. *)
Definition subscript {A : Type} (member : option A) : Py.result A :=
  match member with
  | Some v => Py.Ok v
  | None => Py.Raise Py.KeyError
  end.

(** [d.get(key, default)] *)
Definition get {A : Type} (member : option A) (default : A) : A :=
  match member with
  | Some v => v
  | None => default
  end.

(** The reply to the request for an optimization, after [json.loads]:
    a JSON object whose members, where they are present, are a string
    and a list of entries. *)
Record optimization : Type := mk_optimization {
  reply_optimized_prompt : option string;
  reply_improvements : option (list improvement_entry)
}.

Section Optimizer.

Variable uuid4_hex8 : nat -> string.

(** The reply of the model to the request for an analysis of a text, as
    read by [json.loads] and [result.get("issues", [])]; the call and
    the reading may raise. *)
Variable reply_issues : string -> Py.result (list issue_entry).

(** The reply of the model to the request for an optimization of a text
    with a focus and a level, as read by [json.loads]; the call and the
    reading may raise. *)
Variable reply_optimization :
  string -> string -> string -> Py.result optimization.

(** [f"llm-{uuid.uuid4().hex[:8]}"] *)
Definition fresh_id : M string :=
  fun n => (Py.Ok ("llm-" ++ uuid4_hex8 n)%string, S n).

(** [PromptIssue(id=..., start=..., ...)] for one entry; the arguments
    are evaluated in the order in which they are written. *)
Definition issue_of (text : string) (issue_data : issue_entry)
    : M PromptIssue :=
  id <- fresh_id ;;
  let start := get (entry_start issue_data) 0%Z in
  let end_ := get (entry_end issue_data) (Z.of_nat (Py.len text)) in
  type_value <- lift (subscript (entry_type issue_data)) ;;
  type <- lift (enums.IssueType_of type_value) ;;
  severity_value <- lift (subscript (entry_severity issue_data)) ;;
  severity <- lift (enums.Severity_of severity_value) ;;
  message <- lift (subscript (entry_message issue_data)) ;;
  suggestion <- lift (subscript (entry_suggestion issue_data)) ;;
  impact <- lift (enums.Impact_of (get (entry_impact issue_data) "medium")) ;;
  lift (PromptIssue_new id start end_ type severity message suggestion
                        (Some impact)).

(** The loop over the entries: an entry whose issue cannot be built is
    logged and passed over. *)
Fixpoint issues_loop (text : string) (issues_data : list issue_entry)
    (issues : list PromptIssue) : M (list PromptIssue) :=
  match issues_data with
  | [] => ret issues
  | issue_data :: rest =>
      issues' <- try_except
                   (issue <- issue_of text issue_data ;;
                    ret (issues ++ [issue]))
                   (ret issues) ;;
      issues_loop text rest issues'
  end.

(** [analyze_with_llm] *)
Definition analyze_with_llm (text : string) : M (list PromptIssue) :=
  try_except
    (issues_data <- lift (reply_issues text) ;;
     issues_loop text issues_data [])
    (ret []).

(** [optimize_prompt]: on a failure the text comes back unchanged. *)
Definition optimize_prompt (text focus level : string) : optimization :=
  match reply_optimization text focus level with
  | Py.Ok result => result
  | Py.Raise _ => mk_optimization (Some text) (Some [])
  end.

End Optimizer.

End LLMOptimizer.

(* ================================================================== *)
(** ** [src/server.py]: the results that the handlers build *)
(* ================================================================== *)

Module server_result.

(** "Calculate metrics" and "Create result" of the handler of
    [POST /api/prompt/analyze]; [token_count] is what
    [token_counter.count_tokens] returned, the length of a list. *)
Definition analysis_result (text : string) (issues : list PromptIssue)
    (token_count : nat) : Py.result AnalysisResult :=
  let quality_score := HybridAnalyzer.calculate_quality_score text issues in
  let estimated_improvement := Z.max 0 (100 - quality_score) in
  AnalysisResult_new issues quality_score (Z.of_nat token_count)
                     (Some estimated_improvement).

Section Optimize.
Import RuleBasedAnalyzer.

Variable uuid4_hex8 : nat -> string.
Variable nlp : string -> Py.result (list spacy.Token).
Variable analyze_with_llm : string -> M (list PromptIssue).
Variable reply_optimization :
  string -> string -> string -> Py.result LLMOptimizer.optimization.

(** [token_counter.count_tokens] *)
Variable count_tokens : string -> nat.

(** The handler of [POST /api/prompt/optimize] from "Get before score"
    to "Create result"; what is raised here leaves the handler as an
    HTTP error 500. *)
Definition optimization_result (text focus level : string)
    : M OptimizationResult :=
  before_issues <- HybridAnalyzer.analyze uuid4_hex8 nlp analyze_with_llm
                     text false ;;
  let before_score :=
    HybridAnalyzer.calculate_quality_score text before_issues in
  let before_tokens := count_tokens text in
  let optimization :=
    LLMOptimizer.optimize_prompt reply_optimization text focus level in
  let optimized_text :=
    LLMOptimizer.get (LLMOptimizer.reply_optimized_prompt optimization)
                     text in
  after_issues <- HybridAnalyzer.analyze uuid4_hex8 nlp analyze_with_llm
                    optimized_text false ;;
  let after_score :=
    HybridAnalyzer.calculate_quality_score optimized_text after_issues in
  let after_tokens := count_tokens optimized_text in
  lift (OptimizationResult_new optimized_text
          (LLMOptimizer.get (LLMOptimizer.reply_improvements optimization) [])
          (Z.of_nat before_tokens - Z.of_nat after_tokens)
          (after_score - before_score) before_score after_score).

End Optimize.

End server_result.

(* ================================================================== *)
(** ** [src/mcp_server.py]: the breakdowns of [get_quality_metrics] *)
(* ================================================================== *)

Module mcp_server.

(** [len([i for i in issues if i.severity.value == value])] *)
Definition count_severity (value : string) (issues : list PromptIssue)
    : nat :=
  List.length
    (filter (fun i => String.eqb (Severity.value (severity i)) value) issues).

(** [severity_breakdown] *)
Definition severity_breakdown (issues : list PromptIssue)
    : list (string * nat) :=
  [("critical", count_severity "critical" issues);
   ("medium", count_severity "medium" issues);
   ("low", count_severity "low" issues)].

(** The body of the loop that fills [type_breakdown]. *)
Definition type_breakdown_step (type_breakdown : list (string * nat))
    (issue : PromptIssue) : list (string * nat) :=
  let issue_type := enums.IssueType_value (type issue) in
  let count :=
    match Py.dict_get String.eqb issue_type type_breakdown with
    | Py.Ok c => c
    | Py.Raise _ => 0
    end in
  Py.dict_set String.eqb issue_type (count + 1) type_breakdown.

(** [type_breakdown] *)
Definition type_breakdown (issues : list PromptIssue)
    : list (string * nat) :=
  fold_left type_breakdown_step issues [].

End mcp_server.

(* ================================================================== *)
(** ** Notions for stating what the breakdowns count *)
(* ================================================================== *)

Module MetricsSpec.

(** The sum of the counts of a breakdown. *)
Definition total (d : list (string * nat)) : nat :=
  fold_right Nat.add 0 (Py.dict_values d).

End MetricsSpec.

(* ================================================================== *)
(** ** Notions for comparing two runs of an analysis *)
(* ================================================================== *)

Module UpToIds.

(** An issue without its identifier. *)
Definition anonymous (i : PromptIssue) : PromptIssue :=
  mkPromptIssue EmptyString (start i) (end_ i) (type i) (severity i)
    (message i) (suggestion i) (impact i).

(** Two runs end alike: both return, with the same issues up to the
    identifiers, or both raise the same exception. *)
Definition alike (r r' : Py.result (list PromptIssue) * nat) : Prop :=
  match fst r, fst r' with
  | Py.Ok l, Py.Ok l' => map anonymous l = map anonymous l'
  | Py.Raise e, Py.Raise e' => e = e'
  | _, _ => False
  end.

End UpToIds.

(* ================================================================== *)
(** ** Tactics *)
(* ================================================================== *)

(** Replace a comparison of natural numbers by its value when [lia]
    decides it. *)
Ltac nat_test_false t :=
  replace t with false
    by (symmetry;
        first [apply Nat.ltb_ge; lia | apply Nat.eqb_neq; lia
              | apply Nat.leb_gt; lia]).

Ltac nat_test_true t :=
  replace t with true
    by (symmetry;
        first [apply Nat.ltb_lt; lia | apply Nat.eqb_eq; lia
              | apply Nat.leb_le; lia]).

(* ================================================================== *)
(** * Properties *)
(* ================================================================== *)

(** ** The scoring function *)

Section Scoring.
Import RuleBasedAnalyzer.

Lemma deduct_penalty (b : Z) (issue : PromptIssue) :
  deduct b issue = (b - ScoringSpec.penalty (severity issue))%Z.
Proof.
  unfold deduct, ScoringSpec.penalty.
  destruct (severity issue); reflexivity.
Qed.

(** The loop only subtracts: the running total is not clamped. *)
Lemma fold_deduct (issues : list PromptIssue) (b : Z) :
  fold_left deduct issues b = (b - ScoringSpec.deductions issues)%Z.
Proof.
  revert b.
  induction issues as [| issue issues IH]; intros b; simpl.
  - lia.
  - rewrite IH, deduct_penalty. lia.
Qed.

Lemma deductions_by_count (issues : list PromptIssue) :
  ScoringSpec.deductions issues
  = (20 * ScoringSpec.count (fun s => Severity.eqb s Severity.CRITICAL) issues
     + 10 * ScoringSpec.count (fun s => Severity.eqb s Severity.MEDIUM) issues
     + 5 * ScoringSpec.count ScoringSpec.is_other issues)%Z.
Proof.
  unfold ScoringSpec.count, ScoringSpec.is_other.
  induction issues as [| issue issues IH].
  - reflexivity.
  - cbn [ScoringSpec.deductions fold_right filter].
    fold (ScoringSpec.deductions issues). rewrite IH.
    unfold ScoringSpec.penalty.
    destruct (severity issue);
      cbn [Severity.eqb negb andb List.length];
      rewrite ?Nat2Z.inj_succ; lia.
Qed.

Lemma deductions_nonneg (issues : list PromptIssue) :
  (0 <= ScoringSpec.deductions issues)%Z.
Proof.
  induction issues as [| issue issues IH]; simpl.
  - lia.
  - unfold ScoringSpec.penalty. destruct (severity issue); lia.
Qed.

Lemma deductions_app (l1 l2 : list PromptIssue) :
  ScoringSpec.deductions (l1 ++ l2)
  = (ScoringSpec.deductions l1 + ScoringSpec.deductions l2)%Z.
Proof.
  induction l1 as [| issue l1 IH]; simpl.
  - reflexivity.
  - rewrite IH. lia.
Qed.

Lemma score_refines (text : string) (issues : list PromptIssue) :
  calculate_quality_score text issues = ScoringSpec.score text issues.
Proof.
  unfold calculate_quality_score, ScoringSpec.score, ScoringSpec.bonus,
    ScoringSpec.clamp.
  rewrite fold_deduct. reflexivity.
Qed.

Lemma bonus_mono (granted : bool) (x y : Z) :
  (x <= y)%Z -> (ScoringSpec.bonus granted x <= ScoringSpec.bonus granted y)%Z.
Proof.
  unfold ScoringSpec.bonus. destruct granted; lia.
Qed.

Lemma clamp_mono (x y : Z) :
  (x <= y)%Z -> (ScoringSpec.clamp 0 100 x <= ScoringSpec.clamp 0 100 y)%Z.
Proof.
  unfold ScoringSpec.clamp. lia.
Qed.

Lemma score_range (text : string) (issues : list PromptIssue) :
  (0 <= calculate_quality_score text issues <= 100)%Z.
Proof.
  unfold calculate_quality_score. lia.
Qed.

(** C1.  For every text and every issue list the score computed by
    [calculate_quality_score] is the score of the specification: 100,
    minus 20 per critical, 10 per medium and 5 per other issue (the loop
    subtracts without a bound: its result is 100 minus the sum), then the
    three bonuses of 5 for at least 20 words, enumerated structure and a
    role definition, each capped at 100, then the clamp to [0, 100]. *)
Theorem C1_score_formula (text : string) (issues : list PromptIssue) :
  fold_left deduct issues 100%Z
  = (100
     - 20 * ScoringSpec.count (fun s => Severity.eqb s Severity.CRITICAL) issues
     - 10 * ScoringSpec.count (fun s => Severity.eqb s Severity.MEDIUM) issues
     - 5 * ScoringSpec.count ScoringSpec.is_other issues)%Z
  /\ calculate_quality_score text issues
     = Z.max 0 (Z.min 100
         (ScoringSpec.bonus
            (PatternMatcher.contains_pattern text PatternMatcher.ROLE_PATTERNS)
            (ScoringSpec.bonus (PatternMatcher.has_specific_instructions text)
               (ScoringSpec.bonus (20 <=? PatternMatcher.count_words text)
                  (fold_left deduct issues 100%Z)))))
  /\ calculate_quality_score text issues = ScoringSpec.score text issues.
Proof.
  split; [| split].
  - rewrite fold_deduct, deductions_by_count. lia.
  - reflexivity.
  - apply score_refines.
Qed.

(** C6.  For every text the score of the empty issue list is 100: the
    bonuses are capped and never push the result above 100. *)
Theorem C6_score_no_issues (text : string) :
  calculate_quality_score text [] = 100%Z.
Proof.
  unfold calculate_quality_score. simpl fold_left.
  destruct (20 <=? PatternMatcher.count_words text);
    destruct (PatternMatcher.has_specific_instructions text);
    destruct (PatternMatcher.contains_pattern text
                PatternMatcher.ROLE_PATTERNS);
    reflexivity.
Qed.

(** C10.  The score does not increase when an issue is appended to the
    issue list, for every text, list and issue. *)
Theorem C10_score_antitone (text : string) (issues : list PromptIssue)
    (issue : PromptIssue) :
  (calculate_quality_score text (issues ++ [issue])
   <= calculate_quality_score text issues)%Z.
Proof.
  rewrite !score_refines. unfold ScoringSpec.score.
  apply clamp_mono. do 3 apply bonus_mono.
  rewrite deductions_app.
  pose proof (deductions_nonneg [issue]). lia.
Qed.

End Scoring.

(** ** The stable sort *)

Section SortFacts.
Import Grouping.
Context {A : Type} (key : A -> Z).

Lemma insert_by_perm (x : A) (l : list A) :
  Permutation (Py.insert_by key x l) (x :: l).
Proof.
  induction l as [| y l IH]; simpl.
  - apply Permutation_refl.
  - destruct (key x <=? key y)%Z.
    + apply Permutation_refl.
    + eapply Permutation_trans; [apply perm_skip, IH | apply perm_swap].
Qed.

Lemma sort_by_perm (l : list A) : Permutation (Py.sort_by key l) l.
Proof.
  induction l as [| x l IH]; simpl.
  - constructor.
  - eapply Permutation_trans; [apply insert_by_perm | apply perm_skip, IH].
Qed.

Lemma insert_by_sorted (x : A) (l : list A) :
  StronglySorted (key_le key) l ->
  StronglySorted (key_le key) (Py.insert_by key x l).
Proof.
  induction 1 as [| y l Hl IH Hy]; simpl.
  - repeat constructor.
  - destruct (key x <=? key y)%Z eqn:E.
    + apply Z.leb_le in E.
      constructor; [constructor; assumption |].
      constructor; [exact E |].
      eapply Forall_impl; [| exact Hy].
      unfold key_le. intros z Hz. lia.
    + apply Z.leb_gt in E.
      constructor; [exact IH |].
      eapply Permutation_Forall;
        [apply Permutation_sym, insert_by_perm |].
      constructor; [unfold key_le; lia | exact Hy].
Qed.

Lemma sort_by_sorted (l : list A) :
  StronglySorted (key_le key) (Py.sort_by key l).
Proof.
  induction l as [| x l IH]; simpl.
  - constructor.
  - apply insert_by_sorted, IH.
Qed.

(** Sorting a list that is sorted already changes nothing. *)
Lemma sort_by_sorted_id (l : list A) :
  StronglySorted (key_le key) l -> Py.sort_by key l = l.
Proof.
  induction 1 as [| x l Hl IH Hx]; simpl.
  - reflexivity.
  - rewrite IH. destruct l as [| y l']; simpl.
    + reflexivity.
    + inversion Hx as [| ? ? Hxy _]; subst.
      unfold key_le in Hxy. apply Z.leb_le in Hxy. rewrite Hxy. reflexivity.
Qed.

End SortFacts.

(** ** The deduplication *)

Section Fusion.
Import HybridAnalyzer Grouping.

Lemma key_eqb_eq (a b : Z * Z) : key_eqb a b = true <-> a = b.
Proof.
  destruct a as [a1 a2], b as [b1 b2]. unfold key_eqb. simpl.
  rewrite andb_true_iff, !Z.eqb_eq.
  split.
  - intros [-> ->]. reflexivity.
  - intros [= -> ->]. auto.
Qed.

Lemma key_eqb_refl (a : Z * Z) : key_eqb a a = true.
Proof. apply key_eqb_eq. reflexivity. Qed.

Lemma key_eqb_neq (a b : Z * Z) : a <> b -> key_eqb a b = false.
Proof.
  intros Hab. destruct (key_eqb a b) eqn:E; [| reflexivity].
  apply key_eqb_eq in E. contradiction.
Qed.

(** One turn of the grouping loop never raises and is an [upsert]. *)
Lemma group_step_upsert (position_groups : groups) (issue : PromptIssue) :
  group_step position_groups issue
  = Py.Ok (upsert (position_key issue) issue position_groups).
Proof.
  unfold group_step. generalize (position_key issue) as key. intros key.
  induction position_groups as [| [key' group] rest IH].
  - cbn [Py.dict_mem negb Py.dict_set Py.dict_get upsert].
    rewrite key_eqb_refl. reflexivity.
  - cbn [Py.dict_mem upsert].
    destruct (key_eqb key key') eqn:E.
    + cbn [orb negb Py.dict_get]. rewrite E.
      cbn [Py.dict_set]. rewrite E. reflexivity.
    + cbn [orb]. destruct (Py.dict_mem key_eqb key rest) eqn:M;
        cbn [negb] in *; cbn [Py.dict_set Py.dict_get]; rewrite E.
      * destruct (Py.dict_get key_eqb key rest) as [g | e];
          [| discriminate IH].
        injection IH as IH. rewrite IH. reflexivity.
      * cbn [Py.dict_get]. rewrite ?E.
        destruct (Py.dict_get key_eqb key (Py.dict_set key_eqb key [] rest))
          as [g | e]; [| discriminate IH].
        injection IH as IH.
        cbn [Py.dict_set]. rewrite ?E, IH. reflexivity.
Qed.

Lemma group_loop_grouped (issues : list PromptIssue)
    (position_groups : groups) :
  group_loop issues position_groups = Py.Ok (grouped issues position_groups).
Proof.
  revert position_groups.
  induction issues as [| issue issues IH]; intros pg; simpl.
  - reflexivity.
  - rewrite group_step_upsert. apply IH.
Qed.

Lemma upsert_absent (key : Z * Z) (issue : PromptIssue) (pg : groups) :
  ~ In key (map fst pg) -> upsert key issue pg = pg ++ [(key, [issue])].
Proof.
  induction pg as [| [key' group] rest IH]; simpl; intros Hnot.
  - reflexivity.
  - rewrite key_eqb_neq by (intros ->; apply Hnot; left; reflexivity).
    rewrite IH by (intros Hin; apply Hnot; right; exact Hin).
    reflexivity.
Qed.

Lemma upsert_present (key : Z * Z) (issue : PromptIssue) (pg : groups) :
  In key (map fst pg) -> map fst (upsert key issue pg) = map fst pg.
Proof.
  induction pg as [| [key' group] rest IH]; simpl; intros Hin.
  - contradiction.
  - destruct (key_eqb key key') eqn:E; simpl.
    + reflexivity.
    + f_equal. apply IH. destruct Hin as [-> | Hin]; [| exact Hin].
      rewrite key_eqb_refl in E. discriminate E.
Qed.

Lemma key_in_dec (key : Z * Z) (keys : list (Z * Z)) :
  {In key keys} + {~ In key keys}.
Proof.
  apply in_dec. intros [a1 a2] [b1 b2].
  destruct (Z.eq_dec a1 b1) as [-> | N1];
    [destruct (Z.eq_dec a2 b2) as [-> | N2] |];
    [left; reflexivity | right; congruence | right; congruence].
Qed.

Lemma upsert_entries (issue : PromptIssue) (pg : groups) :
  Forall entry_ok pg ->
  Forall entry_ok (upsert (position_key issue) issue pg).
Proof.
  induction 1 as [| [key' group] rest [Hne Hkeys] Hrest IH]; simpl.
  - constructor; [| constructor].
    split; simpl; [discriminate |].
    constructor; [reflexivity | constructor].
  - destruct (key_eqb (position_key issue) key') eqn:E.
    + apply key_eqb_eq in E. constructor; [| exact Hrest].
      split; simpl in *.
      * intros Habs. apply app_eq_nil in Habs. destruct Habs as [_ Habs].
        discriminate Habs.
      * apply Forall_app. split; [exact Hkeys |].
        constructor; [exact E | constructor].
    + constructor; [split; assumption | exact IH].
Qed.

Lemma upsert_well_formed (issue : PromptIssue) (pg : groups) :
  well_formed pg -> well_formed (upsert (position_key issue) issue pg).
Proof.
  intros [Hnodup Hentries]. split; [| apply upsert_entries, Hentries].
  destruct (key_in_dec (position_key issue) (map fst pg)) as [Hin | Hnot].
  - rewrite upsert_present by exact Hin. exact Hnodup.
  - rewrite upsert_absent by exact Hnot. rewrite map_app. simpl.
    replace (map fst pg ++ [position_key issue])
      with (rev (position_key issue :: rev (map fst pg)))
      by (simpl; rewrite rev_involutive; reflexivity).
    apply NoDup_rev. constructor; [| apply NoDup_rev, Hnodup].
    rewrite <- in_rev. exact Hnot.
Qed.

Lemma grouped_well_formed (issues : list PromptIssue) (pg : groups) :
  well_formed pg -> well_formed (grouped issues pg).
Proof.
  revert pg. unfold grouped.
  induction issues as [| issue issues IH]; intros pg Hpg; simpl.
  - exact Hpg.
  - apply IH, upsert_well_formed, Hpg.
Qed.

Lemma well_formed_nil : well_formed [].
Proof. split; constructor. Qed.

(** The running best of [max] is one of the elements seen. *)
Lemma max_fold_in {K : Type} (lt : K -> K -> bool) (key : PromptIssue -> K)
    (rest : list PromptIssue) (x : PromptIssue) :
  In (fold_left (fun best y => if lt (key best) (key y) then y else best)
                rest x)
     (x :: rest).
Proof.
  revert x. induction rest as [| y rest IH]; intros x; simpl.
  - left. reflexivity.
  - destruct (lt (key x) (key y)).
    + right. apply IH.
    + destruct (IH x) as [Hx | Hin]; [left; exact Hx | right; right; exact Hin].
Qed.

(** The selection never raises on a group that is not empty, and keeps
    a member of the group. *)
Lemma select_best_in (group : list PromptIssue) :
  group <> [] ->
  exists best, select_best group = Py.Ok best /\ In best group.
Proof.
  destruct group as [| a [| b rest]]; intros Hne.
  - contradiction.
  - exists a. split; [reflexivity | left; reflexivity].
  - eexists. split; [reflexivity |]. apply max_fold_in.
Qed.

Lemma select_loop_spec (gs : list (list PromptIssue))
    (deduplicated : list PromptIssue) :
  Forall (fun group => group <> []) gs ->
  exists winners,
    select_loop gs deduplicated = Py.Ok (deduplicated ++ winners)
    /\ Forall2 (fun group best => In best group) gs winners.
Proof.
  intros Hgs. revert deduplicated.
  induction Hgs as [| group gs Hne _ IH]; intros acc; simpl.
  - exists []. rewrite app_nil_r. split; [reflexivity | constructor].
  - destruct (select_best_in group Hne) as [best [Hbest Hin]].
    rewrite Hbest.
    destruct (IH (acc ++ [best])) as [winners [Hloop Hall]].
    exists (best :: winners). rewrite Hloop, <- app_assoc.
    split; [reflexivity | constructor; assumption].
Qed.

Lemma winners_keys (pg : groups) (winners : list PromptIssue) :
  Forall entry_ok pg ->
  Forall2 (fun group best => In best group) (Py.dict_values pg) winners ->
  map position_key winners = map fst pg.
Proof.
  intros Hpg. revert winners.
  induction Hpg as [| [key group] rest [_ Hkeys] _ IH]; intros winners Hw;
    simpl in *; inversion Hw as [| ? best ? winners' Hin Hw']; subst; simpl.
  - reflexivity.
  - f_equal; [| apply IH, Hw'].
    rewrite Forall_forall in Hkeys. apply Hkeys, Hin.
Qed.

Lemma well_formed_values (pg : groups) :
  well_formed pg -> Forall (fun group => group <> []) (Py.dict_values pg).
Proof.
  intros [_ Hentries]. unfold Py.dict_values.
  induction Hentries as [| entry rest [Hne _] _ IH]; simpl; constructor;
    assumption.
Qed.

(** [_deduplicate_issues] without the early return: on the empty list the
    loops produce the empty list as well. *)
Lemma deduplicate_unfold (issues : list PromptIssue) :
  _deduplicate_issues issues
  = match select_loop (Py.dict_values (grouped issues [])) [] with
    | Py.Ok deduplicated => Py.Ok (Py.sort_by start deduplicated)
    | Py.Raise e => Py.Raise e
    end.
Proof.
  destruct issues as [| issue issues]; [reflexivity |].
  unfold _deduplicate_issues. rewrite group_loop_grouped. reflexivity.
Qed.

(** The deduplication returns, and what it returns is the sorted list of
    one winner per position group. *)
Lemma deduplicate_spec (issues : list PromptIssue) :
  exists winners,
    _deduplicate_issues issues = Py.Ok (Py.sort_by start winners)
    /\ map position_key winners = map fst (grouped issues [])
    /\ NoDup (map position_key winners).
Proof.
  pose proof (grouped_well_formed issues [] well_formed_nil) as Hwf.
  destruct (select_loop_spec _ [] (well_formed_values _ Hwf))
    as [winners [Hloop Hall]].
  exists winners. rewrite deduplicate_unfold, Hloop. simpl.
  assert (Hkeys : map position_key winners = map fst (grouped issues []))
    by (apply winners_keys; [apply Hwf | exact Hall]).
  split; [reflexivity | split; [exact Hkeys |]].
  rewrite Hkeys. apply Hwf.
Qed.

Lemma deduplicate_sorted_distinct (issues : list PromptIssue) :
  exists out,
    _deduplicate_issues issues = Py.Ok out
    /\ StronglySorted start_le out
    /\ NoDup (map position_key out).
Proof.
  destruct (deduplicate_spec issues) as [winners [Hrun [_ Hnodup]]].
  exists (Py.sort_by start winners). split; [exact Hrun | split].
  - apply (sort_by_sorted start).
  - eapply Permutation_NoDup; [| exact Hnodup].
    apply Permutation_map, Permutation_sym, sort_by_perm.
Qed.

(** Issues in pairwise different buckets form one group each. *)
Lemma grouped_distinct (issues : list PromptIssue) (pg : groups) :
  NoDup (map position_key issues) ->
  (forall issue, In issue issues -> ~ In (position_key issue) (map fst pg)) ->
  grouped issues pg
  = pg ++ map (fun issue => (position_key issue, [issue])) issues.
Proof.
  revert pg. unfold grouped.
  induction issues as [| issue issues IH]; intros pg Hnodup Hfresh; simpl.
  - rewrite app_nil_r. reflexivity.
  - inversion Hnodup as [| ? ? Hhead Htail]; subst.
    rewrite upsert_absent by (apply Hfresh; left; reflexivity).
    rewrite IH; [rewrite <- app_assoc; reflexivity | exact Htail |].
    intros other Hother Hin. rewrite map_app in Hin.
    apply in_app_or in Hin. destruct Hin as [Hin | [Heq | []]].
    + apply (Hfresh other); [right; exact Hother | exact Hin].
    + simpl in Heq. apply Hhead. rewrite Heq.
      apply in_map, Hother.
Qed.

Lemma select_loop_singletons (issues deduplicated : list PromptIssue) :
  select_loop (map (fun issue => [issue]) issues) deduplicated
  = Py.Ok (deduplicated ++ issues).
Proof.
  revert deduplicated.
  induction issues as [| issue issues IH]; intros acc; simpl.
  - rewrite app_nil_r. reflexivity.
  - rewrite IH, <- app_assoc. reflexivity.
Qed.

(** On issues in pairwise different buckets the deduplication only sorts. *)
Lemma deduplicate_distinct (issues : list PromptIssue) :
  NoDup (map position_key issues) ->
  _deduplicate_issues issues = Py.Ok (Py.sort_by start issues).
Proof.
  intros Hnodup. rewrite deduplicate_unfold.
  rewrite grouped_distinct by (auto; intros ? ? []).
  unfold Py.dict_values. simpl app. rewrite map_map. simpl.
  rewrite select_loop_singletons. reflexivity.
Qed.

(** C2.  For every pair of issue lists the fusion returns a list (it does
    not raise) that is sorted ascending by [start] and in which no two
    issues have the same bucket key
    [(start // 5 * 5, end // 5 * 5)]. *)
Theorem C2_fuse_sorted_distinct_buckets
    (rule_issues llm_issues : list PromptIssue) :
  exists out,
    fuse rule_issues llm_issues = Py.Ok out
    /\ StronglySorted start_le out
    /\ NoDup (map position_key out).
Proof.
  unfold fuse. apply deduplicate_sorted_distinct.
Qed.

(** C7.  Fusion is idempotent: for all issue lists, fusing the result of
    a fusion with the empty list returns that result again. *)
Theorem C7_fuse_idempotent (rule_issues llm_issues : list PromptIssue) :
  exists out,
    fuse rule_issues llm_issues = Py.Ok out
    /\ fuse out [] = Py.Ok out.
Proof.
  destruct (deduplicate_sorted_distinct (rule_issues ++ llm_issues))
    as [out [Hrun [Hsorted Hnodup]]].
  exists out. split; [exact Hrun |].
  unfold fuse. rewrite app_nil_r.
  rewrite deduplicate_distinct by exact Hnodup.
  f_equal. apply sort_by_sorted_id. exact Hsorted.
Qed.

(** C3, as the code has it.  For every rule-issue list whose issues lie
    in pairwise different buckets, fusing it with the empty external list
    returns exactly the rule issues sorted (stably) ascending by [start]:
    a sorted rearrangement of the rule issues, none dropped, added or
    replaced. *)
Theorem C3_fuse_empty_external (rule_issues : list PromptIssue) :
  NoDup (map position_key rule_issues) ->
  fuse rule_issues [] = Py.Ok (Py.sort_by start rule_issues)
  /\ StronglySorted start_le (Py.sort_by start rule_issues)
  /\ Permutation (Py.sort_by start rule_issues) rule_issues.
Proof.
  intros Hnodup. unfold fuse. rewrite app_nil_r.
  split; [apply deduplicate_distinct, Hnodup | split].
  - apply (sort_by_sorted start).
  - apply sort_by_perm.
Qed.

(** The theorem at two rule issues in the buckets (0,0) and (10,10). *)
Lemma C3_fuse_empty_external_witness :
  NoDup (map position_key [Samples.examine_role; Samples.rule_medium])
  /\ fuse [Samples.examine_role; Samples.rule_medium] []
     = Py.Ok [Samples.examine_role; Samples.rule_medium].
Proof.
  assert (Hnodup :
    NoDup (map position_key [Samples.examine_role; Samples.rule_medium])).
  { constructor; [| constructor; [intros [] | constructor]].
    intros [Heq | []]. discriminate Heq. }
  split; [exact Hnodup |].
  exact (proj1 (C3_fuse_empty_external
                  [Samples.examine_role; Samples.rule_medium] Hnodup)).
Defined.

(** C3 as stated fails: the rule issues of the prompt [examine] are a
    vague instruction at (0,7), a missing role at (0,0) and a too short
    prompt at (0,7); the first and the last share the bucket (0,5), and
    fusing the three with an empty external list drops the vague one. *)
Lemma C3_counterexample :
  RuleBasedAnalyzer.analyze Samples.uuid4_hex8 Samples.nlp "examine" 0
  = (Py.Ok [Samples.examine_vague; Samples.examine_role;
            Samples.examine_short], 3)
  /\ Py.sort_by start [Samples.examine_vague; Samples.examine_role;
                       Samples.examine_short]
     = [Samples.examine_vague; Samples.examine_role; Samples.examine_short]
  /\ fuse [Samples.examine_vague; Samples.examine_role;
           Samples.examine_short] []
     = Py.Ok [Samples.examine_short; Samples.examine_role]
  /\ HybridAnalyzer.analyze Samples.uuid4_hex8 Samples.nlp
       (fun _ => RuleBasedAnalyzer.ret []) "examine" true 0
     = (Py.Ok [Samples.examine_short; Samples.examine_role], 3).
Proof.
  repeat split; vm_compute; reflexivity.
Qed.

(** Without deep analysis nothing is fused: [analyze] returns the rule
    issues as the detector produced them, neither deduplicated nor
    sorted; for the prompt [please check] they start at 7, 0 and 0. *)
Lemma analyze_without_llm (uuid4_hex8 : nat -> string)
    (nlp : string -> Py.result (list spacy.Token))
    (analyze_with_llm : string -> RuleBasedAnalyzer.M (list PromptIssue))
    (text : string) (n : nat) :
  HybridAnalyzer.analyze uuid4_hex8 nlp analyze_with_llm text false n
  = RuleBasedAnalyzer.analyze uuid4_hex8 nlp text n.
Proof.
  unfold HybridAnalyzer.analyze, RuleBasedAnalyzer.bind.
  destruct (RuleBasedAnalyzer.analyze uuid4_hex8 nlp text n) as [[l | e] n'];
    reflexivity.
Qed.

Lemma analyze_without_llm_unsorted :
  match HybridAnalyzer.analyze Samples.uuid4_hex8 Samples.nlp_failing
          (fun _ => RuleBasedAnalyzer.ret []) "please check" false 0 with
  | (Py.Ok issues, _) => map start issues = [7; 0; 0]%Z
  | (Py.Raise _, _) => False
  end.
Proof. vm_compute. reflexivity. Qed.

(** C4, as the code has it.  For a medium and a critical issue: with the
    spans (10,14) and (12,15) the bucket keys are (10,10) and (10,15), the
    issues are in different buckets and the fusion keeps both, in the
    order of their starts; when the two have the same bucket key (as the
    spans (10,14) and (12,14) have), the fusion keeps only the critical
    one, whichever list each issue comes from. *)
Theorem C4_fuse_medium_critical (m c : PromptIssue) :
  severity m = Severity.MEDIUM ->
  severity c = Severity.CRITICAL ->
  ((start m, end_ m) = (10, 14)%Z /\ (start c, end_ c) = (12, 15)%Z ->
     position_key m = (10, 10)%Z /\ position_key c = (10, 15)%Z
     /\ fuse [m] [c] = Py.Ok [m; c] /\ fuse [c] [m] = Py.Ok [m; c])
  /\ ((start m, end_ m) = (12, 15)%Z /\ (start c, end_ c) = (10, 14)%Z ->
     position_key m = (10, 15)%Z /\ position_key c = (10, 10)%Z
     /\ fuse [m] [c] = Py.Ok [c; m] /\ fuse [c] [m] = Py.Ok [c; m])
  /\ (position_key m = position_key c ->
     fuse [m] [c] = Py.Ok [c] /\ fuse [c] [m] = Py.Ok [c]).
Proof.
  intros Hm Hc. split; [| split].
  - intros [Hms Hcs]. destruct m, c. simpl in *.
    injection Hms as -> ->. injection Hcs as -> ->.
    repeat split; reflexivity.
  - intros [Hms Hcs]. destruct m, c. simpl in *.
    injection Hms as -> ->. injection Hcs as -> ->.
    repeat split; reflexivity.
  - intros Hkey. unfold fuse. simpl app.
    rewrite !deduplicate_unfold. unfold grouped. simpl fold_left.
    rewrite Hkey, key_eqb_refl.
    unfold Py.dict_values. simpl.
    unfold selection_key. rewrite Hm, Hc. simpl.
    split; reflexivity.
Qed.

(** The theorem at a medium and a critical issue with the spans (10,14)
    and (12,14), both in the bucket (10,10). *)
Lemma C4_fuse_medium_critical_witness :
  severity Samples.rule_medium = Severity.MEDIUM
  /\ severity Samples.llm_critical_near = Severity.CRITICAL
  /\ position_key Samples.rule_medium
     = position_key Samples.llm_critical_near
  /\ fuse [Samples.rule_medium] [Samples.llm_critical_near]
     = Py.Ok [Samples.llm_critical_near].
Proof.
  split; [reflexivity | split; [reflexivity | split; [reflexivity |]]].
  exact (proj1 (proj2 (proj2
           (C4_fuse_medium_critical Samples.rule_medium
              Samples.llm_critical_near eq_refl eq_refl)) eq_refl)).
Defined.

(** C4 as stated fails: a medium issue at (10,14) and a critical issue at
    (12,15) have the bucket keys (10,10) and (10,15); the fusion keeps
    both. *)
Lemma C4_counterexample :
  severity Samples.rule_medium = Severity.MEDIUM
  /\ severity Samples.llm_critical = Severity.CRITICAL
  /\ (start Samples.rule_medium, end_ Samples.rule_medium) = (10, 14)%Z
  /\ (start Samples.llm_critical, end_ Samples.llm_critical) = (12, 15)%Z
  /\ position_key Samples.rule_medium <> position_key Samples.llm_critical
  /\ fuse [Samples.rule_medium] [Samples.llm_critical]
     = Py.Ok [Samples.rule_medium; Samples.llm_critical]
  /\ fuse [Samples.rule_medium] [Samples.llm_critical]
     <> Py.Ok [Samples.llm_critical].
Proof.
  repeat split; try reflexivity; vm_compute; discriminate.
Qed.

End Fusion.

(** ** The heuristic detector *)

Section Heuristics.
Import RuleBasedAnalyzer.

Variable uuid4_hex8 : nat -> string.
Variable nlp : string -> Py.result (list spacy.Token).

(** The loop over the tokens always returns: it extends the issues it was
    given by issues of low severity, one per flagged token among the
    first two of the document. *)
Lemma pronoun_loop_spec (tokens : list spacy.Token) :
  forall (i : nat) (issues : list PromptIssue) (n : nat),
  exists extra n',
    pronoun_loop uuid4_hex8 tokens i issues n = (Py.Ok (issues ++ extra), n')
    /\ Forall (fun issue => severity issue = Severity.LOW) extra
    /\ List.length extra <= 2 - i.
Proof.
  induction tokens as [| token rest IH]; intros i issues n.
  - exists [], n. rewrite app_nil_r.
    repeat split; [constructor | simpl; lia].
  - cbn [pronoun_loop].
    destruct (existsb (String.eqb (Py.lower (spacy.text token)))
                ambiguous_pronouns
              && String.eqb (spacy.pos_ token) "PRON").
    + destruct (i <? 2) eqn:Hi.
      * apply Nat.ltb_lt in Hi.
        unfold try_except, bind, new_issue, fresh_id, lift, bind,
          PromptIssue_new.
        match goal with
        | |- context [PromptIssue_valid ?x] =>
            destruct (PromptIssue_valid x); set (issue := x)
        end.
        -- destruct (IH (S i) (issues ++ [issue]) (S n))
             as [extra [n' [Hrun [Hlow Hlen]]]].
           exists (issue :: extra), n'. rewrite Hrun, <- app_assoc.
           repeat split; [constructor; [reflexivity | exact Hlow] |].
           cbn [List.length]. lia.
        -- exists [], (S n). rewrite app_nil_r.
           repeat split; [constructor | simpl; lia].
      * apply Nat.ltb_ge in Hi.
        destruct (IH (S i) issues n) as [extra [n' [Hrun [Hlow Hlen]]]].
        exists extra, n'. repeat split; [exact Hrun | exact Hlow | lia].
    + destruct (IH (S i) issues n) as [extra [n' [Hrun [Hlow Hlen]]]].
      exists extra, n'. repeat split; [exact Hrun | exact Hlow | lia].
Qed.

(** The ambiguous-reference check never raises and reports at most two
    issues, all of low severity. *)
Lemma check_ambiguous_pronouns_spec (text : string) (n : nat) :
  exists extra n',
    _check_ambiguous_pronouns uuid4_hex8 nlp text n = (Py.Ok extra, n')
    /\ Forall (fun issue => severity issue = Severity.LOW) extra
    /\ List.length extra <= 2.
Proof.
  unfold _check_ambiguous_pronouns. destruct (nlp text) as [doc | e].
  - destruct (pronoun_loop_spec doc 0 [] n) as [extra [n' [Hrun [Hlow Hlen]]]].
    exists extra, n'. repeat split; [exact Hrun | exact Hlow | lia].
  - exists [], n. repeat split; [constructor | simpl; lia].
Qed.

(** C8.  When the tokenizer raises on a text, the ambiguous-reference
    check returns no issue, and [analyze] behaves as the five other checks
    alone: it returns their issues, concatenated and unchanged, and the
    failure of the tokenizer does not reach the caller. *)
Theorem C8_tokenizer_failure (text : string) (e : Py.exn) (n : nat) :
  nlp text = Py.Raise e ->
  _check_ambiguous_pronouns uuid4_hex8 nlp text n = (Py.Ok [], n)
  /\ analyze uuid4_hex8 nlp text n
     = (vague <- _check_vague_instructions uuid4_hex8 text ;;
        role <- _check_role_definition uuid4_hex8 text ;;
        format <- _check_output_format uuid4_hex8 text ;;
        length <- _check_length uuid4_hex8 text ;;
        specificity <- _check_specificity uuid4_hex8 text ;;
        ret (vague ++ role ++ format ++ length ++ specificity)) n
  /\ (forall vague n1 role n2 format n3 length n4 specificity n5,
        _check_vague_instructions uuid4_hex8 text n = (Py.Ok vague, n1) ->
        _check_role_definition uuid4_hex8 text n1 = (Py.Ok role, n2) ->
        _check_output_format uuid4_hex8 text n2 = (Py.Ok format, n3) ->
        _check_length uuid4_hex8 text n3 = (Py.Ok length, n4) ->
        _check_specificity uuid4_hex8 text n4 = (Py.Ok specificity, n5) ->
        analyze uuid4_hex8 nlp text n
        = (Py.Ok (vague ++ role ++ format ++ length ++ specificity), n5)).
Proof.
  intros Hfail.
  assert (Hcheck : forall k,
            _check_ambiguous_pronouns uuid4_hex8 nlp text k = (Py.Ok [], k)).
  { intros k. unfold _check_ambiguous_pronouns. rewrite Hfail. reflexivity. }
  assert (Hrun : analyze uuid4_hex8 nlp text n
     = (vague <- _check_vague_instructions uuid4_hex8 text ;;
        role <- _check_role_definition uuid4_hex8 text ;;
        format <- _check_output_format uuid4_hex8 text ;;
        length <- _check_length uuid4_hex8 text ;;
        specificity <- _check_specificity uuid4_hex8 text ;;
        ret (vague ++ role ++ format ++ length ++ specificity)) n).
  { unfold analyze, bind.
    destruct (_check_vague_instructions uuid4_hex8 text n) as [[v | ?] n1];
      [| reflexivity].
    destruct (_check_role_definition uuid4_hex8 text n1) as [[r | ?] n2];
      [| reflexivity].
    destruct (_check_output_format uuid4_hex8 text n2) as [[f | ?] n3];
      [| reflexivity].
    destruct (_check_length uuid4_hex8 text n3) as [[l | ?] n4];
      [| reflexivity].
    destruct (_check_specificity uuid4_hex8 text n4) as [[s | ?] n5];
      [| reflexivity].
    rewrite Hcheck. unfold ret. simpl.
    rewrite app_nil_r, <- !app_assoc. reflexivity. }
  split; [apply Hcheck | split; [exact Hrun |]].
  intros vague n1 role n2 format n3 length n4 specificity n5 Hv Hr Hf Hl Hs.
  rewrite Hrun. unfold bind. rewrite Hv, Hr, Hf, Hl, Hs. reflexivity.
Qed.

Lemma check_vague_analyze_data (n : nat) :
  _check_vague_instructions uuid4_hex8 "analyze data" n
  = (Py.Ok [Samples.analyze_data_vague ("issue-" ++ uuid4_hex8 n)%string],
     S n).
Proof. reflexivity. Qed.

Lemma check_role_analyze_data (n : nat) :
  _check_role_definition uuid4_hex8 "analyze data" n
  = (Py.Ok [Samples.analyze_data_role ("issue-" ++ uuid4_hex8 n)%string],
     S n).
Proof. reflexivity. Qed.

Lemma check_format_analyze_data (n : nat) :
  _check_output_format uuid4_hex8 "analyze data" n = (Py.Ok [], n).
Proof. reflexivity. Qed.

Lemma check_length_analyze_data (n : nat) :
  _check_length uuid4_hex8 "analyze data" n
  = (Py.Ok [Samples.analyze_data_short ("issue-" ++ uuid4_hex8 n)%string],
     S n).
Proof. reflexivity. Qed.

Lemma check_specificity_analyze_data (n : nat) :
  _check_specificity uuid4_hex8 "analyze data" n = (Py.Ok [], n).
Proof. reflexivity. Qed.

Lemma deductions_low (issues : list PromptIssue) :
  Forall (fun issue => severity issue = Severity.LOW) issues ->
  ScoringSpec.deductions issues = (5 * Z.of_nat (List.length issues))%Z.
Proof.
  induction 1 as [| issue issues Hlow _ IH].
  - reflexivity.
  - cbn [ScoringSpec.deductions fold_right List.length].
    fold (ScoringSpec.deductions issues).
    rewrite IH, Hlow, Nat2Z.inj_succ. simpl ScoringSpec.penalty. lia.
Qed.

(** C5.  Whatever the tokenizer and the identifiers are, the analysis of
    the prompt [analyze data] returns a vague issue of medium severity, a
    missing-role issue of medium severity and a too-short issue of
    critical severity, followed by at most two issues of the
    ambiguous-reference check; the score of the prompt with these issues
    lies between 50 and 60, so it is not below 50. *)
Theorem C5_analyze_data (n : nat) :
  exists pronouns n',
    let issues :=
      [Samples.analyze_data_vague ("issue-" ++ uuid4_hex8 n)%string;
       Samples.analyze_data_role ("issue-" ++ uuid4_hex8 (S n))%string;
       Samples.analyze_data_short ("issue-" ++ uuid4_hex8 (S (S n)))%string]
      ++ pronouns in
    analyze uuid4_hex8 nlp "analyze data" n = (Py.Ok issues, n')
    /\ (exists issue,
          In issue issues /\ type issue = VAGUE
          /\ severity issue = Severity.MEDIUM)
    /\ (exists issue,
          In issue issues /\ type issue = MISSING_ROLE
          /\ severity issue = Severity.MEDIUM)
    /\ List.length pronouns <= 2
    /\ calculate_quality_score "analyze data" issues
       = (60 - 5 * Z.of_nat (List.length pronouns))%Z
    /\ ~ (calculate_quality_score "analyze data" issues < 50)%Z.
Proof.
  destruct (check_ambiguous_pronouns_spec "analyze data" (S (S (S n))))
    as [pronouns [n' [Hrun [Hlow Hlen]]]].
  exists pronouns, n'. intros issues.
  assert (Hscore :
    calculate_quality_score "analyze data" issues
    = (60 - 5 * Z.of_nat (List.length pronouns))%Z).
  { subst issues. rewrite score_refines. unfold ScoringSpec.score.
    rewrite deductions_app, (deductions_low pronouns Hlow).
    change (20 <=? PatternMatcher.count_words "analyze data") with false.
    change (PatternMatcher.has_specific_instructions "analyze data")
      with false.
    change (PatternMatcher.contains_pattern "analyze data"
              PatternMatcher.ROLE_PATTERNS) with false.
    unfold ScoringSpec.bonus, ScoringSpec.clamp.
    change (ScoringSpec.deductions
              [Samples.analyze_data_vague ("issue-" ++ uuid4_hex8 n)%string;
               Samples.analyze_data_role
                 ("issue-" ++ uuid4_hex8 (S n))%string;
               Samples.analyze_data_short
                 ("issue-" ++ uuid4_hex8 (S (S n)))%string]) with 40%Z.
    lia. }
  split; [| split; [| split; [| split; [exact Hlen | split]]]].
  - unfold analyze, bind.
    rewrite check_vague_analyze_data, check_role_analyze_data,
      check_format_analyze_data, check_length_analyze_data,
      check_specificity_analyze_data, Hrun.
    reflexivity.
  - eexists. split; [left; reflexivity | split; reflexivity].
  - eexists. split; [right; left; reflexivity | split; reflexivity].
  - exact Hscore.
  - rewrite Hscore. lia.
Qed.

End Heuristics.

(** The theorem at the prompt [analyze data] with a tokenizer that
    raises: the analysis returns the three issues of the other checks. *)
Lemma C8_tokenizer_failure_witness :
  Samples.nlp_failing "analyze data" = Py.Raise Py.RuntimeError
  /\ RuleBasedAnalyzer.analyze Samples.uuid4_hex8 Samples.nlp_failing
       "analyze data" 0
     = (Py.Ok [Samples.analyze_data_vague "issue-3f2a9c1e";
               Samples.analyze_data_role "issue-b07d44a2";
               Samples.analyze_data_short "issue-5e61c0f9"], 3).
Proof.
  split; [reflexivity |].
  exact (proj2 (proj2
           (C8_tokenizer_failure Samples.uuid4_hex8 Samples.nlp_failing
              "analyze data" Py.RuntimeError 0 eq_refl))
           _ _ _ _ _ _ _ _ _ _ eq_refl eq_refl eq_refl eq_refl eq_refl).
Defined.

(** With a tokenizer that finds no pronoun in [analyze data], the analysis
    returns the three issues and the score is 60. *)
Lemma analyze_data_score_sample :
  RuleBasedAnalyzer.analyze Samples.uuid4_hex8 Samples.nlp "analyze data" 0
  = (Py.Ok [Samples.analyze_data_vague "issue-3f2a9c1e";
            Samples.analyze_data_role "issue-b07d44a2";
            Samples.analyze_data_short "issue-5e61c0f9"], 3)
  /\ RuleBasedAnalyzer.calculate_quality_score "analyze data"
       [Samples.analyze_data_vague "issue-3f2a9c1e";
        Samples.analyze_data_role "issue-b07d44a2";
        Samples.analyze_data_short "issue-5e61c0f9"] = 60%Z.
Proof.
  split; vm_compute; reflexivity.
Qed.

(** ** The bounds on an analysis request *)

Section Bounds.

Lemma lstrip_length (s : string) : Py.len (Py.lstrip s) <= Py.len s.
Proof.
  unfold Py.len. induction s as [| c s IH]; simpl.
  - lia.
  - destruct (Py.isspace c); simpl; lia.
Qed.

Lemma rstrip_length (s : string) : Py.len (Py.rstrip s) <= Py.len s.
Proof.
  unfold Py.len. induction s as [| c s IH]; simpl.
  - lia.
  - destruct (Py.rstrip s); [destruct (Py.isspace c) |]; simpl in *; lia.
Qed.

Lemma strip_length (s : string) : Py.len (Py.strip s) <= Py.len s.
Proof.
  unfold Py.strip.
  pose proof (rstrip_length (Py.lstrip s)). pose proof (lstrip_length s). lia.
Qed.

Lemma len_zero (s : string) : Py.len s = 0 <-> s = "".
Proof.
  destruct s; simpl; split; intros H; try reflexivity; discriminate H.
Qed.

(** The request model alone. *)
Lemma AnalysisRequest_new_spec (v : string) (flag : bool) :
  (Py.len v = 0 \/ Py.strip v = "" \/ 5000 < Py.len v ->
     AnalysisRequest_new v flag = Py.Raise Py.ValidationError)
  /\ (Py.strip v <> "" /\ Py.len v <= 5000 ->
     AnalysisRequest_new v flag
     = Py.Ok (mkAnalysisRequest (Py.strip v) flag)).
Proof.
  unfold AnalysisRequest_new, text_must_not_be_empty. split.
  - intros H.
    destruct ((Py.len v <? 1) || (5000 <? Py.len v)) eqn:E1;
      [reflexivity |].
    destruct ((Py.len v =? 0) || (Py.len (Py.strip v) =? 0)) eqn:E2;
      [reflexivity |].
    apply orb_false_iff in E1. destruct E1 as [E1a E1b].
    apply orb_false_iff in E2. destruct E2 as [E2a E2b].
    apply Nat.ltb_ge in E1a, E1b. apply Nat.eqb_neq in E2a, E2b.
    destruct H as [H | [H | H]]; [lia | | lia].
    apply len_zero in H. contradiction.
  - intros [Hne Hmax].
    assert (Hlen : Py.len (Py.strip v) <> 0)
      by (intros H; apply Hne, len_zero, H).
    pose proof (strip_length v) as Hle.
    nat_test_false (Py.len v <? 1).
    nat_test_false (5000 <? Py.len v).
    nat_test_false (Py.len v =? 0).
    nat_test_false (Py.len (Py.strip v) =? 0).
    reflexivity.
Qed.

(** C9, as the code has it.  The request model rejects a text that is
    empty or consists of white space only, and a text that, as given
    (before trimming), is longer than 5000 characters; it accepts every
    other text, trimmed, however short, and the WebSocket endpoint checks
    nothing more.  The handler of the HTTP endpoint rejects, on top of
    that, a text that is shorter than 5 characters after trimming, and
    accepts every text of at most 5000 characters with at least 5
    characters after trimming. *)
Theorem C9_request_bounds (v : string) (flag : bool) :
  (Py.len v = 0 \/ Py.strip v = "" \/ 5000 < Py.len v ->
     AnalysisRequest_new v flag = Py.Raise Py.ValidationError
     /\ server.analyze_prompt_boundary v flag = Py.Raise Py.ValidationError)
  /\ (Py.strip v <> "" /\ Py.len v <= 5000 ->
     AnalysisRequest_new v flag
     = Py.Ok (mkAnalysisRequest (Py.strip v) flag)
     /\ websocket_server.analysis_request v flag
        = Py.Ok (mkAnalysisRequest (Py.strip v) flag))
  /\ (Py.strip v <> "" /\ Py.len v <= 5000 /\ Py.len (Py.strip v) < 5 ->
     server.analyze_prompt_boundary v flag
     = Py.Raise (Py.HTTPException 400))
  /\ (5 <= Py.len (Py.strip v) /\ Py.len v <= 5000 ->
     server.analyze_prompt_boundary v flag
     = Py.Ok (mkAnalysisRequest (Py.strip v) flag)).
Proof.
  destruct (AnalysisRequest_new_spec v flag) as [Hreject Haccept].
  pose proof (strip_length v) as Hle.
  unfold server.analyze_prompt_boundary, server.analyze_prompt_length_gate,
    settings.max_prompt_length, settings.min_prompt_length.
  split; [| split; [| split]].
  - intros H. rewrite (Hreject H). split; reflexivity.
  - intros H. unfold websocket_server.analysis_request.
    rewrite (Haccept H). split; reflexivity.
  - intros [Hne [Hmax Hshort]]. rewrite (Haccept (conj Hne Hmax)).
    cbn [text].
    nat_test_false (5000 <? Py.len (Py.strip v)).
    nat_test_true (Py.len (Py.strip v) <? 5).
    reflexivity.
  - intros [Hmin Hmax].
    assert (Hne : Py.strip v <> "").
    { intros H. rewrite H in Hmin. simpl in Hmin. lia. }
    rewrite (Haccept (conj Hne Hmax)). cbn [text].
    nat_test_false (5000 <? Py.len (Py.strip v)).
    nat_test_false (Py.len (Py.strip v) <? 5).
    reflexivity.
Qed.

(** The theorem at a prompt with surrounding white space: the HTTP
    endpoint accepts it, trimmed. *)
Lemma C9_request_bounds_witness :
  5 <= Py.len (Py.strip "  analyze data ")
  /\ Py.len "  analyze data " <= 5000
  /\ server.analyze_prompt_boundary "  analyze data " true
     = Py.Ok (mkAnalysisRequest "analyze data" true).
Proof.
  assert (Hmin : 5 <= Py.len (Py.strip "  analyze data "))
    by (vm_compute; repeat constructor).
  assert (Hmax : Py.len "  analyze data " <= 5000)
    by (apply Nat.leb_le; vm_compute; reflexivity).
  split; [exact Hmin | split; [exact Hmax |]].
  exact (proj2 (proj2 (proj2 (C9_request_bounds "  analyze data " true)))
           (conj Hmin Hmax)).
Defined.

(** C9 as stated fails.  The request model, and with it the WebSocket
    endpoint, accepts the text [test] of 4 characters.  At the HTTP
    endpoint, the text [  ab  ] of 6 characters
    is rejected because only 2 remain after trimming, and a text of 4999
    letters followed by two spaces is rejected because it has 5001
    characters before trimming. *)
Lemma C9_counterexample :
  (Py.len "test" = 4
   /\ AnalysisRequest_new "test" false
      = Py.Ok (mkAnalysisRequest "test" false)
   /\ websocket_server.analysis_request "test" false
      = Py.Ok (mkAnalysisRequest "test" false))
  /\ (Py.len "  ab  " = 6 /\ Py.strip "  ab  " = "ab"
      /\ server.analyze_prompt_boundary "  ab  " false
         = Py.Raise (Py.HTTPException 400))
  /\ (Z.of_nat (Py.len Samples.padded_text) = 5001%Z
      /\ Py.len (Py.strip Samples.padded_text) = 4999
      /\ AnalysisRequest_new Samples.padded_text false
         = Py.Raise Py.ValidationError
      /\ server.analyze_prompt_boundary Samples.padded_text false
         = Py.Raise Py.ValidationError).
Proof.
  repeat split; vm_compute; reflexivity.
Qed.

End Bounds.

(** ** What the deduplication keeps *)

Section FusionStructure.
Import HybridAnalyzer Grouping FusionSpec.

Lemma pair_lt_spec (a b : Z * Z) :
  Py.pair_lt a b = true
  <-> (fst a < fst b \/ (fst a = fst b /\ snd a < snd b))%Z.
Proof.
  unfold Py.pair_lt.
  rewrite orb_true_iff, andb_true_iff, !Z.ltb_lt, Z.eqb_eq. reflexivity.
Qed.

Lemma ranks_below_irrefl (a : PromptIssue) : ~ ranks_below a a.
Proof. unfold ranks_below. rewrite pair_lt_spec. lia. Qed.

Lemma ranks_below_trans (a b c : PromptIssue) :
  ranks_below a b -> ranks_below b c -> ranks_below a c.
Proof. unfold ranks_below. rewrite !pair_lt_spec. lia. Qed.

Lemma ranks_below_asym (a b : PromptIssue) :
  ranks_below a b -> ~ ranks_below b a.
Proof. unfold ranks_below. rewrite !pair_lt_spec. lia. Qed.

Lemma not_below_then_below (b y z : PromptIssue) :
  ~ ranks_below b z -> ranks_below b y -> ranks_below z y.
Proof. unfold ranks_below. rewrite !pair_lt_spec. lia. Qed.

Lemma not_below_trans (b y z : PromptIssue) :
  ~ ranks_below y z -> ranks_below b y -> ~ ranks_below y z /\ ranks_below b y.
Proof. auto. Qed.

(** The running best of [max] stays the first issue of the highest rank
    among the issues seen. *)
Lemma max_fold_first_maximal (rest : list PromptIssue) :
  forall (best : PromptIssue) (seen : list PromptIssue),
  first_maximal seen best ->
  first_maximal (seen ++ rest)
    (fold_left
       (fun best y =>
          if Py.pair_lt (selection_key best) (selection_key y)
          then y else best)
       rest best).
Proof.
  induction rest as [| y rest IH]; intros best seen Hseen; simpl.
  - rewrite app_nil_r. exact Hseen.
  - replace (seen ++ y :: rest) with ((seen ++ [y]) ++ rest)
      by (rewrite <- app_assoc; reflexivity).
    apply IH.
    destruct Hseen as [before [after [Heq [Hbefore Hafter]]]].
    destruct (Py.pair_lt (selection_key best) (selection_key y)) eqn:E.
    + exists seen, []. split; [reflexivity | split; [| constructor]].
      subst seen. apply Forall_app. split; [| constructor].
      * eapply Forall_impl; [| exact Hbefore].
        intros a Ha. eapply ranks_below_trans; [exact Ha | exact E].
      * exact E.
      * eapply Forall_impl; [| exact Hafter].
        intros a Ha. eapply not_below_then_below; [exact Ha | exact E].
    + exists before, (after ++ [y]). subst seen.
      rewrite <- app_assoc. split; [reflexivity | split; [exact Hbefore |]].
      apply Forall_app. split; [exact Hafter |].
      constructor; [| constructor].
      unfold ranks_below. rewrite E. discriminate.
Qed.

Lemma select_best_first_maximal (group : list PromptIssue)
    (best : PromptIssue) :
  select_best group = Py.Ok best -> first_maximal group best.
Proof.
  assert (Hone : forall x, first_maximal [x] x).
  { intros x. exists [], []. repeat split; constructor. }
  destruct group as [| a [| b rest]]; simpl; intros Hbest.
  - discriminate Hbest.
  - injection Hbest as <-. apply Hone.
  - injection Hbest as <-.
    apply (max_fold_first_maximal (b :: rest) a [a]), Hone.
Qed.

Lemma first_maximal_in (group : list PromptIssue) (best : PromptIssue) :
  first_maximal group best -> In best group.
Proof.
  intros [before [after [-> _]]]. apply in_elt.
Qed.

Lemma first_maximal_dominates (group : list PromptIssue)
    (best issue : PromptIssue) :
  first_maximal group best -> In issue group -> ~ ranks_below best issue.
Proof.
  intros [before [after [-> [Hbefore Hafter]]]] Hin.
  rewrite Forall_forall in Hbefore, Hafter.
  apply in_app_or in Hin. destruct Hin as [Hin | [<- | Hin]].
  - apply ranks_below_asym, Hbefore, Hin.
  - apply ranks_below_irrefl.
  - apply Hafter, Hin.
Qed.

Lemma key_eqb_sym (a b : Z * Z) : key_eqb a b = key_eqb b a.
Proof.
  unfold key_eqb. rewrite (Z.eqb_sym (fst a)), (Z.eqb_sym (snd a)).
  reflexivity.
Qed.

Lemma upsert_group_of (key key0 : Z * Z) (issue : PromptIssue)
    (pg : groups) :
  group_of key (upsert key0 issue pg)
  = group_of key pg ++ (if key_eqb key0 key then [issue] else []).
Proof.
  unfold group_of.
  induction pg as [| [key' group] rest IH]; simpl.
  - rewrite (key_eqb_sym key key0). destruct (key_eqb key0 key); reflexivity.
  - destruct (key_eqb key0 key') eqn:E0; simpl;
      destruct (key_eqb key key') eqn:E1.
    + apply key_eqb_eq in E0, E1. subst. rewrite key_eqb_refl. reflexivity.
    + apply key_eqb_eq in E0. subst key0.
      rewrite (key_eqb_sym key' key), E1, app_nil_r. reflexivity.
    + apply key_eqb_eq in E1. subst key. rewrite E0, app_nil_r. reflexivity.
    + exact IH.
Qed.

(** The group stored under a key collects, in their order, the issues of
    that bucket. *)
Lemma grouped_group_of (key : Z * Z) (issues : list PromptIssue) :
  forall pg : groups,
  group_of key (grouped issues pg) = group_of key pg ++ bucket key issues.
Proof.
  unfold grouped.
  induction issues as [| issue issues IH]; intros pg; simpl.
  - rewrite app_nil_r. reflexivity.
  - rewrite IH, upsert_group_of, <- app_assoc.
    destruct (key_eqb (position_key issue) key); reflexivity.
Qed.

Lemma get_of_in (key : Z * Z) (group : list PromptIssue) (pg : groups) :
  NoDup (map fst pg) -> In (key, group) pg ->
  Py.dict_get key_eqb key pg = Py.Ok group.
Proof.
  induction pg as [| [key' group'] rest IH]; simpl; intros Hnodup Hin.
  - contradiction.
  - inversion Hnodup as [| ? ? Hfresh Hrest]; subst.
    destruct Hin as [Heq | Hin].
    + injection Heq as -> ->. rewrite key_eqb_refl. reflexivity.
    + rewrite key_eqb_neq; [apply IH; assumption |].
      intros ->. apply Hfresh.
      change key' with (fst (key', group)). apply in_map, Hin.
Qed.

Lemma upsert_keys (key key0 : Z * Z) (issue : PromptIssue) (pg : groups) :
  In key (map fst (upsert key0 issue pg))
  <-> key = key0 \/ In key (map fst pg).
Proof.
  destruct (key_in_dec key0 (map fst pg)) as [Hin | Hnot].
  - rewrite upsert_present by exact Hin. split; [auto |].
    intros [-> | H]; assumption.
  - rewrite upsert_absent by exact Hnot. rewrite map_app, in_app_iff. simpl.
    split; [intros [H | [H | []]]; auto | intros [H | H]; auto].
Qed.

Lemma grouped_keys (key : Z * Z) (issues : list PromptIssue) :
  forall pg : groups,
  In key (map fst (grouped issues pg))
  <-> In key (map fst pg) \/ In key (map position_key issues).
Proof.
  unfold grouped.
  induction issues as [| issue issues IH]; intros pg; simpl.
  - tauto.
  - rewrite IH, upsert_keys. split.
    + intros [[H | H] | H]; auto.
    + intros [H | [H | H]]; auto.
Qed.

Lemma upsert_values_perm (key : Z * Z) (issue : PromptIssue) (pg : groups) :
  Permutation (List.concat (Py.dict_values (upsert key issue pg)))
              (issue :: List.concat (Py.dict_values pg)).
Proof.
  unfold Py.dict_values.
  induction pg as [| [key' group] rest IH]; simpl.
  - apply Permutation_refl.
  - destruct (key_eqb key key'); simpl.
    + rewrite <- app_assoc. simpl.
      apply Permutation_sym, Permutation_middle.
    + eapply Permutation_trans;
        [apply Permutation_app_head, IH | apply Permutation_sym,
                                          Permutation_middle].
Qed.

(** The groups partition the issues. *)
Lemma grouped_values_perm (issues : list PromptIssue) :
  forall pg : groups,
  Permutation (List.concat (Py.dict_values (grouped issues pg)))
              (List.concat (Py.dict_values pg) ++ issues).
Proof.
  unfold grouped.
  induction issues as [| issue issues IH]; intros pg; simpl.
  - rewrite app_nil_r. apply Permutation_refl.
  - eapply Permutation_trans; [apply IH |].
    eapply Permutation_trans;
      [apply Permutation_app_tail, upsert_values_perm |].
    simpl. apply Permutation_middle.
Qed.

Lemma select_loop_entries (pg : groups) :
  forall acc out,
  select_loop (Py.dict_values pg) acc = Py.Ok out ->
  exists winners,
    out = acc ++ winners
    /\ Forall2 (fun entry best => select_best (snd entry) = Py.Ok best)
               pg winners.
Proof.
  induction pg as [| entry rest IH]; simpl; intros acc out Hrun.
  - injection Hrun as <-. exists []. rewrite app_nil_r.
    split; [reflexivity | constructor].
  - destruct (select_best (snd entry)) as [best | e] eqn:Hbest;
      [| discriminate Hrun].
    destruct (IH _ _ Hrun) as [winners [-> Hall]].
    exists (best :: winners). rewrite <- app_assoc.
    split; [reflexivity | constructor; assumption].
Qed.

Lemma Forall2_strengthen {A B : Type} (R R' : A -> B -> Prop)
    (l : list A) (l' : list B) :
  Forall2 R l l' ->
  (forall x y, In x l -> R x y -> R' x y) ->
  Forall2 R' l l'.
Proof.
  induction 1 as [| x y l l' Hxy _ IH]; intros Himp; constructor.
  - apply Himp; [left; reflexivity | exact Hxy].
  - apply IH. intros a b Ha. apply Himp. right. exact Ha.
Qed.

Lemma Forall2_in_r {A B : Type} (R : A -> B -> Prop)
    (l : list A) (l' : list B) (y : B) :
  Forall2 R l l' -> In y l' -> exists x, In x l /\ R x y.
Proof.
  induction 1 as [| x y' l l' Hxy _ IH]; simpl; intros Hin.
  - contradiction.
  - destruct Hin as [<- | Hin].
    + exists x. auto.
    + destruct (IH Hin) as [x' [Hx' HR]]. exists x'. auto.
Qed.

Lemma Forall2_in_l {A B : Type} (R : A -> B -> Prop)
    (l : list A) (l' : list B) (x : A) :
  Forall2 R l l' -> In x l -> exists y, In y l' /\ R x y.
Proof.
  induction 1 as [| x' y l l' Hxy _ IH]; simpl; intros Hin.
  - contradiction.
  - destruct Hin as [<- | Hin].
    + exists y. auto.
    + destruct (IH Hin) as [y' [Hy' HR]]. exists y'. auto.
Qed.

(** The deduplication in detail: one winner per group, each the first
    issue of the highest rank of its bucket. *)
Lemma deduplicate_detail (issues : list PromptIssue) :
  exists winners,
    _deduplicate_issues issues = Py.Ok (Py.sort_by start winners)
    /\ Forall2
         (fun entry best =>
            snd entry = bucket (fst entry) issues
            /\ first_maximal (bucket (fst entry) issues) best
            /\ position_key best = fst entry)
         (grouped issues []) winners.
Proof.
  pose proof (grouped_well_formed issues [] well_formed_nil) as [Hnodup Hok].
  destruct (deduplicate_spec issues) as [winners0 [Hrun0 _]].
  rewrite deduplicate_unfold in Hrun0 |- *.
  destruct (select_loop (Py.dict_values (grouped issues [])) [])
    as [out | e] eqn:Hloop; [| discriminate Hrun0].
  destruct (select_loop_entries _ _ _ Hloop) as [winners [-> Hall]].
  exists winners. split; [reflexivity |].
  eapply Forall2_strengthen; [exact Hall |].
  intros [key group] best Hin Hbest. simpl in *.
  assert (Hgroup : group = bucket key issues).
  { pose proof (grouped_group_of key issues []) as Hg.
    unfold group_of in Hg. rewrite (get_of_in _ _ _ Hnodup Hin) in Hg.
    exact Hg. }
  subst group.
  pose proof (select_best_first_maximal _ _ Hbest) as Hmax.
  split; [reflexivity | split; [exact Hmax |]].
  apply first_maximal_in in Hmax. unfold bucket in Hmax.
  apply filter_In in Hmax. destruct Hmax as [_ Hkey].
  apply key_eqb_eq, Hkey.
Qed.

Lemma winners_sub_multiset (gs : list (list PromptIssue))
    (winners : list PromptIssue) :
  Forall2 (fun group best => In best group) gs winners ->
  exists dropped, Permutation (winners ++ dropped) (List.concat gs).
Proof.
  induction 1 as [| group best gs winners Hin _ [dropped IH]]; simpl.
  - exists []. constructor.
  - apply in_split in Hin. destruct Hin as [before [after ->]].
    exists (before ++ after ++ dropped).
    apply Permutation_trans
      with (best :: (before ++ after) ++ (winners ++ dropped)).
    + simpl. apply perm_skip.
      rewrite (app_assoc before after dropped).
      rewrite (app_assoc winners (before ++ after) dropped).
      rewrite (app_assoc (before ++ after) winners dropped).
      apply Permutation_app_tail, Permutation_app_comm.
    + rewrite <- !app_assoc. simpl.
      eapply Permutation_trans; [| apply Permutation_middle].
      apply perm_skip. do 2 apply Permutation_app_head. exact IH.
Qed.

Lemma Forall2_values {B : Type} (R : list PromptIssue -> B -> Prop)
    (pg : groups) (l : list B) :
  Forall2 (fun entry y => R (snd entry) y) pg l ->
  Forall2 R (Py.dict_values pg) l.
Proof.
  unfold Py.dict_values. induction 1; simpl; constructor; assumption.
Qed.

End FusionStructure.

Section FusionProperties.
Import HybridAnalyzer Grouping FusionSpec RuleBasedAnalyzer.

Lemma deductions_perm (l l' : list PromptIssue) :
  Permutation l l' -> ScoringSpec.deductions l = ScoringSpec.deductions l'.
Proof.
  induction 1 as [| x l l' _ IH | x y l | l l' l'' _ IH1 _ IH2]; simpl.
  - reflexivity.
  - rewrite IH. reflexivity.
  - lia.
  - rewrite IH1. exact IH2.
Qed.

Lemma deduplicate_sub_multiset (issues : list PromptIssue) :
  exists out dropped,
    _deduplicate_issues issues = Py.Ok out
    /\ Permutation (out ++ dropped) issues.
Proof.
  destruct (deduplicate_detail issues) as [winners [Hrun Hall]].
  assert (Hin : Forall2 (fun group best => In best group)
                  (Py.dict_values (grouped issues [])) winners).
  { apply Forall2_values.
    eapply Forall2_strengthen; [exact Hall |].
    intros entry best _ [Hgroup [Hmax _]]. simpl. rewrite Hgroup.
    apply first_maximal_in, Hmax. }
  destruct (winners_sub_multiset _ _ Hin) as [dropped Hperm].
  exists (Py.sort_by start winners), dropped.
  split; [exact Hrun |].
  eapply Permutation_trans;
    [apply Permutation_app_tail, sort_by_perm |].
  eapply Permutation_trans; [exact Hperm |].
  apply (grouped_values_perm issues []).
Qed.

(** The fusion invents nothing and never keeps an issue twice: its output
    together with the issues it dropped is a rearrangement of the two
    input lists; so it is no longer than the input. *)
Theorem fuse_output_from_input (rule_issues llm_issues : list PromptIssue) :
  exists out dropped,
    fuse rule_issues llm_issues = Py.Ok out
    /\ Permutation (out ++ dropped) (rule_issues ++ llm_issues)
    /\ (forall issue, In issue out -> In issue (rule_issues ++ llm_issues))
    /\ List.length out <= List.length (rule_issues ++ llm_issues).
Proof.
  unfold fuse.
  destruct (deduplicate_sub_multiset (rule_issues ++ llm_issues))
    as [out [dropped [Hrun Hperm]]].
  exists out, dropped.
  split; [exact Hrun | split; [exact Hperm | split]].
  - intros issue Hissue.
    eapply Permutation_in; [exact Hperm |].
    apply in_or_app. left. exact Hissue.
  - apply Permutation_length in Hperm.
    rewrite length_app in Hperm. lia.
Qed.

(** Every issue that the fusion keeps is the first issue of the highest
    rank (severity first, then provenance from the language model) among
    the input issues of its bucket, in the order rule issues first. *)
Theorem fuse_keeps_first_maximal (rule_issues llm_issues : list PromptIssue) :
  exists out,
    fuse rule_issues llm_issues = Py.Ok out
    /\ forall best,
         In best out ->
         first_maximal
           (bucket (position_key best) (rule_issues ++ llm_issues)) best.
Proof.
  unfold fuse. set (issues := rule_issues ++ llm_issues).
  destruct (deduplicate_detail issues) as [winners [Hrun Hall]].
  exists (Py.sort_by start winners). split; [exact Hrun |].
  intros best Hbest.
  apply (Permutation_in _ (sort_by_perm start winners)) in Hbest.
  destruct (Forall2_in_r _ _ _ _ Hall Hbest)
    as [entry [_ [_ [Hmax Hkey]]]].
  rewrite Hkey. exact Hmax.
Qed.

(** Every input issue is represented: the fused list holds an issue of
    its bucket that is at least as severe, and that comes from the
    language model whenever the input issue does and the severities are
    equal. *)
Theorem fuse_covers_every_bucket (rule_issues llm_issues : list PromptIssue) :
  exists out,
    fuse rule_issues llm_issues = Py.Ok out
    /\ forall issue,
         In issue (rule_issues ++ llm_issues) ->
         exists best,
           In best out
           /\ position_key best = position_key issue
           /\ ~ ranks_below best issue
           /\ (severity_order_get (Severity.value (severity issue))
               <= severity_order_get (Severity.value (severity best)))%Z
           /\ (severity best = severity issue ->
               Py.startswith (id issue) "llm-" = true ->
               Py.startswith (id best) "llm-" = true).
Proof.
  unfold fuse. set (issues := rule_issues ++ llm_issues).
  destruct (deduplicate_detail issues) as [winners [Hrun Hall]].
  exists (Py.sort_by start winners). split; [exact Hrun |].
  intros issue Hissue.
  assert (Hkey : In (position_key issue) (map fst (grouped issues []))).
  { apply grouped_keys. right. apply in_map, Hissue. }
  apply in_map_iff in Hkey. destruct Hkey as [entry [Hfst Hentry]].
  destruct (Forall2_in_l _ _ _ _ Hall Hentry)
    as [best [Hbest [_ [Hmax Hbkey]]]].
  assert (Hdom : ~ ranks_below best issue).
  { apply (first_maximal_dominates _ _ _ Hmax).
    unfold bucket. apply filter_In. split; [exact Hissue |].
    apply key_eqb_eq. symmetry. exact Hfst. }
  exists best. split; [| split; [congruence | split; [exact Hdom |]]].
  - eapply Permutation_in; [apply Permutation_sym, sort_by_perm | exact Hbest].
  - unfold ranks_below in Hdom. rewrite pair_lt_spec in Hdom.
    unfold selection_key in Hdom. simpl in Hdom.
    split; [lia |].
    intros Hsev Hllm. rewrite Hsev, Hllm in Hdom.
    destruct (Py.startswith (id best) "llm-"); [reflexivity | lia].
Qed.

(** Deduplication never lowers the score: for every text, the score with
    the fused list is at least the score with the two lists together. *)
Theorem fuse_does_not_lower_score (text : string)
    (rule_issues llm_issues : list PromptIssue) :
  exists out,
    fuse rule_issues llm_issues = Py.Ok out
    /\ (calculate_quality_score text (rule_issues ++ llm_issues)
        <= calculate_quality_score text out)%Z.
Proof.
  unfold fuse.
  destruct (deduplicate_sub_multiset (rule_issues ++ llm_issues))
    as [out [dropped [Hrun Hperm]]].
  exists out. split; [exact Hrun |].
  rewrite !score_refines. unfold ScoringSpec.score.
  apply clamp_mono. do 3 apply bonus_mono.
  rewrite <- (deductions_perm _ _ Hperm), deductions_app.
  pose proof (deductions_nonneg dropped). lia.
Qed.

(** The score does not depend on the order of the issues. *)
Theorem score_permutation_invariant (text : string)
    (issues issues' : list PromptIssue) :
  Permutation issues issues' ->
  calculate_quality_score text issues = calculate_quality_score text issues'.
Proof.
  intros Hperm. rewrite !score_refines. unfold ScoringSpec.score.
  rewrite (deductions_perm _ _ Hperm). reflexivity.
Qed.

(** The theorem at the two sample findings in either order. *)
Lemma score_permutation_invariant_witness :
  Permutation [Samples.rule_medium; Samples.llm_critical]
              [Samples.llm_critical; Samples.rule_medium]
  /\ calculate_quality_score "analyze data"
       [Samples.rule_medium; Samples.llm_critical]
     = calculate_quality_score "analyze data"
         [Samples.llm_critical; Samples.rule_medium].
Proof.
  assert (Hperm : Permutation [Samples.rule_medium; Samples.llm_critical]
                    [Samples.llm_critical; Samples.rule_medium])
    by apply perm_swap.
  split; [exact Hperm |].
  exact (score_permutation_invariant "analyze data" _ _ Hperm).
Defined.

Lemma deductions_at_most (issues : list PromptIssue) :
  (ScoringSpec.deductions issues <= 20 * Z.of_nat (List.length issues))%Z.
Proof.
  induction issues as [| issue issues IH].
  - simpl. lia.
  - cbn [ScoringSpec.deductions fold_right List.length].
    fold (ScoringSpec.deductions issues). rewrite Nat2Z.inj_succ.
    unfold ScoringSpec.penalty. destruct (severity issue); lia.
Qed.

(** Further issues cost at most 20 points each: appending a list of
    issues lowers the score by no more than 20 times its length, and
    never raises it. *)
Theorem score_cost_of_issues (text : string)
    (issues more : list PromptIssue) :
  (calculate_quality_score text issues - 20 * Z.of_nat (List.length more)
   <= calculate_quality_score text (issues ++ more)
   <= calculate_quality_score text issues)%Z.
Proof.
  rewrite !score_refines. unfold ScoringSpec.score.
  rewrite deductions_app.
  pose proof (deductions_at_most more). pose proof (deductions_nonneg more).
  unfold ScoringSpec.clamp, ScoringSpec.bonus.
  destruct (20 <=? PatternMatcher.count_words text);
    destruct (PatternMatcher.has_specific_instructions text);
    destruct (PatternMatcher.contains_pattern text
                PatternMatcher.ROLE_PATTERNS);
    lia.
Qed.

End FusionProperties.

(** ** What the rule-based analyzer emits *)

Section AnalyzerInvariants.
Import RuleBasedAnalyzer AnalyzerSpec.

Variable uuid4_hex8 : nat -> string.
Variable nlp : string -> Py.result (list spacy.Token).

Lemma sorted_app (l1 l2 : list nat) :
  StronglySorted lt l1 -> StronglySorted lt l2 ->
  (forall a b, In a l1 -> In b l2 -> a < b) ->
  StronglySorted lt (l1 ++ l2).
Proof.
  induction 1 as [| a l1 Hl1 IH Ha]; simpl; intros Hl2 Hlt.
  - exact Hl2.
  - constructor.
    + apply IH; [exact Hl2 |]. intros x y Hx Hy. apply Hlt; auto.
    + apply Forall_app. split; [exact Ha |].
      apply Forall_forall. intros y Hy. apply Hlt; auto.
Qed.

Lemma drawn_nil (n n' : nat) : n <= n' -> drawn uuid4_hex8 n n' [].
Proof.
  intros Hle. split; [exact Hle |]. exists [].
  repeat split; constructor.
Qed.

Lemma drawn_one (n : nat) (issue : PromptIssue) :
  id issue = ("issue-" ++ uuid4_hex8 n)%string ->
  drawn uuid4_hex8 n (S n) [issue].
Proof.
  intros Hid. split; [lia |]. exists [n]. simpl. rewrite Hid.
  repeat split; repeat constructor; lia.
Qed.

Lemma drawn_app (n n1 n2 : nat) (l1 l2 : list PromptIssue) :
  drawn uuid4_hex8 n n1 l1 -> drawn uuid4_hex8 n1 n2 l2 ->
  drawn uuid4_hex8 n n2 (l1 ++ l2).
Proof.
  intros [Hle1 [ks1 [Hids1 [Hs1 Hr1]]]] [Hle2 [ks2 [Hids2 [Hs2 Hr2]]]].
  rewrite Forall_forall in Hr1, Hr2.
  split; [lia |]. exists (ks1 ++ ks2).
  rewrite !map_app, Hids1, Hids2.
  split; [reflexivity | split].
  - apply sorted_app; [assumption | assumption |].
    intros a b Ha Hb. specialize (Hr1 a Ha). specialize (Hr2 b Hb). lia.
  - apply Forall_forall. intros k Hk. apply in_app_or in Hk.
    destruct Hk as [Hk | Hk];
      [specialize (Hr1 k Hk) | specialize (Hr2 k Hk)]; lia.
Qed.

Lemma drawn_ids (n n' : nat) (l : list PromptIssue) :
  drawn uuid4_hex8 n n' l ->
  Forall (fun issue =>
            exists k, n <= k < n'
                      /\ id issue = ("issue-" ++ uuid4_hex8 k)%string) l.
Proof.
  intros [_ [ks [Hids [_ Hr]]]]. revert ks Hids Hr.
  induction l as [| issue l IH]; intros ks Hids Hr.
  - constructor.
  - destruct ks as [| k ks]; [discriminate Hids |].
    simpl in Hids. injection Hids as Hid Hids.
    inversion Hr as [| ? ? Hk Hr']; subst.
    constructor; [exists k; auto | apply (IH ks); assumption].
Qed.

Lemma sorted_range_length (ks : list nat) :
  forall n n', StronglySorted lt ks -> Forall (fun k => n <= k < n') ks ->
  List.length ks <= n' - n.
Proof.
  induction ks as [| k ks IH]; intros n n' Hs Hr; simpl.
  - lia.
  - inversion Hs as [| ? ? Hs' Hk]; subst.
    inversion Hr as [| ? ? Hkr Hr']; subst.
    assert (Hr2 : Forall (fun j => S k <= j < n') ks).
    { rewrite Forall_forall in Hk, Hr' |- *.
      intros j Hj. specialize (Hk j Hj). specialize (Hr' j Hj). lia. }
    specialize (IH (S k) n' Hs' Hr2). lia.
Qed.

Lemma drawn_length (n n' : nat) (l : list PromptIssue) :
  drawn uuid4_hex8 n n' l -> List.length l <= n' - n.
Proof.
  intros [_ [ks [Hids [Hs Hr]]]].
  rewrite <- (length_map id l), Hids, length_map.
  apply sorted_range_length; assumption.
Qed.

Lemma sorted_map_nodup (f : nat -> string) (n n' : nat) (ks : list nat) :
  (forall j k, n <= j < n' -> n <= k < n' -> f j = f k -> j = k) ->
  StronglySorted lt ks -> Forall (fun k => n <= k < n') ks ->
  NoDup (map f ks).
Proof.
  intros Hinj Hs. induction Hs as [| k ks Hs IH Hk]; intros Hr; simpl.
  - constructor.
  - inversion Hr as [| ? ? Hkr Hr']; subst.
    constructor; [| apply IH, Hr'].
    intros Hin. apply in_map_iff in Hin. destruct Hin as [j [Hfj Hj]].
    rewrite Forall_forall in Hk, Hr'.
    specialize (Hk j Hj). specialize (Hr' j Hj).
    apply Hinj in Hfj; [lia | exact Hr' | exact Hkr].
Qed.

Lemma drawn_nodup (n n' : nat) (l : list PromptIssue) :
  (forall j k, n <= j < n' -> n <= k < n' ->
               uuid4_hex8 j = uuid4_hex8 k -> j = k) ->
  drawn uuid4_hex8 n n' l -> NoDup (map id l).
Proof.
  intros Hinj [_ [ks [Hids [Hs Hr]]]]. rewrite Hids.
  apply (sorted_map_nodup _ n n'); [| assumption | assumption].
  intros j k Hj Hk Heq. apply (Hinj j k Hj Hk).
  simpl in Heq. congruence.
Qed.

(** One constructed issue: the identifier is drawn in any case. *)
Lemma new_issue_inv (st en : Z) (t : IssueType) (s : Severity.t)
    (msg sug : string) (imp : Impact.t) (n : nat) :
  match new_issue uuid4_hex8 st en t s msg sug imp n with
  | (Py.Ok issue, n') =>
      n' = S n
      /\ issue = mkPromptIssue ("issue-" ++ uuid4_hex8 n)%string st en t s
                   msg sug (Some imp)
      /\ PromptIssue_valid issue = true
  | (Py.Raise _, n') => n' = S n
  end.
Proof.
  unfold new_issue, bind, fresh_id, lift, PromptIssue_new.
  destruct (PromptIssue_valid _) eqn:Hvalid; auto.
Qed.

Lemma new_issue_ok (st en : Z) (t : IssueType) (s : Severity.t)
    (msg sug : string) (imp : Impact.t) (n n' : nat) (issue : PromptIssue) :
  new_issue uuid4_hex8 st en t s msg sug imp n = (Py.Ok issue, n') ->
  n' = S n /\ drawn uuid4_hex8 n n' [issue] /\ valid_of t s issue.
Proof.
  intros Hrun. pose proof (new_issue_inv st en t s msg sug imp n) as Hinv.
  rewrite Hrun in Hinv. destruct Hinv as [-> [Heq Hvalid]].
  split; [reflexivity | split].
  - apply drawn_one. rewrite Heq. reflexivity.
  - split; [exact Hvalid |]. rewrite Heq. split; reflexivity.
Qed.

Lemma new_issue_raise (st en : Z) (t : IssueType) (s : Severity.t)
    (msg sug : string) (imp : Impact.t) (n n' : nat) (e : Py.exn) :
  new_issue uuid4_hex8 st en t s msg sug imp n = (Py.Raise e, n') ->
  n' = S n.
Proof.
  intros Hrun. pose proof (new_issue_inv st en t s msg sug imp n) as Hinv.
  rewrite Hrun in Hinv. exact Hinv.
Qed.

(** A check that emits one issue or none. *)
Lemma single_issue_check (st en : Z) (t : IssueType) (s : Severity.t)
    (msg sug : string) (imp : Impact.t) (n n' : nat)
    (l : list PromptIssue) :
  (issue <- new_issue uuid4_hex8 st en t s msg sug imp ;; ret [issue]) n
  = (Py.Ok l, n') ->
  drawn uuid4_hex8 n n' l /\ Forall (valid_of t s) l /\ List.length l = 1.
Proof.
  unfold bind, ret.
  destruct (new_issue uuid4_hex8 st en t s msg sug imp n)
    as [[issue | e] n1] eqn:Hnew; intros Hrun; [| discriminate Hrun].
  injection Hrun as <- <-.
  destruct (new_issue_ok _ _ _ _ _ _ _ _ _ _ Hnew) as [_ [Hd Hv]].
  split; [exact Hd | split; [constructor; [exact Hv | constructor] |]].
  reflexivity.
Qed.

Lemma vague_loop_inv (text : string) (ms : list (nat * nat * string)) :
  forall (acc : list PromptIssue) (n n' : nat) (l : list PromptIssue),
  vague_loop uuid4_hex8 text ms acc n = (Py.Ok l, n') ->
  exists new,
    l = acc ++ new
    /\ drawn uuid4_hex8 n n' new
    /\ Forall (valid_of VAGUE Severity.MEDIUM) new
    /\ List.length new <= List.length ms.
Proof.
  induction ms as [| [[st en] mt] ms IH]; intros acc n n' l; cbn [vague_loop].
  - unfold ret. intros [= <- <-]. exists [].
    rewrite app_nil_r. split; [reflexivity |].
    split; [apply drawn_nil; lia | split; [constructor | simpl; lia]].
  - destruct (negb _).
    + unfold bind at 1.
      match goal with
      | |- context [new_issue ?u ?a ?b ?t ?s ?m ?g ?i n] =>
          destruct (new_issue u a b t s m g i n) as [[issue | e] n1] eqn:Hnew
      end; intros Hrun; [| discriminate Hrun].
      destruct (new_issue_ok _ _ _ _ _ _ _ _ _ _ Hnew) as [_ [Hd Hv]].
      destruct (IH _ _ _ _ Hrun) as [new [-> [Hdn [Hvn Hlen]]]].
      exists (issue :: new). rewrite <- app_assoc.
      split; [reflexivity | split; [| split]].
      * apply (drawn_app n n1 n' [issue] new); assumption.
      * constructor; assumption.
      * simpl. lia.
    + intros Hrun.
      destruct (IH _ _ _ _ Hrun) as [new [-> [Hdn [Hvn Hlen]]]].
      exists new. repeat split; try assumption; try apply Hdn.
      simpl. lia.
Qed.

Lemma pronoun_loop_inv (tokens : list spacy.Token) :
  forall (i : nat) (acc : list PromptIssue) (n n' : nat)
         (l : list PromptIssue),
  pronoun_loop uuid4_hex8 tokens i acc n = (Py.Ok l, n') ->
  exists new,
    l = acc ++ new
    /\ drawn uuid4_hex8 n n' new
    /\ Forall (valid_of AMBIGUOUS Severity.LOW) new
    /\ List.length new <= 2 - i.
Proof.
  induction tokens as [| token rest IH]; intros i acc n n' l;
    cbn [pronoun_loop].
  - unfold ret. intros [= <- <-]. exists [].
    rewrite app_nil_r. split; [reflexivity |].
    split; [apply drawn_nil; lia | split; [constructor | simpl; lia]].
  - destruct (_ && _).
    + destruct (i <? 2) eqn:Hi.
      * apply Nat.ltb_lt in Hi. unfold try_except, bind at 1.
        match goal with
        | |- context [new_issue ?u ?a ?b ?t ?s ?m ?g ?j n] =>
            destruct (new_issue u a b t s m g j n)
              as [[issue | e] n1] eqn:Hnew
        end.
        -- destruct (new_issue_ok _ _ _ _ _ _ _ _ _ _ Hnew) as [_ [Hd Hv]].
           destruct (pronoun_loop uuid4_hex8 rest (S i) (acc ++ [issue]) n1)
             as [[l1 | e1] n2] eqn:Hrest.
           ++ intros [= <- <-].
              destruct (IH _ _ _ _ _ Hrest) as [new [-> [Hdn [Hvn Hlen]]]].
              exists (issue :: new). rewrite <- app_assoc.
              split; [reflexivity | split; [| split]].
              ** apply (drawn_app n n1 n2 [issue] new); assumption.
              ** constructor; assumption.
              ** cbn [List.length]. lia.
           ++ destruct (pronoun_loop_spec uuid4_hex8 rest (S i)
                          (acc ++ [issue]) n1) as [x [m [Habs _]]].
              rewrite Hrest in Habs. discriminate Habs.
        -- apply new_issue_raise in Hnew. subst n1.
           unfold ret. intros [= <- <-]. exists [].
           rewrite app_nil_r. split; [reflexivity |].
           split; [apply drawn_nil; lia | split; [constructor | simpl; lia]].
      * apply Nat.ltb_ge in Hi. intros Hrun.
        destruct (IH _ _ _ _ _ Hrun) as [new [-> [Hdn [Hvn Hlen]]]].
        exists new. repeat split; try assumption; try apply Hdn. lia.
    + intros Hrun.
      destruct (IH _ _ _ _ _ Hrun) as [new [-> [Hdn [Hvn Hlen]]]].
      exists new. repeat split; try assumption; try apply Hdn. lia.
Qed.

Lemma optional_issue_check (cond : bool) (st en : Z) (t : IssueType)
    (s : Severity.t) (msg sug : string) (imp : Impact.t) (n n' : nat)
    (l : list PromptIssue) :
  (if cond
   then issue <- new_issue uuid4_hex8 st en t s msg sug imp ;; ret [issue]
   else ret []) n = (Py.Ok l, n') ->
  drawn uuid4_hex8 n n' l /\ Forall (valid_of t s) l
  /\ List.length l = (if cond then 1 else 0).
Proof.
  destruct cond.
  - apply single_issue_check.
  - unfold ret. intros [= <- <-].
    split; [apply drawn_nil; lia | split; [constructor | reflexivity]].
Qed.

Lemma count_type_app (t : IssueType) (l1 l2 : list PromptIssue) :
  count_type t (l1 ++ l2) = count_type t l1 + count_type t l2.
Proof.
  unfold count_type. rewrite filter_app, length_app. reflexivity.
Qed.

Lemma IssueType_eqb_eq (a b : IssueType) :
  IssueType_eqb a b = true <-> a = b.
Proof.
  destruct a, b; simpl; split; intros H; try reflexivity; discriminate H.
Qed.

Lemma count_type_of (t t' : IssueType) (s : Severity.t)
    (l : list PromptIssue) :
  Forall (valid_of t s) l ->
  count_type t' l = (if IssueType_eqb t t' then List.length l else 0).
Proof.
  unfold count_type. induction 1 as [| issue l [_ [Ht _]] _ IH]; simpl.
  - destruct (IssueType_eqb t t'); reflexivity.
  - rewrite Ht. destruct (IssueType_eqb t t'); simpl; rewrite IH; reflexivity.
Qed.

(** The six checks in sequence: what each contributes to the result of
    [analyze]. *)
Lemma analyze_parts (text : string) (n n' : nat) (issues : list PromptIssue) :
  analyze uuid4_hex8 nlp text n = (Py.Ok issues, n') ->
  exists v r f ls ll s p,
    issues = v ++ r ++ f ++ (ls ++ ll) ++ s ++ p
    /\ drawn uuid4_hex8 n n' issues
    /\ (Forall (valid_of VAGUE Severity.MEDIUM) v
        /\ List.length v
           <= List.length (PatternMatcher.find_matches text
                             PatternMatcher.VAGUE_PATTERNS))
    /\ (Forall (valid_of MISSING_ROLE Severity.MEDIUM) r
        /\ List.length r
           = if PatternMatcher.contains_pattern text
                  PatternMatcher.ROLE_PATTERNS then 0 else 1)
    /\ (Forall (valid_of MISSING_FORMAT Severity.LOW) f
        /\ List.length f
           = if negb (PatternMatcher.contains_pattern text
                        (PatternMatcher.FORMAT_PATTERNS
                         ++ PatternMatcher.OUTPUT_PATTERNS))
                && (10 <? PatternMatcher.count_words text)
             then 1 else 0)
    /\ (Forall (valid_of TOO_SHORT Severity.CRITICAL) ls
        /\ List.length ls
           = if PatternMatcher.count_words text <? 5 then 1 else 0)
    /\ (Forall (valid_of TOO_LONG Severity.LOW) ll
        /\ List.length ll
           = if 500 <? PatternMatcher.count_words text then 1 else 0)
    /\ (Forall (valid_of INEFFICIENT Severity.LOW) s
        /\ List.length s
           = if (15 <? PatternMatcher.count_words text)
                && negb (PatternMatcher.has_specific_instructions text)
             then 1 else 0)
    /\ (Forall (valid_of AMBIGUOUS Severity.LOW) p /\ List.length p <= 2).
Proof.
  unfold analyze, bind.
  destruct (_check_vague_instructions uuid4_hex8 text n)
    as [[v | ?] n1] eqn:Hv; [| discriminate].
  destruct (_check_role_definition uuid4_hex8 text n1)
    as [[r | ?] n2] eqn:Hr; [| discriminate].
  destruct (_check_output_format uuid4_hex8 text n2)
    as [[f | ?] n3] eqn:Hf; [| discriminate].
  destruct (_check_length uuid4_hex8 text n3)
    as [[l | ?] n4] eqn:Hl; [| discriminate].
  destruct (_check_specificity uuid4_hex8 text n4)
    as [[s | ?] n5] eqn:Hs; [| discriminate].
  destruct (_check_ambiguous_pronouns uuid4_hex8 nlp text n5)
    as [[p | ?] n6] eqn:Hp; [| discriminate].
  unfold ret. intros [= <- <-].
  (* vague *)
  unfold _check_vague_instructions in Hv.
  destruct (vague_loop_inv _ _ _ _ _ _ Hv) as [v' [Hveq [Hvd [Hvv Hvl]]]].
  simpl in Hveq. subst v'.
  (* role *)
  unfold _check_role_definition in Hr.
  apply optional_issue_check in Hr. destruct Hr as [Hrd [Hrv Hrl]].
  (* format *)
  unfold _check_output_format in Hf.
  apply optional_issue_check in Hf. destruct Hf as [Hfd [Hfv Hfl]].
  (* specificity *)
  unfold _check_specificity in Hs.
  apply optional_issue_check in Hs. destruct Hs as [Hsd [Hsv Hsl]].
  (* pronouns *)
  assert (Hpp : drawn uuid4_hex8 n5 n6 p
                /\ Forall (valid_of AMBIGUOUS Severity.LOW) p
                /\ List.length p <= 2).
  { unfold _check_ambiguous_pronouns in Hp.
    destruct (nlp text) as [doc | e].
    - destruct (pronoun_loop_inv _ _ _ _ _ _ Hp) as [p' [Hpeq [Hpd [Hpv Hpl]]]].
      simpl in Hpeq. subst p'. repeat split; try assumption; try apply Hpd.
    - unfold ret in Hp. injection Hp as <- <-.
      split; [apply drawn_nil; lia | split; [constructor | simpl; lia]]. }
  destruct Hpp as [Hpd [Hpv Hpl]].
  (* length *)
  assert (Hll : exists ls ll,
             l = ls ++ ll /\ drawn uuid4_hex8 n3 n4 l
             /\ (Forall (valid_of TOO_SHORT Severity.CRITICAL) ls
                 /\ List.length ls
                    = if PatternMatcher.count_words text <? 5 then 1 else 0)
             /\ (Forall (valid_of TOO_LONG Severity.LOW) ll
                 /\ List.length ll
                    = if 500 <? PatternMatcher.count_words text
                      then 1 else 0)).
  { unfold _check_length in Hl.
    destruct (PatternMatcher.count_words text <? 5) eqn:Hshort.
    - apply single_issue_check in Hl. destruct Hl as [Hd [Hval Hlen]].
      exists l, []. rewrite app_nil_r.
      apply Nat.ltb_lt in Hshort.
      nat_test_false (500 <? PatternMatcher.count_words text).
      repeat split; try assumption; try apply Hd. constructor.
    - apply optional_issue_check in Hl. destruct Hl as [Hd [Hval Hlen]].
      exists [], l. repeat split; try assumption; try apply Hd. constructor. }
  destruct Hll as [ls [ll [-> [Hld [[Hls1 Hls2] [Hlg1 Hlg2]]]]]].
  exists v, r, f, ls, ll, s, p.
  split; [simpl; rewrite <- !app_assoc; reflexivity |].
  split;
    [| split; [split; assumption |];
       split;
         [split; [assumption |]; rewrite Hrl;
          destruct (PatternMatcher.contains_pattern text
                      PatternMatcher.ROLE_PATTERNS); reflexivity |];
       repeat split; assumption].
  simpl. rewrite <- !app_assoc. rewrite (app_assoc ls ll).
  apply (drawn_app n n1 n6); [exact Hvd |].
  apply (drawn_app n1 n2 n6); [exact Hrd |].
  apply (drawn_app n2 n3 n6); [exact Hfd |].
  apply (drawn_app n3 n4 n6); [exact Hld |].
  apply (drawn_app n4 n5 n6); assumption.
Qed.

Lemma valid_of_rule_pair (t : IssueType) (s : Severity.t)
    (l : list PromptIssue) :
  In (t, s) rule_pairs ->
  Forall (valid_of t s) l ->
  Forall (fun issue => PromptIssue_valid issue = true
                       /\ In (type issue, severity issue) rule_pairs) l.
Proof.
  intros Hpair Hl. eapply Forall_impl; [| exact Hl].
  intros issue [Hvalid [-> ->]]. split; assumption.
Qed.

(** Every issue that [analyze] returns has valid fields, one of the seven
    type and severity pairs of the checks (never [missing_context]) and an
    identifier of the form [issue-...] that is not taken for an identifier
    of the language model; the identifiers come from distinct draws in
    their order, so they are pairwise different when the draws are; and
    the issues are at most as many as the identifiers drawn. *)
Theorem analyze_issues_well_formed (text : string) (n n' : nat)
    (issues : list PromptIssue) :
  analyze uuid4_hex8 nlp text n = (Py.Ok issues, n') ->
  drawn uuid4_hex8 n n' issues
  /\ List.length issues <= n' - n
  /\ Forall (fun issue =>
               PromptIssue_valid issue = true
               /\ In (type issue, severity issue) rule_pairs
               /\ type issue <> MISSING_CONTEXT
               /\ Py.startswith (id issue) "llm-" = false) issues
  /\ ((forall j k, n <= j < n' -> n <= k < n' ->
                   uuid4_hex8 j = uuid4_hex8 k -> j = k) ->
      NoDup (map id issues)).
Proof.
  intros Hrun.
  destruct (analyze_parts _ _ _ _ Hrun)
    as (v & r & f & ls & ll & s & p & Heq & Hd & [Hv _] & [Hr _] & [Hf _]
        & [Hls _] & [Hll _] & [Hs _] & [Hp _]).
  split; [exact Hd | split; [apply drawn_length, Hd | split]].
  - assert (Hpairs :
      Forall (fun issue => PromptIssue_valid issue = true
                           /\ In (type issue, severity issue) rule_pairs)
             issues).
    { subst issues. repeat (apply Forall_app; split);
        (eapply valid_of_rule_pair; [| eassumption]); simpl; tauto. }
    pose proof (drawn_ids _ _ _ Hd) as Hids.
    rewrite Forall_forall in Hpairs, Hids |- *.
    intros issue Hin. destruct (Hpairs issue Hin) as [Hvalid Hpair].
    destruct (Hids issue Hin) as [k [_ Hid]].
    split; [exact Hvalid | split; [exact Hpair | split]].
    + intros Ht. rewrite Ht in Hpair. simpl in Hpair.
      repeat (destruct Hpair as [Hpair | Hpair]; [discriminate Hpair |]).
      exact Hpair.
    + rewrite Hid. reflexivity.
  - intros Hinj. apply (drawn_nodup n n'); assumption.
Qed.

(** How often each type occurs in the result of [analyze]: the role,
    format, length and structure checks contribute one issue exactly when
    their condition holds ([too_short] and [too_long] exclude one
    another), no issue has the type [missing_context], at most two are
    ambiguous references, and the vague issues are at most as many as
    the matches of the vague patterns. *)
Theorem analyze_issue_counts (text : string) (n n' : nat)
    (issues : list PromptIssue) :
  analyze uuid4_hex8 nlp text n = (Py.Ok issues, n') ->
  count_type MISSING_ROLE issues
  = (if PatternMatcher.contains_pattern text PatternMatcher.ROLE_PATTERNS
     then 0 else 1)
  /\ count_type MISSING_FORMAT issues
     = (if negb (PatternMatcher.contains_pattern text
                   (PatternMatcher.FORMAT_PATTERNS
                    ++ PatternMatcher.OUTPUT_PATTERNS))
           && (10 <? PatternMatcher.count_words text)
        then 1 else 0)
  /\ count_type TOO_SHORT issues
     = (if PatternMatcher.count_words text <? 5 then 1 else 0)
  /\ count_type TOO_LONG issues
     = (if 500 <? PatternMatcher.count_words text then 1 else 0)
  /\ count_type TOO_SHORT issues + count_type TOO_LONG issues <= 1
  /\ count_type INEFFICIENT issues
     = (if (15 <? PatternMatcher.count_words text)
           && negb (PatternMatcher.has_specific_instructions text)
        then 1 else 0)
  /\ count_type MISSING_CONTEXT issues = 0
  /\ count_type AMBIGUOUS issues <= 2
  /\ count_type VAGUE issues
     <= List.length (PatternMatcher.find_matches text
                       PatternMatcher.VAGUE_PATTERNS).
Proof.
  intros Hrun.
  destruct (analyze_parts _ _ _ _ Hrun)
    as (v & r & f & ls & ll & s & p & Heq & _ & [Hv Hvl] & [Hr Hrl]
        & [Hf Hfl] & [Hls Hlsl] & [Hll Hlll] & [Hs Hsl] & [Hp Hpl]).
  assert (Hcount : forall t,
    count_type t issues
    = (if IssueType_eqb VAGUE t then List.length v else 0)
      + (if IssueType_eqb MISSING_ROLE t then List.length r else 0)
      + (if IssueType_eqb MISSING_FORMAT t then List.length f else 0)
      + (if IssueType_eqb TOO_SHORT t then List.length ls else 0)
      + (if IssueType_eqb TOO_LONG t then List.length ll else 0)
      + (if IssueType_eqb INEFFICIENT t then List.length s else 0)
      + (if IssueType_eqb AMBIGUOUS t then List.length p else 0)).
  { intros t. subst issues. rewrite !count_type_app.
    rewrite (count_type_of _ t _ _ Hv), (count_type_of _ t _ _ Hr),
      (count_type_of _ t _ _ Hf), (count_type_of _ t _ _ Hls),
      (count_type_of _ t _ _ Hll), (count_type_of _ t _ _ Hs),
      (count_type_of _ t _ _ Hp).
    lia. }
  rewrite !Hcount. cbn [IssueType_eqb].
  rewrite Hrl, Hfl, Hlsl, Hlll, Hsl.
  repeat split; try lia.
  destruct (PatternMatcher.count_words text <? 5) eqn:E1;
    destruct (500 <? PatternMatcher.count_words text) eqn:E2; try lia.
  apply Nat.ltb_lt in E1, E2. lia.
Qed.

Lemma deductions_in (issue : PromptIssue) (issues : list PromptIssue) :
  In issue issues ->
  (ScoringSpec.penalty (severity issue) <= ScoringSpec.deductions issues)%Z.
Proof.
  induction issues as [| x issues IH]; intros Hin.
  - contradiction.
  - pose proof (deductions_nonneg issues) as Hnn.
    cbn [ScoringSpec.deductions fold_right].
    fold (ScoringSpec.deductions issues).
    destruct Hin as [-> | Hin].
    + lia.
    + specialize (IH Hin).
      assert (0 <= ScoringSpec.penalty (severity x))%Z
        by (unfold ScoringSpec.penalty; destruct (severity x); lia).
      lia.
Qed.

(** A prompt of fewer than five words scores at most 90 with its own
    rule-based analysis: the too-short issue costs 20, and of the three
    bonuses the one for length is out of reach. *)
Theorem short_prompt_score (text : string) (n n' : nat)
    (issues : list PromptIssue) :
  analyze uuid4_hex8 nlp text n = (Py.Ok issues, n') ->
  PatternMatcher.count_words text < 5 ->
  (calculate_quality_score text issues <= 90)%Z.
Proof.
  intros Hrun Hshort.
  destruct (analyze_parts _ _ _ _ Hrun)
    as (v & r & f & ls & ll & s & p & Heq & _ & _ & _ & _ & [Hls Hlsl] & _).
  assert (E : (PatternMatcher.count_words text <? 5) = true)
    by (apply Nat.ltb_lt; exact Hshort).
  rewrite E in Hlsl.
  destruct ls as [| issue [| ? ?]]; try discriminate Hlsl.
  inversion Hls as [| ? ? [_ [_ Hsev]] _]; subst.
  assert (Hd : (20 <= ScoringSpec.deductions
                        (v ++ r ++ f ++ ([issue] ++ ll) ++ s ++ p))%Z).
  { pose proof (deductions_in issue
                  (v ++ r ++ f ++ ([issue] ++ ll) ++ s ++ p)) as Hin.
    rewrite Hsev in Hin. apply Hin.
    rewrite !in_app_iff. simpl. tauto. }
  rewrite score_refines. unfold ScoringSpec.score.
  nat_test_false (20 <=? PatternMatcher.count_words text).
  unfold ScoringSpec.clamp, ScoringSpec.bonus.
  destruct (PatternMatcher.has_specific_instructions text);
    destruct (PatternMatcher.contains_pattern text
                PatternMatcher.ROLE_PATTERNS); lia.
Qed.

(** A prompt with a role definition and enumerated structure, of 5 to
    500 words, without a match of the vague patterns and with a format
    phrase (or at most 10 words) gets issues from the ambiguous-reference
    check only, at most two, and scores 100: the two bonuses make up for
    them. *)
Theorem structured_prompt_scores_100 (text : string) (n : nat) :
  PatternMatcher.contains_pattern text PatternMatcher.ROLE_PATTERNS = true ->
  PatternMatcher.has_specific_instructions text = true ->
  PatternMatcher.find_matches text PatternMatcher.VAGUE_PATTERNS = [] ->
  (PatternMatcher.contains_pattern text
     (PatternMatcher.FORMAT_PATTERNS ++ PatternMatcher.OUTPUT_PATTERNS) = true
   \/ PatternMatcher.count_words text <= 10) ->
  5 <= PatternMatcher.count_words text <= 500 ->
  exists issues n',
    analyze uuid4_hex8 nlp text n = (Py.Ok issues, n')
    /\ Forall (fun issue => severity issue = Severity.LOW) issues
    /\ List.length issues <= 2
    /\ calculate_quality_score text issues = 100%Z.
Proof.
  intros Hrole Hstruct Hvague Hformat Hwords.
  destruct (check_ambiguous_pronouns_spec uuid4_hex8 nlp text n)
    as [p [n' [Hrun [Hlow Hlen]]]].
  exists p, n'. split; [| split; [exact Hlow | split; [exact Hlen |]]].
  - unfold analyze, bind, _check_vague_instructions, _check_role_definition,
      _check_output_format, _check_length, _check_specificity.
    rewrite Hvague, Hrole, Hstruct. cbn [vague_loop negb]. unfold ret at 1 2.
    replace (negb (PatternMatcher.contains_pattern text
                     (PatternMatcher.FORMAT_PATTERNS
                      ++ PatternMatcher.OUTPUT_PATTERNS))
             && (10 <? Py.len_split text)) with false.
    2:{ symmetry. destruct Hformat as [-> | Hle]; [reflexivity |].
        apply andb_false_iff. right. apply Nat.ltb_ge. exact Hle. }
    nat_test_false (PatternMatcher.count_words text <? 5).
    nat_test_false (500 <? PatternMatcher.count_words text).
    rewrite andb_false_r. unfold ret at 1 2 3.
    rewrite Hrun. reflexivity.
  - rewrite score_refines. unfold ScoringSpec.score.
    rewrite (deductions_low p Hlow), Hrole, Hstruct.
    unfold ScoringSpec.clamp, ScoringSpec.bonus.
    destruct (20 <=? PatternMatcher.count_words text); lia.
Qed.

(** The ambiguous-reference check never raises, whatever the tokenizer
    returns or raises and also when the construction of an issue fails:
    it returns at most two issues, all valid, of type [ambiguous] and of
    low severity. *)
Theorem ambiguous_pronoun_check_returns (text : string) (n : nat) :
  exists issues n',
    _check_ambiguous_pronouns uuid4_hex8 nlp text n = (Py.Ok issues, n')
    /\ Forall (valid_of AMBIGUOUS Severity.LOW) issues
    /\ List.length issues <= 2
    /\ n <= n'.
Proof.
  destruct (check_ambiguous_pronouns_spec uuid4_hex8 nlp text n)
    as [issues [n' [Hrun [_ Hlen]]]].
  exists issues, n'. split; [exact Hrun |].
  unfold _check_ambiguous_pronouns in Hrun.
  destruct (nlp text) as [doc | e].
  - destruct (pronoun_loop_inv _ _ _ _ _ _ Hrun)
      as [new [Heq [[Hle _] [Hvalid _]]]].
    simpl in Heq. subst new. repeat split; assumption.
  - unfold ret in Hrun. injection Hrun as <- <-.
    repeat split; [constructor | simpl; lia | lia].
Qed.

End AnalyzerInvariants.

(** The theorems at the prompt [analyze data] and at a prompt with a role,
    numbered points and a format phrase. *)
Lemma analyze_issues_well_formed_witness :
  RuleBasedAnalyzer.analyze Samples.uuid4_hex8 Samples.nlp "analyze data" 0
  = (Py.Ok [Samples.analyze_data_vague "issue-3f2a9c1e";
            Samples.analyze_data_role "issue-b07d44a2";
            Samples.analyze_data_short "issue-5e61c0f9"], 3)
  /\ AnalyzerSpec.drawn Samples.uuid4_hex8 0 3
       [Samples.analyze_data_vague "issue-3f2a9c1e";
        Samples.analyze_data_role "issue-b07d44a2";
        Samples.analyze_data_short "issue-5e61c0f9"].
Proof.
  assert (Hrun :
    RuleBasedAnalyzer.analyze Samples.uuid4_hex8 Samples.nlp "analyze data" 0
    = (Py.Ok [Samples.analyze_data_vague "issue-3f2a9c1e";
              Samples.analyze_data_role "issue-b07d44a2";
              Samples.analyze_data_short "issue-5e61c0f9"], 3))
    by (vm_compute; reflexivity).
  split; [exact Hrun |].
  exact (proj1 (analyze_issues_well_formed Samples.uuid4_hex8 Samples.nlp
                  "analyze data" 0 3 _ Hrun)).
Defined.

Lemma analyze_issue_counts_witness :
  RuleBasedAnalyzer.analyze Samples.uuid4_hex8 Samples.nlp "analyze data" 0
  = (Py.Ok [Samples.analyze_data_vague "issue-3f2a9c1e";
            Samples.analyze_data_role "issue-b07d44a2";
            Samples.analyze_data_short "issue-5e61c0f9"], 3)
  /\ AnalyzerSpec.count_type MISSING_ROLE
       [Samples.analyze_data_vague "issue-3f2a9c1e";
        Samples.analyze_data_role "issue-b07d44a2";
        Samples.analyze_data_short "issue-5e61c0f9"]
     = (if PatternMatcher.contains_pattern "analyze data"
             PatternMatcher.ROLE_PATTERNS then 0 else 1).
Proof.
  assert (Hrun :
    RuleBasedAnalyzer.analyze Samples.uuid4_hex8 Samples.nlp "analyze data" 0
    = (Py.Ok [Samples.analyze_data_vague "issue-3f2a9c1e";
              Samples.analyze_data_role "issue-b07d44a2";
              Samples.analyze_data_short "issue-5e61c0f9"], 3))
    by (vm_compute; reflexivity).
  split; [exact Hrun |].
  exact (proj1 (analyze_issue_counts Samples.uuid4_hex8 Samples.nlp
                  "analyze data" 0 3 _ Hrun)).
Defined.

Lemma short_prompt_score_witness :
  RuleBasedAnalyzer.analyze Samples.uuid4_hex8 Samples.nlp "analyze data" 0
  = (Py.Ok [Samples.analyze_data_vague "issue-3f2a9c1e";
            Samples.analyze_data_role "issue-b07d44a2";
            Samples.analyze_data_short "issue-5e61c0f9"], 3)
  /\ PatternMatcher.count_words "analyze data" < 5
  /\ (RuleBasedAnalyzer.calculate_quality_score "analyze data"
        [Samples.analyze_data_vague "issue-3f2a9c1e";
         Samples.analyze_data_role "issue-b07d44a2";
         Samples.analyze_data_short "issue-5e61c0f9"] <= 90)%Z.
Proof.
  assert (Hrun :
    RuleBasedAnalyzer.analyze Samples.uuid4_hex8 Samples.nlp "analyze data" 0
    = (Py.Ok [Samples.analyze_data_vague "issue-3f2a9c1e";
              Samples.analyze_data_role "issue-b07d44a2";
              Samples.analyze_data_short "issue-5e61c0f9"], 3))
    by (vm_compute; reflexivity).
  assert (Hshort : PatternMatcher.count_words "analyze data" < 5)
    by (apply Nat.ltb_lt; vm_compute; reflexivity).
  split; [exact Hrun | split; [exact Hshort |]].
  exact (short_prompt_score Samples.uuid4_hex8 Samples.nlp
           "analyze data" 0 3 _ Hrun Hshort).
Defined.

Lemma structured_prompt_scores_100_witness :
  PatternMatcher.contains_pattern Samples.good_prompt
    PatternMatcher.ROLE_PATTERNS = true
  /\ PatternMatcher.find_matches Samples.good_prompt
       PatternMatcher.VAGUE_PATTERNS = []
  /\ PatternMatcher.count_words Samples.good_prompt = 21
  /\ exists issues n',
       RuleBasedAnalyzer.analyze Samples.uuid4_hex8 Samples.nlp
         Samples.good_prompt 0 = (Py.Ok issues, n')
       /\ Forall (fun issue => severity issue = Severity.LOW) issues
       /\ List.length issues <= 2
       /\ RuleBasedAnalyzer.calculate_quality_score Samples.good_prompt issues
          = 100%Z.
Proof.
  assert (Hrole : PatternMatcher.contains_pattern Samples.good_prompt
                    PatternMatcher.ROLE_PATTERNS = true)
    by (vm_compute; reflexivity).
  assert (Hstruct : PatternMatcher.has_specific_instructions
                      Samples.good_prompt = true)
    by (vm_compute; reflexivity).
  assert (Hvague : PatternMatcher.find_matches Samples.good_prompt
                     PatternMatcher.VAGUE_PATTERNS = [])
    by (vm_compute; reflexivity).
  assert (Hformat : PatternMatcher.contains_pattern Samples.good_prompt
                      (PatternMatcher.FORMAT_PATTERNS
                       ++ PatternMatcher.OUTPUT_PATTERNS) = true)
    by (vm_compute; reflexivity).
  assert (Hcount : PatternMatcher.count_words Samples.good_prompt = 21)
    by (vm_compute; reflexivity).
  split; [exact Hrole | split; [exact Hvague | split; [exact Hcount |]]].
  apply (structured_prompt_scores_100 Samples.uuid4_hex8 Samples.nlp
           Samples.good_prompt 0 Hrole Hstruct Hvague (or_introl Hformat)).
  rewrite Hcount. lia.
Defined.

(** ** What the patterns match *)

Section MatchFacts.
Import Re ReSpec.








Lemma finditer_nil_iff (ic : bool) (r : regex) (s : string) :
  forall (prev : option ascii) (pos : nat),
  finditer_from ic r prev pos s 0 = [] <-> search_from ic r prev pos s = None.
Proof.
  induction s as [| c s IH]; intros prev pos; simpl.
  - destruct (match_at ic r prev pos EmptyString); split; intros H;
      try reflexivity; discriminate H.
  - destruct (match_at ic r prev pos (String c s)).
    + split; intros H; discriminate H.
    + apply IH.
Qed.

(** [contains_pattern] and [find_matches] agree: some pattern of a list
    is found in a text exactly when the list has a match in the text. *)
Theorem contains_pattern_iff_match (text : string) (patterns : list regex) :
  PatternMatcher.contains_pattern text patterns = true
  <-> PatternMatcher.find_matches text patterns <> [].
Proof.
  unfold PatternMatcher.contains_pattern, PatternMatcher.find_matches.
  induction patterns as [| r ps IH]; simpl.
  - split; [discriminate | intros H; contradiction H; reflexivity].
  - rewrite orb_true_iff, IH.
    pose proof (finditer_nil_iff true r text None 0) as Hnil.
    unfold search, finditer in *.
    destruct (search_from true r None 0 text) as [m |] eqn:Hs.
    + assert (Hne : finditer_from true r None 0 text 0 <> []).
      { intros Habs. apply Hnil in Habs. discriminate Habs. }
      split; [| auto]. intros _ Habs.
      apply app_eq_nil in Habs. destruct Habs as [Habs _].
      apply map_eq_nil in Habs. contradiction.
    + assert (Hfi : finditer_from true r None 0 text 0 = [])
        by (apply Hnil; reflexivity).
      rewrite Hfi. simpl.
      split; [intros [H | H]; [discriminate H | exact H] | auto].
Qed.




End MatchFacts.

Section VagueSpans.
Import RuleBasedAnalyzer.

Variable uuid4_hex8 : nat -> string.



End VagueSpans.


Section LetterCase.
Import Re ReSpec.

Lemma lower_char_idem (c : ascii) :
  Py.lower_char (Py.lower_char c) = Py.lower_char c.
Proof. destruct c as [[] [] [] [] [] [] [] []]; reflexivity. Qed.

Lemma lower_idem (s : string) : Py.lower (Py.lower s) = Py.lower s.
Proof.
  induction s as [| c s IH]; simpl; [reflexivity |].
  rewrite lower_char_idem, IH. reflexivity.
Qed.

















End LetterCase.


Section WordCount.

Lemma count_fields_lstrip (s : string) :
  Py.count_fields false (Py.lstrip s) = Py.count_fields false s.
Proof.
  induction s as [| c s IH]; simpl; [reflexivity |].
  destruct (Py.isspace c) eqn:Hc; [exact IH |].
  simpl. rewrite Hc. reflexivity.
Qed.

Lemma count_fields_rstrip (s : string) :
  forall in_word : bool,
  Py.count_fields in_word (Py.rstrip s) = Py.count_fields in_word s.
Proof.
  induction s as [| c s IH]; intros in_word; [reflexivity |].
  cbn [Py.rstrip]. destruct (Py.rstrip s) as [| c' r] eqn:Hr.
  - destruct (Py.isspace c) eqn:Hc; cbn [Py.count_fields]; rewrite Hc.
    + rewrite <- IH. reflexivity.
    + rewrite <- IH. reflexivity.
  - remember (String c' r) as t eqn:Ht.
    cbn [Py.count_fields]. destruct (Py.isspace c).
    + apply IH.
    + destruct in_word; rewrite <- IH; reflexivity.
Qed.

Lemma count_words_strip (text : string) :
  PatternMatcher.count_words (Py.strip text)
  = PatternMatcher.count_words text.
Proof.
  unfold PatternMatcher.count_words, Py.len_split, Py.strip.
  rewrite count_fields_rstrip. apply count_fields_lstrip.
Qed.

Lemma lstrip_head (s : string) (c : ascii) (t : string) :
  Py.lstrip s = String c t -> Py.isspace c = false.
Proof.
  induction s as [| x s IH]; simpl; [discriminate |].
  destruct (Py.isspace x) eqn:Hx; [exact IH |].
  intros [= <- _]. exact Hx.
Qed.

Lemma rstrip_word (c : ascii) (t : string) :
  Py.isspace c = false -> Py.rstrip (String c t) <> "".
Proof.
  intros Hc. cbn [Py.rstrip]. destruct (Py.rstrip t); [rewrite Hc |];
    discriminate.
Qed.

Lemma strip_blank_iff (s : string) : Py.strip s = "" <-> Py.lstrip s = "".
Proof.
  unfold Py.strip. split.
  - destruct (Py.lstrip s) as [| c t] eqn:Hl; [reflexivity |].
    intros Habs. apply lstrip_head in Hl.
    contradiction (rstrip_word c t Hl Habs).
  - intros ->. reflexivity.
Qed.

Lemma count_fields_blank_iff (s : string) :
  Py.count_fields false s = 0 <-> Py.lstrip s = "".
Proof.
  induction s as [| c s IH]; simpl; [tauto |].
  destruct (Py.isspace c); [exact IH |].
  split; discriminate.
Qed.

Lemma count_fields_bound (s : string) :
  2 * Py.count_fields true s <= Py.len s
  /\ 2 * Py.count_fields false s <= Py.len s + 1.
Proof.
  unfold Py.len. induction s as [| c s [IHt IHf]]; simpl; [lia |].
  destruct (Py.isspace c); lia.
Qed.

(** The word count and the validator of the request model have the same
    notion of a blank text: a text has no word exactly when nothing is
    left of it after trimming. *)
Theorem count_words_blank_iff (text : string) :
  PatternMatcher.count_words text = 0 <-> Py.strip text = "".
Proof.
  unfold PatternMatcher.count_words, Py.len_split.
  rewrite count_fields_blank_iff. symmetry. apply strip_blank_iff.
Qed.

(** The text of a request that the request model accepts has the words
    of the text as submitted, at least one, and words need room: [k]
    words take at least [2 * k - 1] characters, so that a text of fewer
    than 9 characters has fewer than 5 words. *)
Theorem request_word_count (v : string) (flag : bool)
    (request : AnalysisRequest) :
  AnalysisRequest_new v flag = Py.Ok request ->
  PatternMatcher.count_words (text request) = PatternMatcher.count_words v
  /\ 1 <= PatternMatcher.count_words (text request)
  /\ 2 * PatternMatcher.count_words (text request)
     <= Py.len (text request) + 1
  /\ (Py.len (text request) < 9 ->
      PatternMatcher.count_words (text request) < 5).
Proof.
  intros Hnew.
  destruct (AnalysisRequest_new_spec v flag) as [Hreject Haccept].
  assert (Hne : Py.strip v <> "").
  { intros Hblank. rewrite Hreject in Hnew by (right; left; exact Hblank).
    discriminate Hnew. }
  assert (Hmax : Py.len v <= 5000).
  { destruct (Nat.le_gt_cases (Py.len v) 5000) as [H | H]; [exact H |].
    rewrite Hreject in Hnew by (right; right; exact H). discriminate Hnew. }
  rewrite (Haccept (conj Hne Hmax)) in Hnew.
  injection Hnew as <-. cbn [text].
  pose proof (count_fields_bound (Py.strip v)) as [_ Hbound].
  fold (Py.len_split (Py.strip v)) in Hbound.
  fold (PatternMatcher.count_words (Py.strip v)) in Hbound.
  assert (Hwords : PatternMatcher.count_words (Py.strip v) <> 0).
  { intros Hzero. rewrite count_words_strip in Hzero.
    unfold PatternMatcher.count_words, Py.len_split in Hzero.
    apply count_fields_blank_iff, strip_blank_iff in Hzero.
    exact (Hne Hzero). }
  split; [apply count_words_strip |].
  split; [lia |]. split; [exact Hbound | lia].
Qed.

End WordCount.

(** The theorem at the request [  analyze data ]. *)
Lemma request_word_count_witness :
  AnalysisRequest_new "  analyze data " true
  = Py.Ok (mkAnalysisRequest "analyze data" true)
  /\ PatternMatcher.count_words "analyze data"
     = PatternMatcher.count_words "  analyze data "
  /\ 1 <= PatternMatcher.count_words "analyze data".
Proof.
  assert (Hnew : AnalysisRequest_new "  analyze data " true
                 = Py.Ok (mkAnalysisRequest "analyze data" true))
    by reflexivity.
  split; [exact Hnew |].
  destruct (request_word_count _ _ _ Hnew) as [Hsame [Hone _]].
  split; [exact Hsame | exact Hone].
Defined.

Section ResultModel.

(** The handler of the analysis endpoint never fails on its own result:
    whatever the text, the issues and the token count, the result that
    it builds passes the validation of the result model, its score lies
    between 0 and 100, and score and estimated improvement add up to
    100. *)
Theorem analysis_result_valid (text : string) (l : list PromptIssue)
    (tokens : nat) :
  exists r,
    server_result.analysis_result text l tokens = Py.Ok r
    /\ issues r = l
    /\ quality_score r = HybridAnalyzer.calculate_quality_score text l
    /\ (0 <= quality_score r <= 100)%Z
    /\ token_count r = Z.of_nat tokens
    /\ exists improvement,
         estimated_improvement r = Some improvement
         /\ (quality_score r + improvement = 100)%Z.
Proof.
  unfold server_result.analysis_result, AnalysisResult_new,
    HybridAnalyzer.calculate_quality_score.
  pose proof (score_range text l) as Hrange.
  set (score := RuleBasedAnalyzer.calculate_quality_score text l) in *.
  assert (Hvalid :
    AnalysisResult_valid
      (mkAnalysisResult l score (Z.of_nat tokens)
         (Some (Z.max 0 (100 - score)))) = true).
  { unfold AnalysisResult_valid. cbn [quality_score token_count
      estimated_improvement].
    rewrite !andb_true_iff, !Z.leb_le. lia. }
  rewrite Hvalid. eexists. split; [reflexivity |].
  cbn [issues quality_score token_count estimated_improvement].
  split; [reflexivity |]. split; [reflexivity |]. split; [exact Hrange |].
  split; [reflexivity |].
  exists (Z.max 0 (100 - score)). split; [reflexivity | lia].
Qed.

End ResultModel.

Section Metrics.
Import mcp_server MetricsSpec AnalyzerSpec.

Lemma severity_counts_add_up (l : list PromptIssue) :
  count_severity "critical" l + count_severity "medium" l
  + count_severity "low" l = List.length l.
Proof.
  unfold count_severity. induction l as [| i l IH]; [reflexivity |].
  cbn [filter List.length]. destruct (severity i); simpl; lia.
Qed.

Lemma string_get_set_same (k : string) (v : nat) (d : list (string * nat)) :
  Py.dict_get String.eqb k (Py.dict_set String.eqb k v d) = Py.Ok v.
Proof.
  induction d as [| [k' v'] d IH]; simpl.
  - rewrite String.eqb_refl. reflexivity.
  - destruct (String.eqb k k') eqn:E; simpl; rewrite E; [reflexivity | exact IH].
Qed.

Lemma string_get_set_other (k k0 : string) (v : nat)
    (d : list (string * nat)) :
  k0 <> k ->
  Py.dict_get String.eqb k0 (Py.dict_set String.eqb k v d)
  = Py.dict_get String.eqb k0 d.
Proof.
  intros Hne. induction d as [| [k' v'] d IH]; simpl.
  - apply String.eqb_neq in Hne. rewrite Hne. reflexivity.
  - destruct (String.eqb k k') eqn:E; simpl.
    + apply String.eqb_eq in E. subst k'.
      apply String.eqb_neq in Hne. rewrite Hne. reflexivity.
    + rewrite IH. reflexivity.
Qed.

Lemma total_set_next (k : string) (d : list (string * nat)) :
  total
    (Py.dict_set String.eqb k
       (match Py.dict_get String.eqb k d with
        | Py.Ok c => c
        | Py.Raise _ => 0
        end + 1) d)
  = total d + 1.
Proof.
  unfold total, Py.dict_values.
  induction d as [| [k' v'] d IH]; simpl; [reflexivity |].
  destruct (String.eqb k k'); simpl; [lia |].
  rewrite IH. lia.
Qed.

Lemma set_keys (k k0 : string) (v : nat) (d : list (string * nat)) :
  In k0 (map fst (Py.dict_set String.eqb k v d)) ->
  k0 = k \/ In k0 (map fst d).
Proof.
  induction d as [| [k' v'] d IH]; simpl.
  - intros [H | []]. left. symmetry. exact H.
  - destruct (String.eqb k k'); simpl.
    + intros H. right. exact H.
    + intros [H | H]; [right; left; exact H |].
      destruct (IH H) as [H' | H']; [left; exact H' | right; right; exact H'].
Qed.

Lemma set_keys_nodup (k : string) (v : nat) (d : list (string * nat)) :
  NoDup (map fst d) -> NoDup (map fst (Py.dict_set String.eqb k v d)).
Proof.
  induction d as [| [k' v'] d IH]; simpl; intros Hnd.
  - constructor; [intros [] | constructor].
  - inversion Hnd as [| x xs Hnotin Hrest]; subst.
    destruct (String.eqb k k') eqn:E; simpl.
    + constructor; assumption.
    + constructor; [| apply IH, Hrest].
      intros Hin. apply set_keys in Hin. destruct Hin as [Hk | Hin].
      * subst k'. rewrite String.eqb_refl in E. discriminate E.
      * contradiction.
Qed.

Lemma IssueType_value_inj (a b : IssueType) :
  enums.IssueType_value a = enums.IssueType_value b -> a = b.
Proof. destruct a, b; simpl; intros H; try reflexivity; discriminate H. Qed.

Lemma type_breakdown_snoc (l : list PromptIssue) (i : PromptIssue) :
  type_breakdown (l ++ [i]) = type_breakdown_step (type_breakdown l) i.
Proof. unfold type_breakdown. rewrite fold_left_app. reflexivity. Qed.

Lemma count_type_snoc (t : IssueType) (l : list PromptIssue)
    (i : PromptIssue) :
  count_type t (l ++ [i])
  = count_type t l + (if IssueType_eqb (type i) t then 1 else 0).
Proof.
  unfold count_type. rewrite filter_app, length_app. simpl.
  destruct (IssueType_eqb (type i) t); reflexivity.
Qed.

Lemma type_breakdown_lookup (l : list PromptIssue) (t : IssueType) :
  Py.dict_get String.eqb (enums.IssueType_value t) (type_breakdown l)
  = if count_type t l =? 0 then Py.Raise Py.KeyError
    else Py.Ok (count_type t l).
Proof.
  induction l as [| i l IH] using rev_ind; [reflexivity |].
  rewrite type_breakdown_snoc, count_type_snoc.
  unfold type_breakdown_step.
  destruct (IssueType_eqb (type i) t) eqn:E.
  - assert (Ht : type i = t) by (destruct (type i), t; simpl in E;
      try reflexivity; discriminate E).
    rewrite Ht, string_get_set_same, IH.
    destruct (count_type t l) as [| c]; simpl.
    + reflexivity.
    + replace (c + 1 =? 0) with false
        by (symmetry; apply Nat.eqb_neq; lia).
      reflexivity.
  - rewrite string_get_set_other.
    + rewrite IH, Nat.add_0_r. reflexivity.
    + intros Heq. apply IssueType_value_inj in Heq. subst t.
      destruct (type i); discriminate E.
Qed.

(** The breakdowns of [get_quality_metrics] account for every issue
    once: the three counts by severity add up to the number of issues,
    and so do the counts by type; the breakdown by type has one entry
    for each type that occurs, holding the number of issues of that
    type, and no entry for a type that does not occur. *)
Theorem breakdowns_count_every_issue (l : list PromptIssue) :
  total (severity_breakdown l) = List.length l
  /\ total (type_breakdown l) = List.length l
  /\ NoDup (map fst (type_breakdown l))
  /\ forall t : IssueType,
       Py.dict_get String.eqb (enums.IssueType_value t) (type_breakdown l)
       = if count_type t l =? 0 then Py.Raise Py.KeyError
         else Py.Ok (count_type t l).
Proof.
  split; [| split; [| split]].
  - pose proof (severity_counts_add_up l) as Hsum.
    unfold total, severity_breakdown, Py.dict_values. simpl. lia.
  - induction l as [| i l IH] using rev_ind; [reflexivity |].
    rewrite type_breakdown_snoc, length_app. unfold type_breakdown_step.
    rewrite total_set_next, IH. reflexivity.
  - induction l as [| i l IH] using rev_ind; [constructor |].
    rewrite type_breakdown_snoc. unfold type_breakdown_step.
    apply set_keys_nodup, IH.
  - intros t. apply type_breakdown_lookup.
Qed.

End Metrics.

Section DeepAnalysis.
Import RuleBasedAnalyzer HybridAnalyzer FusionSpec AnalyzerSpec.

Variable uuid4_hex8 : nat -> string.
Variable nlp : string -> Py.result (list spacy.Token).
Variable reply_issues : string -> Py.result (list LLMOptimizer.issue_entry).

Lemma llm_id_prefix (hex : string) :
  Py.startswith ("llm-" ++ hex) "llm-" = true.
Proof. unfold Py.startswith. destruct hex; reflexivity. Qed.

Lemma rule_id_prefix (hex : string) :
  Py.startswith ("issue-" ++ hex) "llm-" = false.
Proof. reflexivity. Qed.

Lemma issue_of_inv (text : string) (d : LLMOptimizer.issue_entry) (n : nat) :
  match LLMOptimizer.issue_of uuid4_hex8 text d n with
  | (Py.Ok issue, n') =>
      n' = S n
      /\ id issue = ("llm-" ++ uuid4_hex8 n)%string
      /\ PromptIssue_valid issue = true
  | (Py.Raise _, n') => n' = S n
  end.
Proof.
  unfold LLMOptimizer.issue_of, LLMOptimizer.fresh_id, bind, lift.
  destruct (LLMOptimizer.subscript (LLMOptimizer.entry_type d));
    [| reflexivity].
  destruct (enums.IssueType_of _); [| reflexivity].
  destruct (LLMOptimizer.subscript (LLMOptimizer.entry_severity d));
    [| reflexivity].
  destruct (enums.Severity_of _); [| reflexivity].
  destruct (LLMOptimizer.subscript (LLMOptimizer.entry_message d));
    [| reflexivity].
  destruct (LLMOptimizer.subscript (LLMOptimizer.entry_suggestion d));
    [| reflexivity].
  destruct (enums.Impact_of _); [| reflexivity].
  unfold PromptIssue_new.
  match goal with
  | |- context [PromptIssue_valid ?i] =>
      destruct (PromptIssue_valid i) eqn:Hvalid
  end; [| reflexivity].
  split; [reflexivity | split; [reflexivity | exact Hvalid]].
Qed.

Lemma issues_loop_inv (text : string)
    (entries : list LLMOptimizer.issue_entry) :
  forall (acc : list PromptIssue) (n : nat),
  exists new,
    LLMOptimizer.issues_loop uuid4_hex8 text entries acc n
    = (Py.Ok (acc ++ new), n + List.length entries)
    /\ Forall
         (fun issue =>
            PromptIssue_valid issue = true
            /\ exists k,
                 n <= k < n + List.length entries
                 /\ id issue = ("llm-" ++ uuid4_hex8 k)%string)
         new
    /\ List.length new <= List.length entries.
Proof.
  induction entries as [| d entries IH]; intros acc n.
  - exists []. simpl. unfold ret. rewrite app_nil_r, Nat.add_0_r.
    split; [reflexivity | split; [constructor | lia]].
  - cbn [LLMOptimizer.issues_loop List.length]. unfold bind at 1.
    unfold try_except, bind, ret.
    pose proof (issue_of_inv text d n) as Hone.
    destruct (LLMOptimizer.issue_of uuid4_hex8 text d n)
      as [[issue | e] n1].
    + destruct Hone as [-> [Hid Hvalid]].
      destruct (IH (acc ++ [issue]) (S n)) as [new [Hrun [Hall Hlen]]].
      exists (issue :: new). rewrite Hrun, <- app_assoc.
      replace (S n + List.length entries)
        with (n + S (List.length entries)) by lia.
      split; [reflexivity | split; [| simpl; lia]].
      constructor.
      * split; [exact Hvalid |]. exists n. split; [lia | exact Hid].
      * eapply Forall_impl; [| exact Hall].
        intros i [Hv [k [Hk Hi]]]. split; [exact Hv |].
        exists k. split; [lia | exact Hi].
    + subst n1.
      destruct (IH acc (S n)) as [new [Hrun [Hall Hlen]]].
      exists new. rewrite Hrun.
      replace (S n + List.length entries)
        with (n + S (List.length entries)) by lia.
      split; [reflexivity | split; [| lia]].
      eapply Forall_impl; [| exact Hall].
      intros i [Hv [k [Hk Hi]]]. split; [exact Hv |].
      exists k. split; [lia | exact Hi].
Qed.

Lemma analyze_with_llm_inv (text : string) (n : nat) :
  exists llm_issues n',
    LLMOptimizer.analyze_with_llm uuid4_hex8 reply_issues text n
    = (Py.Ok llm_issues, n')
    /\ Forall
         (fun issue =>
            PromptIssue_valid issue = true
            /\ exists k,
                 n <= k < n' /\ id issue = ("llm-" ++ uuid4_hex8 k)%string)
         llm_issues
    /\ match reply_issues text with
       | Py.Ok entries =>
           n' = n + List.length entries
           /\ List.length llm_issues <= List.length entries
       | Py.Raise _ => llm_issues = [] /\ n' = n
       end.
Proof.
  unfold LLMOptimizer.analyze_with_llm, try_except, bind, lift, ret.
  destruct (reply_issues text) as [entries | e].
  - destruct (issues_loop_inv text entries [] n) as [new [Hrun [Hall Hlen]]].
    rewrite Hrun. exists new, (n + List.length entries).
    split; [reflexivity | split; [exact Hall | split; [reflexivity | exact Hlen]]].
  - exists [], n. split; [reflexivity | split; [constructor | split; reflexivity]].
Qed.

(** The deep analysis of the language model never raises: when the call
    or the reading of the reply fails it returns no issue; otherwise it
    draws one identifier for each entry of the reply, passes over the
    entries from which no valid issue can be built, and returns valid
    issues whose identifiers are [llm-] followed by the identifier drawn
    for their entry. *)
Theorem analyze_with_llm_never_raises (text : string) (n : nat) :
  exists llm_issues n',
    LLMOptimizer.analyze_with_llm uuid4_hex8 reply_issues text n
    = (Py.Ok llm_issues, n')
    /\ Forall
         (fun issue =>
            PromptIssue_valid issue = true
            /\ Py.startswith (id issue) "llm-" = true
            /\ exists k,
                 n <= k < n' /\ id issue = ("llm-" ++ uuid4_hex8 k)%string)
         llm_issues
    /\ match reply_issues text with
       | Py.Ok entries =>
           n' = n + List.length entries
           /\ List.length llm_issues <= List.length entries
       | Py.Raise _ => llm_issues = [] /\ n' = n
       end.
Proof.
  destruct (analyze_with_llm_inv text n) as [l [n' [Hrun [Hall Hreply]]]].
  exists l, n'. split; [exact Hrun | split; [| exact Hreply]].
  eapply Forall_impl; [| exact Hall].
  intros issue [Hvalid [k [Hk Hid]]].
  split; [exact Hvalid | split; [| exists k; split; [exact Hk | exact Hid]]].
  rewrite Hid. apply llm_id_prefix.
Qed.

Lemma fuse_covers (rule_issues llm_issues : list PromptIssue) :
  exists out,
    fuse rule_issues llm_issues = Py.Ok out
    /\ (forall issue, In issue out -> In issue (rule_issues ++ llm_issues))
    /\ forall issue,
         In issue (rule_issues ++ llm_issues) ->
         exists best,
           In best out
           /\ position_key best = position_key issue
           /\ ~ ranks_below best issue.
Proof.
  unfold fuse. set (all_issues := rule_issues ++ llm_issues).
  destruct (deduplicate_detail all_issues) as [winners [Hrun Hall]].
  exists (Py.sort_by start winners). split; [exact Hrun |]. split.
  - intros best Hbest.
    apply (Permutation_in _ (sort_by_perm start winners)) in Hbest.
    destruct (Forall2_in_r _ _ _ _ Hall Hbest) as [entry [_ [_ [Hmax _]]]].
    apply first_maximal_in in Hmax. unfold bucket in Hmax.
    apply filter_In in Hmax. apply Hmax.
  - intros issue Hissue.
    assert (Hkey : In (position_key issue)
                      (map fst (Grouping.grouped all_issues []))).
    { apply grouped_keys. right. apply in_map, Hissue. }
    apply in_map_iff in Hkey. destruct Hkey as [entry [Hfst Hentry]].
    destruct (Forall2_in_l _ _ _ _ Hall Hentry)
      as [best [Hbest [_ [Hmax Hbkey]]]].
    exists best. split; [| split; [congruence |]].
    + eapply Permutation_in;
        [apply Permutation_sym, sort_by_perm | exact Hbest].
    + apply (first_maximal_dominates _ _ _ Hmax).
      unfold bucket. apply filter_In. split; [exact Hissue |].
      apply key_eqb_eq. symmetry. exact Hfst.
Qed.

(** The deep path of the hybrid analysis, with the analyzers of the
    repository in place.  It raises only when the rule-based analysis
    does.  Otherwise it returns issues of the two analyzers; an issue of
    the result comes from the language model exactly when its identifier
    begins with [llm-]; and for every issue of the language model the
    result keeps, in the same bucket, an issue that is at least as
    severe and that, when it is exactly as severe, is itself an issue of
    the language model. *)
Theorem deep_analysis_prefers_llm (text : string) (n : nat) :
  match RuleBasedAnalyzer.analyze uuid4_hex8 nlp text n with
  | (Py.Raise e, n1) =>
      HybridAnalyzer.analyze uuid4_hex8 nlp
        (LLMOptimizer.analyze_with_llm uuid4_hex8 reply_issues) text true n
      = (Py.Raise e, n1)
  | (Py.Ok rule_issues, n1) =>
      exists llm_issues out n',
        LLMOptimizer.analyze_with_llm uuid4_hex8 reply_issues text n1
        = (Py.Ok llm_issues, n')
        /\ HybridAnalyzer.analyze uuid4_hex8 nlp
             (LLMOptimizer.analyze_with_llm uuid4_hex8 reply_issues)
             text true n
           = (Py.Ok out, n')
        /\ (forall issue,
              In issue out -> In issue (rule_issues ++ llm_issues))
        /\ (forall issue,
              In issue out ->
              (Py.startswith (id issue) "llm-" = true
               <-> In issue llm_issues))
        /\ (forall issue,
              In issue llm_issues ->
              exists best,
                In best out
                /\ position_key best = position_key issue
                /\ (severity_order_get (Severity.value (severity issue))
                    <= severity_order_get (Severity.value (severity best)))%Z
                /\ (severity best = severity issue -> In best llm_issues))
  end.
Proof.
  unfold HybridAnalyzer.analyze, bind, lift.
  destruct (RuleBasedAnalyzer.analyze uuid4_hex8 nlp text n)
    as [[rule_issues | e] n1] eqn:Hrule; [| reflexivity].
  cbn [negb].
  destruct (analyze_with_llm_inv text n1) as [llm [n' [Hllm [Hids _]]]].
  destruct (fuse_covers rule_issues llm) as [out [Hfuse [Hfrom Hcover]]].
  rewrite Hllm, Hfuse.
  assert (Hrule_ids : forall issue,
            In issue rule_issues -> Py.startswith (id issue) "llm-" = false).
  { destruct (analyze_parts uuid4_hex8 nlp _ _ _ _ Hrule)
      as (v & r & f & ls & ll & s & p & _ & Hdrawn & _).
    pose proof (drawn_ids uuid4_hex8 _ _ _ Hdrawn) as Hall.
    rewrite Forall_forall in Hall.
    intros issue Hin. destruct (Hall _ Hin) as [k [_ Hid]].
    rewrite Hid. apply rule_id_prefix. }
  assert (Hllm_ids : forall issue,
            In issue llm -> Py.startswith (id issue) "llm-" = true).
  { rewrite Forall_forall in Hids.
    intros issue Hin. destruct (Hids _ Hin) as [_ [k [_ Hid]]].
    rewrite Hid. apply llm_id_prefix. }
  assert (Hsplit : forall issue,
            In issue out ->
            (Py.startswith (id issue) "llm-" = true <-> In issue llm)).
  { intros issue Hin. split; [| apply Hllm_ids].
    intros Hprefix. apply Hfrom, in_app_or in Hin.
    destruct Hin as [Hin | Hin]; [| exact Hin].
    rewrite (Hrule_ids _ Hin) in Hprefix. discriminate Hprefix. }
  exists llm, out, n'.
  split; [reflexivity | split; [reflexivity | split; [exact Hfrom |]]].
  split; [exact Hsplit |].
  intros issue Hin.
  destruct (Hcover issue (in_or_app _ _ _ (or_intror Hin)))
    as [best [Hbest [Hkey Hdom]]].
  exists best. split; [exact Hbest | split; [exact Hkey |]].
  unfold ranks_below in Hdom. rewrite pair_lt_spec in Hdom.
  unfold selection_key in Hdom. simpl in Hdom.
  rewrite (Hllm_ids _ Hin) in Hdom.
  split; [lia |].
  intros Hsev. apply (Hsplit best Hbest). rewrite Hsev in Hdom.
  destruct (Py.startswith (id best) "llm-"); [reflexivity | lia].
Qed.

End DeepAnalysis.

Section UpToIdentifiers.
Import RuleBasedAnalyzer UpToIds.

Variables uuid4_hex8 uuid4_hex8' : nat -> string.
Variable nlp : string -> Py.result (list spacy.Token).

Lemma alike_ret (l l' : list PromptIssue) (n n' : nat) :
  map anonymous l = map anonymous l' -> alike (ret l n) (ret l' n').
Proof. intros H. exact H. Qed.

Lemma alike_bind (m m' : M (list PromptIssue))
    (k k' : list PromptIssue -> M (list PromptIssue)) (n n' : nat) :
  alike (m n) (m' n') ->
  (forall a a' n1 n1',
     map anonymous a = map anonymous a' -> alike (k a n1) (k' a' n1')) ->
  alike (bind m k n) (bind m' k' n').
Proof.
  unfold alike, bind.
  destruct (m n) as [[a | e] n1], (m' n') as [[a' | e'] n1']; simpl;
    intros H Hk; try contradiction.
  - apply Hk, H.
  - exact H.
Qed.

(** The validation of an issue does not look at its identifier. *)
Lemma new_issue_alike (st en : Z) (t : IssueType) (s : Severity.t)
    (msg sug : string) (imp : Impact.t) (n n' : nat) :
  match new_issue uuid4_hex8 st en t s msg sug imp n,
        new_issue uuid4_hex8' st en t s msg sug imp n' with
  | (Py.Ok a, _), (Py.Ok b, _) => anonymous a = anonymous b
  | (Py.Raise e, _), (Py.Raise e', _) => e = e'
  | _, _ => False
  end.
Proof.
  unfold new_issue, bind, fresh_id, lift, PromptIssue_new, PromptIssue_valid.
  cbn [start end_ message suggestion].
  match goal with
  | |- context [if ?c then _ else _] => destruct c
  end; reflexivity.
Qed.

Lemma single_alike (st en : Z) (t : IssueType) (s : Severity.t)
    (msg sug : string) (imp : Impact.t) (n n' : nat) :
  alike
    ((issue <- new_issue uuid4_hex8 st en t s msg sug imp ;; ret [issue]) n)
    ((issue <- new_issue uuid4_hex8' st en t s msg sug imp ;; ret [issue])
       n').
Proof.
  pose proof (new_issue_alike st en t s msg sug imp n n') as Hone.
  unfold alike, bind, ret.
  destruct (new_issue uuid4_hex8 st en t s msg sug imp n) as [[a | e] n1],
           (new_issue uuid4_hex8' st en t s msg sug imp n') as [[b | e'] n1'];
    simpl; try contradiction.
  - rewrite Hone. reflexivity.
  - exact Hone.
Qed.

Lemma vague_loop_alike (text : string) (ms : list (nat * nat * string)) :
  forall (acc acc' : list PromptIssue) (n n' : nat),
  map anonymous acc = map anonymous acc' ->
  alike (vague_loop uuid4_hex8 text ms acc n)
        (vague_loop uuid4_hex8' text ms acc' n').
Proof.
  induction ms as [| [[st en] mt] ms IH]; intros acc acc' n n' Hacc;
    cbn [vague_loop].
  - apply alike_ret, Hacc.
  - destruct (negb _).
    + unfold bind.
      match goal with
      | |- context [new_issue uuid4_hex8 ?a ?b ?t ?s ?m ?g ?i n] =>
          pose proof (new_issue_alike a b t s m g i n n') as Hone;
          destruct (new_issue uuid4_hex8 a b t s m g i n) as [[x | e] n1];
          destruct (new_issue uuid4_hex8' a b t s m g i n')
            as [[y | e'] n1']
      end; try contradiction.
      * apply IH. rewrite !map_app, Hacc. simpl. rewrite Hone. reflexivity.
      * exact Hone.
    + apply IH, Hacc.
Qed.

Lemma pronoun_loop_alike (tokens : list spacy.Token) :
  forall (i : nat) (acc acc' : list PromptIssue) (n n' : nat),
  map anonymous acc = map anonymous acc' ->
  alike (pronoun_loop uuid4_hex8 tokens i acc n)
        (pronoun_loop uuid4_hex8' tokens i acc' n').
Proof.
  induction tokens as [| token tokens IH]; intros i acc acc' n n' Hacc;
    cbn [pronoun_loop].
  - apply alike_ret, Hacc.
  - destruct (_ && _); [| apply IH, Hacc].
    destruct (i <? 2); [| apply IH, Hacc].
    unfold try_except, bind.
    match goal with
    | |- context [new_issue uuid4_hex8 ?a ?b ?t ?s ?m ?g ?im n] =>
        pose proof (new_issue_alike a b t s m g im n n') as Hone;
        destruct (new_issue uuid4_hex8 a b t s m g im n) as [[x | e] n1];
        destruct (new_issue uuid4_hex8' a b t s m g im n')
          as [[y | e'] n1']
    end; try contradiction.
    + assert (Hnext : map anonymous (acc ++ [x])
                      = map anonymous (acc' ++ [y])).
      { rewrite !map_app, Hacc. simpl. rewrite Hone. reflexivity. }
      specialize (IH (S i) _ _ n1 n1' Hnext). unfold alike in *.
      destruct (pronoun_loop uuid4_hex8 tokens (S i) (acc ++ [x]) n1)
        as [[l | e] n2],
        (pronoun_loop uuid4_hex8' tokens (S i) (acc' ++ [y]) n1')
        as [[l' | e'] n2']; simpl in *; try contradiction.
      * exact IH.
      * exact Hacc.
    + apply alike_ret, Hacc.
Qed.

Lemma optional_alike (cond : bool) (st en : Z) (t : IssueType)
    (s : Severity.t) (msg sug : string) (imp : Impact.t) (n n' : nat) :
  alike
    ((if cond
      then issue <- new_issue uuid4_hex8 st en t s msg sug imp ;; ret [issue]
      else ret []) n)
    ((if cond
      then issue <- new_issue uuid4_hex8' st en t s msg sug imp ;; ret [issue]
      else ret []) n').
Proof.
  destruct cond; [apply single_alike | apply alike_ret; reflexivity].
Qed.

Lemma analyze_alike (text : string) (n n' : nat) :
  alike (analyze uuid4_hex8 nlp text n) (analyze uuid4_hex8' nlp text n').
Proof.
  unfold analyze.
  apply alike_bind.
  { apply vague_loop_alike. reflexivity. }
  intros v v' n1 n1' Hv. apply alike_bind.
  { apply optional_alike. }
  intros r r' n2 n2' Hr. apply alike_bind.
  { apply optional_alike. }
  intros f f' n3 n3' Hf. apply alike_bind.
  { unfold _check_length. destruct (_ <? 5); [apply single_alike |].
    apply optional_alike. }
  intros ln ln' n4 n4' Hln. apply alike_bind.
  { apply optional_alike. }
  intros s s' n5 n5' Hs. apply alike_bind.
  { unfold _check_ambiguous_pronouns. destruct (nlp text).
    - apply pronoun_loop_alike. reflexivity.
    - apply alike_ret. reflexivity. }
  intros p p' n6 n6' Hp. apply alike_ret.
  rewrite !map_app. simpl. congruence.
Qed.

Lemma deductions_anonymous (l : list PromptIssue) :
  ScoringSpec.deductions (map anonymous l) = ScoringSpec.deductions l.
Proof. induction l as [| i l IH]; simpl; [| rewrite IH]; reflexivity. Qed.

Lemma score_anonymous (text : string) (l l' : list PromptIssue) :
  map anonymous l = map anonymous l' ->
  calculate_quality_score text l = calculate_quality_score text l'.
Proof.
  intros H. rewrite !score_refines. unfold ScoringSpec.score.
  rewrite <- (deductions_anonymous l), <- (deductions_anonymous l'), H.
  reflexivity.
Qed.

(** The identifiers are all that two analyses of a text can differ in:
    whatever identifiers are drawn, and however many were drawn before,
    the rule-based analysis either raises the same exception or returns
    the same issues up to their identifiers, and with them the same
    quality score. *)
Theorem analysis_determined_up_to_ids (text : string) (n n' : nat) :
  match analyze uuid4_hex8 nlp text n, analyze uuid4_hex8' nlp text n' with
  | (Py.Ok l, _), (Py.Ok l', _) =>
      map anonymous l = map anonymous l'
      /\ calculate_quality_score text l = calculate_quality_score text l'
  | (Py.Raise e, _), (Py.Raise e', _) => e = e'
  | _, _ => False
  end.
Proof.
  pose proof (analyze_alike text n n') as H. unfold alike in H.
  destruct (analyze uuid4_hex8 nlp text n) as [[l | e] n1],
           (analyze uuid4_hex8' nlp text n') as [[l' | e'] n1'];
    simpl in H; try contradiction.
  - split; [exact H | apply score_anonymous, H].
  - exact H.
Qed.

End UpToIdentifiers.

Section OptimizeFailure.
Import RuleBasedAnalyzer UpToIds.

Variable uuid4_hex8 : nat -> string.
Variable nlp : string -> Py.result (list spacy.Token).
Variable analyze_with_llm : string -> M (list PromptIssue).
Variable reply_optimization :
  string -> string -> string -> Py.result LLMOptimizer.optimization.
Variable count_tokens : string -> nat.

(** When the language model fails to optimize, the optimization handler
    reports no change: unless the rule-based analysis of the text
    raises, the result is valid and holds the text itself, no
    improvements, no token savings and no quality improvement, with
    equal scores before and after. *)
Theorem optimization_unchanged_on_failure (text focus level : string)
    (e : Py.exn) (n : nat) :
  reply_optimization text focus level = Py.Raise e ->
  1 <= Py.len text ->
  match RuleBasedAnalyzer.analyze uuid4_hex8 nlp text n with
  | (Py.Raise e', n1) =>
      server_result.optimization_result uuid4_hex8 nlp analyze_with_llm
        reply_optimization count_tokens text focus level n
      = (Py.Raise e', n1)
  | (Py.Ok before_issues, n1) =>
      exists r n',
        server_result.optimization_result uuid4_hex8 nlp analyze_with_llm
          reply_optimization count_tokens text focus level n
        = (Py.Ok r, n')
        /\ optimized_prompt r = text
        /\ improvements r = []
        /\ token_savings r = 0%Z
        /\ quality_improvement r = 0%Z
        /\ before_score r = after_score r
        /\ before_score r
           = HybridAnalyzer.calculate_quality_score text before_issues
  end.
Proof.
  intros Hfail Hlen.
  unfold server_result.optimization_result, LLMOptimizer.optimize_prompt.
  rewrite Hfail. cbn [LLMOptimizer.reply_optimized_prompt
    LLMOptimizer.reply_improvements LLMOptimizer.get].
  unfold bind, lift. rewrite !analyze_without_llm.
  pose proof (fun n1 => analyze_alike uuid4_hex8 uuid4_hex8 nlp text n n1)
    as Hsame.
  destruct (RuleBasedAnalyzer.analyze uuid4_hex8 nlp text n)
    as [[before | e'] n1]; [| reflexivity].
  rewrite analyze_without_llm.
  specialize (Hsame n1). unfold alike in Hsame. simpl in Hsame.
  destruct (RuleBasedAnalyzer.analyze uuid4_hex8 nlp text n1)
    as [[after | e'] n2]; [| contradiction].
  unfold HybridAnalyzer.calculate_quality_score.
  rewrite <- (score_anonymous text before after Hsame).
  pose proof (score_range text before) as Hrange.
  set (score := RuleBasedAnalyzer.calculate_quality_score text before) in *.
  unfold OptimizationResult_new. cbn [Improvements_new].
  assert (Hvalid :
    (1 <=? Py.len text) && (0 <=? score)%Z && (score <=? 100)%Z
    && (0 <=? score)%Z && (score <=? 100)%Z = true).
  { rewrite !andb_true_iff, !Z.leb_le, Nat.leb_le. lia. }
  rewrite Hvalid. eexists. exists n2. split; [reflexivity |].
  cbn [optimized_prompt improvements token_savings quality_improvement
       before_score after_score].
  repeat split; lia.
Qed.

End OptimizeFailure.

(** The theorem at the prompt [analyze data] with a model that is not
    reachable. *)
Lemma optimization_unchanged_on_failure_witness :
  1 <= Py.len "analyze data"
  /\ match RuleBasedAnalyzer.analyze Samples.uuid4_hex8 Samples.nlp
             "analyze data" 0 with
     | (Py.Raise e', n1) =>
         server_result.optimization_result Samples.uuid4_hex8 Samples.nlp
           (fun _ => RuleBasedAnalyzer.ret [])
           (fun _ _ _ => Py.Raise Py.RuntimeError) Py.len
           "analyze data" "all" "balanced" 0
         = (Py.Raise e', n1)
     | (Py.Ok before_issues, n1) =>
         exists r n',
           server_result.optimization_result Samples.uuid4_hex8 Samples.nlp
             (fun _ => RuleBasedAnalyzer.ret [])
             (fun _ _ _ => Py.Raise Py.RuntimeError) Py.len
             "analyze data" "all" "balanced" 0
           = (Py.Ok r, n')
           /\ optimized_prompt r = "analyze data"
           /\ improvements r = []
           /\ token_savings r = 0%Z
           /\ quality_improvement r = 0%Z
           /\ before_score r = after_score r
           /\ before_score r
              = HybridAnalyzer.calculate_quality_score "analyze data"
                  before_issues
     end.
Proof.
  assert (Hlen : 1 <= Py.len "analyze data") by (simpl; lia).
  split; [exact Hlen |].
  exact (optimization_unchanged_on_failure Samples.uuid4_hex8 Samples.nlp
           (fun _ => RuleBasedAnalyzer.ret [])
           (fun _ _ _ => Py.Raise Py.RuntimeError) Py.len
           "analyze data" "all" "balanced" Py.RuntimeError 0
           eq_refl Hlen).
Defined.
